(** * Attendance register: check-in classification, statistics and store

    A shallow embedding of the attendance-register application
    (helpers.js, excel.js, supabase.js, supabase-schema.sql and the
    student check-in view) together with the properties its specification
    states about it.

    Layout: [JS] holds the JavaScript built-ins the code relies on
    (binary64 numbers, [Math.round], [Date], [String.prototype.trim]);
    [Schema] the rows of supabase-schema.sql; [Helpers] and [Excel] the pure
    functions; [Supabase] the relational store with its constraints and the
    data-access functions; [App] the student check-in view.  All theorems
    come after the definitions. *)

From Stdlib Require Import ZArith QArith Qround List String Ascii Bool Lia.
From Stdlib Require Import Permutation Sorted DecimalString.
From Stdlib Require Import Floats.SpecFloat.
From Stdlib Require OrderedTypeEx.
Import ListNotations.

Open Scope string_scope.
Open Scope Z_scope.

(* ===================================================================== *)
(** ** JavaScript built-ins *)
(* ===================================================================== *)

Module JS.

(** *** binary64 numbers

    A JavaScript number is an IEEE-754 binary64 value; [spec_float] with
    precision 53 and maximal exponent 1024 is the standard library's
    executable specification of that format. *)

Definition prec : Z := 53.
Definition emax : Z := 1024.

Definition f64 : Type := spec_float.

(** The number denoted by an integer literal or an integer-valued
    variable (exact for integers below 2^53 in magnitude). *)
Definition of_Z (z : Z) : f64 := binary_normalize prec emax z 0 false.

Definition fdiv : f64 -> f64 -> f64 := SFdiv prec emax.
Definition fmul : f64 -> f64 -> f64 := SFmul prec emax.

(** [x <= y], false when either side is NaN. *)
Definition fle : f64 -> f64 -> bool := SFleb.

(** [Math.round x]: the integer nearest to [x], ties towards +infinity,
    that is floor(x + 1/2) computed without rounding error; [None] stands
    for a result that is not an integer (NaN or an infinity). *)
Definition Math_round (x : f64) : option Z :=
  match x with
  | S754_zero _ => Some 0
  | S754_finite s m e =>
      let n := if s then Z.neg m else Z.pos m in
      Some (if 0 <=? e then n * 2 ^ e
            else (2 * n + 2 ^ (- e)) / 2 ^ (1 - e))
  | S754_infinity _ => None
  | S754_nan => None
  end.

(** *** Numbers obtained from time values

    A [Date] holds either an integral number of milliseconds since the
    epoch or NaN (an invalid date).  Subtracting two dates and dividing
    by 60000 is one correctly rounded binary64 division of an integer
    below 2^53 in magnitude; such a quotient lies on the same side of 10
    and of every half-integer as the exact quotient, so the comparisons
    and [Math.round] applied to it are modelled on the exact rational
    ([classify64_near_ties] below evaluates the binary64 division at the
    critical inputs).  [None] is NaN. *)

Definition num : Type := option Q.

Definition nsub (a b : option Z) : option Z :=
  match a, b with
  | Some x, Some y => Some (x - y)
  | _, _ => None
  end.

Definition ndiv (a : option Z) (d : positive) : num :=
  match a with
  | Some x => Some (Qmake x d)
  | None => None
  end.

(** [a <= b] on numbers: false as soon as one side is NaN. *)
Definition nle (a : num) (b : Q) : bool :=
  match a with
  | Some x => Qle_bool x b
  | None => false
  end.

Definition Qround_half_up (q : Q) : Z := Qfloor (q + (1 # 2)).

Definition Math_round_q (a : num) : option Z := option_map Qround_half_up a.

(** [Math.max(lo, a)] for an integer [lo]: NaN when [a] is NaN. *)
Definition Math_max (lo : Z) (a : option Z) : option Z := option_map (Z.max lo) a.

(** *** Strings and [String.prototype.trim]

    A JavaScript string is held as the bytes of its UTF-8 encoding, the
    way the string literals of this file are read; two well-formed
    strings are equal exactly when their encodings are.

    [trim] removes, at both ends, the code points of WhiteSpace and
    LineTerminator: U+0009 to U+000D, U+0020, U+00A0, U+1680, U+2000 to
    U+200A, U+2028, U+2029, U+202F, U+205F, U+3000 and U+FEFF, which are
    encoded in one, two or three bytes. *)

Definition is_space (c : ascii) : bool :=
  let n := nat_of_ascii c in
  (Nat.eqb n 32 || (Nat.leb 9 n && Nat.leb n 13))%bool.

(** U+00A0 is C2 A0. *)
Definition is_space2 (c1 c2 : ascii) : bool :=
  (Nat.eqb (nat_of_ascii c1) 194 && Nat.eqb (nat_of_ascii c2) 160)%bool.

(** U+1680 is E1 9A 80, U+2000 to U+200A are E2 80 80 to E2 80 8A, U+2028
    and U+2029 are E2 80 A8 and E2 80 A9, U+202F is E2 80 AF, U+205F is
    E2 81 9F, U+3000 is E3 80 80 and U+FEFF is EF BB BF. *)
Definition is_space3 (c1 c2 c3 : ascii) : bool :=
  let a := nat_of_ascii c1 in
  let b := nat_of_ascii c2 in
  let c := nat_of_ascii c3 in
  ((Nat.eqb a 225 && Nat.eqb b 154 && Nat.eqb c 128)
   || (Nat.eqb a 226 && Nat.eqb b 128
       && ((Nat.leb 128 c && Nat.leb c 138) || Nat.eqb c 168 || Nat.eqb c 169
           || Nat.eqb c 175))
   || (Nat.eqb a 226 && Nat.eqb b 129 && Nat.eqb c 159)
   || (Nat.eqb a 227 && Nat.eqb b 128 && Nat.eqb c 128)
   || (Nat.eqb a 239 && Nat.eqb b 187 && Nat.eqb c 191))%bool.

Fixpoint trim_start (s : string) : string :=
  match s with
  | String c1 r1 =>
      if is_space c1 then trim_start r1
      else
        match r1 with
        | String c2 r2 =>
            if is_space2 c1 c2 then trim_start r2
            else
              match r2 with
              | String c3 r3 => if is_space3 c1 c2 c3 then trim_start r3 else s
              | EmptyString => s
              end
        | EmptyString => s
        end
  | EmptyString => EmptyString
  end.

(** What is left of [s] is dropped from the first position on after which
    there is white space only. *)
Fixpoint trim_end (s : string) : string :=
  match s with
  | String c r =>
      if String.eqb (trim_start s) "" then EmptyString else String c (trim_end r)
  | EmptyString => EmptyString
  end.

Definition trim (s : string) : string := trim_end (trim_start s).

(** [String(n)] for an integer. *)
Definition string_of_Z (z : Z) : string := NilZero.string_of_int (Z.to_int z).

(** *** A concrete [Date] parser

    The date-time strings the application builds have the ISO shapes
    [YYYY-MM-DDTHH:MM:SS] (read as local time) and
    [YYYY-MM-DDTHH:MM:SS.mmmZ] (UTC, what [toISOString] prints).  [tz] is
    the local offset from UTC in minutes (120 in Polokwane).  Any other
    string is an invalid date.  The general properties below hold for an
    arbitrary parser; this one serves to evaluate the code on inputs. *)

Definition digit (c : ascii) : option Z :=
  let n := Z.of_nat (nat_of_ascii c) in
  if (48 <=? n) && (n <=? 57) then Some (n - 48) else None.

Fixpoint read_digits (k : nat) (acc : Z) (s : string) : option (Z * string) :=
  match k with
  | O => Some (acc, s)
  | S k' =>
      match s with
      | String c r =>
          match digit c with
          | Some d => read_digits k' (10 * acc + d) r
          | None => None
          end
      | EmptyString => None
      end
  end.

Definition expect (c : ascii) (s : string) : option string :=
  match s with
  | String c' r => if Ascii.eqb c c' then Some r else None
  | EmptyString => None
  end.

(** Days from 1970-01-01 to the given day of the proleptic Gregorian
    calendar. *)
Definition days_from_civil (y m d : Z) : Z :=
  let y' := if m <=? 2 then y - 1 else y in
  let era := y' / 400 in
  let yoe := y' - era * 400 in
  let mp := (m + 9) mod 12 in
  let doy := (153 * mp + 2) / 5 + d - 1 in
  let doe := yoe * 365 + yoe / 4 - yoe / 100 + doy in
  era * 146097 + doe - 719468.

Definition bind {A B} (o : option A) (f : A -> option B) : option B :=
  match o with
  | Some a => f a
  | None => None
  end.

Definition Date_parse (tz : Z) (s : string) : option Z :=
  bind (read_digits 4 0 s) (fun '(y, s) =>
  bind (expect "-" s) (fun s =>
  bind (read_digits 2 0 s) (fun '(mo, s) =>
  bind (expect "-" s) (fun s =>
  bind (read_digits 2 0 s) (fun '(d, s) =>
  bind (expect "T" s) (fun s =>
  bind (read_digits 2 0 s) (fun '(h, s) =>
  bind (expect ":" s) (fun s =>
  bind (read_digits 2 0 s) (fun '(mi, s) =>
  bind (expect ":" s) (fun s =>
  bind (read_digits 2 0 s) (fun '(sec, s) =>
  if negb ((1 <=? mo) && (mo <=? 12) && (1 <=? d) && (d <=? 31)
           && (h <=? 23) && (mi <=? 59) && (sec <=? 59))
  then None
  else
    let base := ((days_from_civil y mo d * 24 + h) * 60 + mi) * 60 + sec in
    match s with
    | EmptyString => Some (base * 1000 - tz * 60000)
    | _ =>
        bind (expect "." s) (fun s =>
        bind (read_digits 3 0 s) (fun '(ms, s) =>
        bind (expect "Z" s) (fun s =>
        match s with
        | EmptyString => Some (base * 1000 + ms)
        | _ => None
        end)))
    end))))))))))).

End JS.

(* ===================================================================== *)
(** ** Rows of supabase-schema.sql *)
(* ===================================================================== *)

Module Schema.

Record LecturerRow := {
  l_id : string;
  l_name : string;
  l_email : string;
  l_department : string;
  l_passwords : list string
}.

Record CourseRow := {
  c_id : string;
  c_lecturer_id : string;
  c_code : string;
  c_name : string;
  c_department : string;
  c_year : Z;
  c_semester : string;
  c_total_planned_classes : Z;
  c_room : string
}.

Record StudentRow := {
  st_id : string;
  st_student_no : string;
  st_surname_initials : string
}.

Record EnrolmentRow := {
  en_student_id : string;
  en_course_id : string
}.

(** [status] is 'active' or 'closed'; [date] is printed YYYY-MM-DD. *)
Record SessionRow := {
  id : string;
  course_id : string;
  lecturer_id : string;
  date : string;
  start_time : string;
  room : string;
  lat : option Q;
  lng : option Q;
  status : string
}.

(** [sc_status] is 'present' or 'late'; [scanned_at] is in milliseconds
    since the epoch; unique (session_id, student_no). *)
Record ScanRow := {
  sc_id : Z;
  session_id : string;
  student_no : string;
  surname_initials : string;
  sc_status : string;
  minutes_late : Z;
  sc_lat : option Q;
  sc_lng : option Q;
  scanned_at : Z
}.

(** A session as returned by [select('*, scans( * )')]: the row with its
    scans embedded.  [scans] is [None] when the property is missing. *)
Record Session := {
  row : SessionRow;
  scans : option (list ScanRow)
}.

End Schema.

(* ===================================================================== *)
(** ** helpers.js *)
(* ===================================================================== *)

Module Helpers.
Import Schema.

(** [pct(attended, total)]: the arguments are counts; the quotient and
    the product are binary64 operations, in the order of the source. *)
Definition pct (attended total : Z) : option Z :=
  if total =? 0 then Some 0
  else JS.Math_round (JS.fmul (JS.fdiv (JS.of_Z attended) (JS.of_Z total))
                              (JS.of_Z 100)).

Record Standing := { label : string; color : string }.

Definition attendanceStatus (p : Z) : Standing :=
  if 80 <=? p then {| label := "Good Standing"; color := "#00D68F" |}
  else if 60 <=? p then {| label := "At Risk"; color := "#FFB800" |}
  else {| label := "Critical"; color := "#FF4D6D" |}.

Record ScanStatus := { status : string; minutesLate : option Z }.

Section GetScanStatus.
(** [Date]: the time value of [new Date(s)], NaN ([None]) for a string
    that is not a date. *)
Variable Date : string -> option Z.

Definition getScanStatus (scanTime sessionDate sessionStartTime : string)
  : ScanStatus :=
  let start := Date (sessionDate ++ "T" ++ sessionStartTime ++ ":00") in
  let diff := JS.ndiv (JS.nsub (Date scanTime) start) 60000 in
  {| status := if JS.nle diff 10 then "present" else "late";
     minutesLate := JS.Math_max 0 (JS.Math_round_q diff) |}.
End GetScanStatus.

(** The body of [getScanStatus] on [d], the difference in milliseconds of
    two valid dates, with the division carried out in binary64. *)
Definition classify64 (d : Z) : ScanStatus :=
  let diff := JS.fdiv (JS.of_Z d) (JS.of_Z 60000) in
  {| status := if JS.fle diff (JS.of_Z 10) then "present" else "late";
     minutesLate := JS.Math_max 0 (JS.Math_round diff) |}.

Record Stats := { total : nat; present : nat; late : nat; absent : nat }.

(** [session.scans || []] *)
Definition scans_or_empty (s : Session) : list ScanRow :=
  match scans s with
  | Some l => l
  | None => []
  end.

(** The body of the [forEach]: one session moves one counter. *)
Definition count_session (studentNo : string) (acc : nat * nat * nat)
           (session : Session) : nat * nat * nat :=
  let '(present, late, absent) := acc in
  match find (fun sc => String.eqb (student_no sc) studentNo)
             (scans_or_empty session) with
  | None => (present, late, S absent)
  | Some scan =>
      if String.eqb (sc_status scan) "late" then (present, S late, absent)
      else (S present, late, absent)
  end.

Definition studentCourseStats (studentNo courseId : string)
           (sessions : list Session) : Stats :=
  let cs := filter (fun s => String.eqb (course_id (row s)) courseId) sessions in
  let '(present, late, absent) := fold_left (count_session studentNo) cs (0%nat, 0%nat, 0%nat) in
  {| total := List.length cs; present := present; late := late; absent := absent |}.

(** The percentage as the report screens compute it:
    [pct(present + late, Math.max(total, 1))]. *)
Definition reportPct (present late total : nat) : option Z :=
  pct (Z.of_nat present + Z.of_nat late) (Z.max (Z.of_nat total) 1).

End Helpers.

(* ===================================================================== *)
(** ** excel.js: the data rows of the exported register *)
(* ===================================================================== *)

Module Excel.
Import Schema.

Inductive Cell :=
| CStr (s : string)
| CNum (n : Z).

(** The body of [courseSessions.map] inside [dataRows]: the cell of one
    session, and the counters it moves. *)
Definition cell_of (studentNo : string) (acc : list Cell * (nat * nat * nat))
           (session : Session) : list Cell * (nat * nat * nat) :=
  let '(cells, (present, late, absent)) := acc in
  match find (fun sc => String.eqb (student_no sc) studentNo)
             (Helpers.scans_or_empty session) with
  | None => ((cells ++ [CStr "ABS"])%list, (present, late, S absent))
  | Some scan =>
      if String.eqb (sc_status scan) "late"
      then ((cells ++ [CStr ("LATE (+" ++ JS.string_of_Z (minutes_late scan) ++ "min)")])%list,
            (present, S late, absent))
      else ((cells ++ [CStr "P"])%list, (S present, late, absent))
  end.

Record DataRow := {
  r_cells : list Cell;
  r_present : nat;
  r_late : nat;
  r_absent : nat;
  r_total : nat;
  r_attPct : option Z;
  r_status : string;
  r_atRisk : string
}.

(** [attPct >= 80], [attPct < 80] on a number that may be NaN. *)
Definition ge_num (a : option Z) (b : Z) : bool :=
  match a with Some x => b <=? x | None => false end.
Definition lt_num (a : option Z) (b : Z) : bool :=
  match a with Some x => x <? b | None => false end.

Definition dataRow (courseSessions : list Session) (st : StudentRow) : DataRow :=
  let '(cells, (present, late, absent)) :=
    fold_left (cell_of (st_student_no st)) courseSessions ([], (0%nat, 0%nat, 0%nat)) in
  let total := List.length courseSessions in
  let attPct :=
    if Nat.eqb total 0 then Some 0
    else JS.Math_round
           (JS.fmul (JS.fdiv (JS.of_Z (Z.of_nat present + Z.of_nat late))
                             (JS.of_Z (Z.of_nat total)))
                    (JS.of_Z 100)) in
  let status := if ge_num attPct 80 then "Good Standing"
                else if ge_num attPct 60 then "At Risk" else "Critical" in
  let atRisk := if lt_num attPct 80 then "YES — INTERVENTION NEEDED" else "No" in
  {| r_cells := cells; r_present := present; r_late := late; r_absent := absent;
     r_total := total; r_attPct := attPct; r_status := status; r_atRisk := atRisk |}.

(** The full row as the sheet receives it. *)
Definition row_cells (st : StudentRow) (r : DataRow) : list Cell :=
  ([CStr (st_student_no st); CStr (st_surname_initials st)] ++ r_cells r ++
  [CNum (Z.of_nat (r_present r)); CNum (Z.of_nat (r_late r));
   CNum (Z.of_nat (r_absent r)); CNum (Z.of_nat (r_total r));
   CStr (match r_attPct r with
         | Some p => JS.string_of_Z p ++ "%"
         | None => "NaN%"
         end);
   CStr (r_status r); CStr (r_atRisk r)])%list.

Section DataRows.
(** [Array.prototype.sort] with the comparator on dates. *)
Variable sortByDate : list Session -> list Session.

Definition dataRows (course : CourseRow) (sessions : list Session)
           (students : list StudentRow) : list DataRow :=
  let courseSessions :=
    sortByDate (filter (fun s => String.eqb (course_id (row s)) (c_id course)) sessions) in
  map (dataRow courseSessions) students.
End DataRows.

End Excel.

(* ===================================================================== *)
(** ** supabase.js over the tables of supabase-schema.sql *)
(* ===================================================================== *)

Module Supabase.
Import Schema.

(** An error object: a store error carries the SQLSTATE in [code]; a
    JavaScript exception such as a TypeError has no [code]. *)
Record Error := { code : option string; message : string }.

Definition unique_violation : Error :=
  {| code := Some "23505"; message := "duplicate key value violates unique constraint" |}.
Definition foreign_key_violation : Error :=
  {| code := Some "23503"; message := "insert or update violates foreign key constraint" |}.
Definition not_null_violation : Error :=
  {| code := Some "23502"; message := "null value violates not-null constraint" |}.
Definition multiple_rows : Error :=
  {| code := Some "PGRST116"; message := "JSON object requested, multiple (or no) rows returned" |}.
Definition invalid_text_representation : Error :=
  {| code := Some "22P02"; message := "invalid input syntax for type integer" |}.
Definition numeric_value_out_of_range : Error :=
  {| code := Some "22003"; message := "value is out of range for type integer" |}.

(** The outcome of an awaited call: [handle] returns the data or throws
    the error. *)
Inductive result (A : Type) :=
| Ok (a : A)
| Throw (e : Error).
Arguments Ok {A} a.
Arguments Throw {A} e.

(** The tables, each as the list of its rows (an insert appends), and the
    identity sequence of [scans.id]. *)
Record Store := {
  lecturers : list LecturerRow;
  courses : list CourseRow;
  students : list StudentRow;
  enrolments : list EnrolmentRow;
  sessions : list SessionRow;
  scans : list ScanRow;
  scans_seq : Z
}.

Definition empty : Store :=
  {| lecturers := []; courses := []; students := []; enrolments := [];
     sessions := []; scans := []; scans_seq := 1 |}.

Definition existsb_eq {A} (key : A -> string) (k : string) (l : list A) : bool :=
  existsb (fun x => String.eqb (key x) k) l.

(** *** Lecturers and courses *)

Definition createLecturer (st : Store) (l : LecturerRow) : Store * result LecturerRow :=
  if existsb_eq l_id (l_id l) (lecturers st) || existsb_eq l_email (l_email l) (lecturers st)
  then (st, Throw unique_violation)
  else ({| lecturers := lecturers st ++ [l]; courses := courses st;
           students := students st; enrolments := enrolments st;
           sessions := sessions st; scans := scans st; scans_seq := scans_seq st |},
        Ok l).

(** The payload of [createCourse]: [year] and [total_planned_classes] are
    JavaScript numbers ([None]: NaN or an infinity, which JSON sends as
    null). *)
Record CourseInput := {
  ci_id : string;
  ci_lecturer_id : string;
  ci_code : string;
  ci_name : string;
  ci_department : string;
  ci_year : JS.num;
  ci_semester : string;
  ci_total_planned_classes : JS.num;
  ci_room : string
}.

(** What an [integer] column makes of a number of the request: it is read
    from its decimal text, so a fraction, or a number of 10^21 and more,
    which is printed with an exponent, is no integer (22P02), and an
    integer outside 32 bits is out of range (22003). *)
Definition int4 (z : Z) : bool := (-2147483648 <=? z) && (z <=? 2147483647).

Definition to_integer (n : JS.num) : result (option Z) :=
  match n with
  | None => Ok None
  | Some q =>
      if negb (Qnum q mod Z.pos (Qden q) =? 0) then Throw invalid_text_representation
      else
        let z := Qnum q / Z.pos (Qden q) in
        if 1000000000000000000000 <=? Z.abs z then Throw invalid_text_representation
        else if int4 z then Ok (Some z)
        else Throw numeric_value_out_of_range
  end.

(** The row the payload stands for: the numbers are read first, in the
    order of the columns, then the not-null constraints are checked. *)
Definition course_row (i : CourseInput) : result CourseRow :=
  match to_integer (ci_year i) with
  | Throw e => Throw e
  | Ok y =>
      match to_integer (ci_total_planned_classes i) with
      | Throw e => Throw e
      | Ok t =>
          match y, t with
          | Some year, Some total =>
              Ok {| c_id := ci_id i; c_lecturer_id := ci_lecturer_id i;
                    c_code := ci_code i; c_name := ci_name i;
                    c_department := ci_department i; c_year := year;
                    c_semester := ci_semester i; c_total_planned_classes := total;
                    c_room := ci_room i |}
          | _, _ => Throw not_null_violation
          end
      end
  end.

(** The insert of a row: primary key, then foreign key. *)
Definition insert_course (st : Store) (c : CourseRow) : Store * result CourseRow :=
  if existsb_eq c_id (c_id c) (courses st) then (st, Throw unique_violation)
  else if negb (existsb_eq l_id (c_lecturer_id c) (lecturers st))
  then (st, Throw foreign_key_violation)
  else ({| lecturers := lecturers st; courses := courses st ++ [c];
           students := students st; enrolments := enrolments st;
           sessions := sessions st; scans := scans st; scans_seq := scans_seq st |},
        Ok c).

Definition createCourse (st : Store) (i : CourseInput) : Store * result CourseRow :=
  match course_row i with
  | Ok c => insert_course st c
  | Throw e => (st, Throw e)
  end.

(** The payload that stands for a given row. *)
Definition course_input (c : CourseRow) : CourseInput :=
  {| ci_id := c_id c; ci_lecturer_id := c_lecturer_id c; ci_code := c_code c;
     ci_name := c_name c; ci_department := c_department c;
     ci_year := Some (inject_Z (c_year c)); ci_semester := c_semester c;
     ci_total_planned_classes := Some (inject_Z (c_total_planned_classes c));
     ci_room := c_room c |}.

(** Deleting sessions takes their scans along ([on delete cascade]). *)
Definition delete_sessions (dead : SessionRow -> bool) (st : Store) : Store :=
  let gone := filter dead (sessions st) in
  {| lecturers := lecturers st; courses := courses st;
     students := students st; enrolments := enrolments st;
     sessions := filter (fun s => negb (dead s)) (sessions st);
     scans := filter (fun sc => negb (existsb_eq id (session_id sc) gone)) (scans st);
     scans_seq := scans_seq st |}.

(** Deleting courses takes their sessions and enrolments along. *)
Definition delete_courses (dead : CourseRow -> bool) (st : Store) : Store :=
  let gone := filter dead (courses st) in
  let st1 := delete_sessions (fun s => existsb_eq c_id (course_id s) gone) st in
  {| lecturers := lecturers st1;
     courses := filter (fun c => negb (dead c)) (courses st1);
     students := students st1;
     enrolments := filter (fun e => negb (existsb_eq c_id (en_course_id e) gone)) (enrolments st1);
     sessions := sessions st1; scans := scans st1; scans_seq := scans_seq st1 |}.

Definition deleteCourse (st : Store) (cid : string) : Store * result unit :=
  (delete_courses (fun c => String.eqb (c_id c) cid) st, Ok tt).

Definition deleteLecturer (st : Store) (lid : string) : Store * result unit :=
  let st1 := delete_courses (fun c => String.eqb (c_lecturer_id c) lid) st in
  let st2 := delete_sessions (fun s => String.eqb (lecturer_id s) lid) st1 in
  ({| lecturers := filter (fun l => negb (String.eqb (l_id l) lid)) (lecturers st2);
      courses := courses st2; students := students st2; enrolments := enrolments st2;
      sessions := sessions st2; scans := scans st2; scans_seq := scans_seq st2 |},
   Ok tt).

(** *** Students *)

(** [select('students( * )').eq('course_id', courseId)] then
    [r => r.students]: the student each enrolment refers to (the foreign
    key guarantees there is one). *)
Definition getStudentsForCourse (st : Store) (courseId : string) : result (list StudentRow) :=
  Ok (flat_map
        (fun e => filter (fun s => String.eqb (st_id s) (en_student_id e)) (students st))
        (filter (fun e => String.eqb (en_course_id e) courseId) (enrolments st))).

Definition with_students (st : Store) (l : list StudentRow) : Store :=
  {| lecturers := lecturers st; courses := courses st; students := l;
     enrolments := enrolments st; sessions := sessions st; scans := scans st;
     scans_seq := scans_seq st |}.

Definition with_enrolments (st : Store) (l : list EnrolmentRow) : Store :=
  {| lecturers := lecturers st; courses := courses st; students := students st;
     enrolments := l; sessions := sessions st; scans := scans st;
     scans_seq := scans_seq st |}.

(** [upsert(row, { onConflict: 'student_no', ignoreDuplicates: false })]:
    INSERT ... ON CONFLICT (student_no) DO UPDATE SET every column of the
    payload.  The primary key is still checked against the other rows,
    and a change of [id] is refused while enrolments refer to the old
    one. *)
Definition upsert_student (st : Store) (new : StudentRow) : Store * option Error :=
  match find (fun s => String.eqb (st_student_no s) (st_student_no new)) (students st) with
  | Some old =>
      if existsb (fun s => String.eqb (st_id s) (st_id new)
                           && negb (String.eqb (st_student_no s) (st_student_no new)))
                 (students st)
      then (st, Some unique_violation)
      else if negb (String.eqb (st_id old) (st_id new))
              && existsb_eq en_student_id (st_id old) (enrolments st)
      then (st, Some foreign_key_violation)
      else (with_students st
              (map (fun s => if String.eqb (st_student_no s) (st_student_no new)
                             then new else s) (students st)),
            None)
  | None =>
      if existsb_eq st_id (st_id new) (students st) then (st, Some unique_violation)
      else (with_students st (students st ++ [new]), None)
  end.

(** [upsert(row, { onConflict: 'student_id,course_id', ignoreDuplicates: true })]:
    INSERT ... ON CONFLICT DO NOTHING. *)
Definition upsert_enrolment (st : Store) (new : EnrolmentRow) : Store * option Error :=
  if existsb (fun e => String.eqb (en_student_id e) (en_student_id new)
                       && String.eqb (en_course_id e) (en_course_id new))
             (enrolments st)
  then (st, None)
  else if negb (existsb_eq st_id (en_student_id new) (students st))
          || negb (existsb_eq c_id (en_course_id new) (courses st))
  then (st, Some foreign_key_violation)
  else (with_enrolments st (enrolments st ++ [new]), None).

(** [select('id').eq('student_no', n).single()]: the data, or null when
    the rows are not exactly one. *)
Definition select_student_id (st : Store) (studentNo : string) : option string :=
  match filter (fun s => String.eqb (st_student_no s) studentNo) (students st) with
  | [s] => Some (st_id s)
  | _ => None
  end.

Definition upsertStudentAndEnrol (st : Store) (studentNo surnameInitials courseId : string)
  : Store * result StudentRow :=
  let studentId := "S_" ++ studentNo in
  let '(st1, se) :=
    upsert_student st {| st_id := studentId; st_student_no := studentNo;
                         st_surname_initials := surnameInitials |} in
  match se with
  | Some e => (st1, Throw e)
  | None =>
      let realId :=
        match select_student_id st1 studentNo with
        | Some i => if String.eqb i "" then studentId else i
        | None => studentId
        end in
      let '(st2, ee) :=
        upsert_enrolment st1 {| en_student_id := realId; en_course_id := courseId |} in
      match ee with
      | Some e =>
          if match code e with Some c => negb (String.eqb c "23505") | None => true end
          then (st2, Throw e)
          else (st2, Ok {| st_id := realId; st_student_no := studentNo;
                           st_surname_initials := surnameInitials |})
      | None => (st2, Ok {| st_id := realId; st_student_no := studentNo;
                            st_surname_initials := surnameInitials |})
      end
  end.

Definition removeStudentFromCourse (st : Store) (studentId courseId : string)
  : Store * result unit :=
  (with_enrolments st
     (filter (fun e => negb (String.eqb (en_student_id e) studentId
                             && String.eqb (en_course_id e) courseId))
             (enrolments st)),
   Ok tt).

(** *** Sessions *)

Definition with_sessions (st : Store) (l : list SessionRow) : Store :=
  {| lecturers := lecturers st; courses := courses st; students := students st;
     enrolments := enrolments st; sessions := l; scans := scans st;
     scans_seq := scans_seq st |}.

Definition set_status (s : SessionRow) (v : string) : SessionRow :=
  {| id := id s; course_id := course_id s; lecturer_id := lecturer_id s;
     date := date s; start_time := start_time s; room := room s;
     lat := lat s; lng := lng s; status := v |}.

(** The scans embedded in a session by [scans( * )].  The query names no
    order for them; here they come in the order of the table list, where
    [embed_in] below leaves the order open. *)
Definition embed (st : Store) (s : SessionRow) : Session :=
  {| row := s;
     Schema.scans := Some (filter (fun sc => String.eqb (session_id sc) (id s)) (scans st)) |}.

(** [.eq('id', sessionId).maybeSingle()] *)
Definition getSession (st : Store) (sessionId : string) : result (option Session) :=
  match filter (fun s => String.eqb (id s) sessionId) (sessions st) with
  | [] => Ok None
  | [s] => Ok (Some (embed st s))
  | _ => Throw multiple_rows
  end.

(** [getSession] with the order of the embedded scans left to the
    database: [pick] is what it makes of the matching rows.  The select
    names no order, so nothing restricts [pick] beyond returning those
    rows. *)
Definition embed_in (pick : list ScanRow -> list ScanRow) (st : Store) (s : SessionRow)
  : Session :=
  {| row := s;
     Schema.scans :=
       Some (pick (filter (fun sc => String.eqb (session_id sc) (id s)) (scans st))) |}.

Definition getSession_in (pick : list ScanRow -> list ScanRow) (st : Store)
           (sessionId : string) : result (option Session) :=
  match filter (fun s => String.eqb (id s) sessionId) (sessions st) with
  | [] => Ok None
  | [s] => Ok (Some (embed_in pick st s))
  | _ => Throw multiple_rows
  end.

(** [insert({ ..., status: 'active' }).select().single()] *)
Definition createSession (st : Store) (new : SessionRow) : Store * result SessionRow :=
  let s := set_status new "active" in
  if existsb_eq id (id s) (sessions st) then (st, Throw unique_violation)
  else if negb (existsb_eq c_id (course_id s) (courses st))
          || negb (existsb_eq l_id (lecturer_id s) (lecturers st))
  then (st, Throw foreign_key_violation)
  else (with_sessions st (sessions st ++ [s]), Ok s).

(** [update({ status: 'closed' }).eq('id', sessionId)] *)
Definition closeSession (st : Store) (sessionId : string) : Store * result unit :=
  (with_sessions st
     (map (fun s => if String.eqb (id s) sessionId then set_status s "closed" else s)
          (sessions st)),
   Ok tt).

(** *** Scans *)

(** The payload of [recordScan]; [in_minutes_late] is null ([None]) when
    the number is NaN. *)
Record ScanInput := {
  in_session_id : string;
  in_student_no : string;
  in_surname_initials : string;
  in_status : string;
  in_minutes_late : option Z;
  in_lat : option Q;
  in_lng : option Q
}.

Definition with_scans (st : Store) (l : list ScanRow) (seq : Z) : Store :=
  {| lecturers := lecturers st; courses := courses st; students := students st;
     enrolments := enrolments st; sessions := sessions st; scans := l;
     scans_seq := seq |}.

Definition same_key (session student : string) (sc : ScanRow) : bool :=
  String.eqb (session_id sc) session && String.eqb (student_no sc) student.

(** [insert(row).select().single()] at server time [now]: the identity
    value is drawn first, then the not-null, unique and foreign-key
    constraints of the schema are checked. *)
Definition recordScan (st : Store) (now : Z) (i : ScanInput) : Store * result ScanRow :=
  let seq := scans_seq st + 1 in
  match in_minutes_late i with
  | None => (with_scans st (scans st) seq, Throw not_null_violation)
  | Some m =>
      if existsb (same_key (in_session_id i) (in_student_no i)) (scans st)
      then (with_scans st (scans st) seq, Throw unique_violation)
      else if negb (existsb_eq id (in_session_id i) (sessions st))
      then (with_scans st (scans st) seq, Throw foreign_key_violation)
      else
        let r := {| sc_id := scans_seq st; session_id := in_session_id i;
                    student_no := in_student_no i;
                    surname_initials := in_surname_initials i;
                    sc_status := in_status i; minutes_late := m;
                    sc_lat := in_lat i; sc_lng := in_lng i; scanned_at := now |} in
        (with_scans st (scans st ++ [r]) seq, Ok r)
  end.

(** [order('scanned_at', { ascending: false })] *)
Fixpoint insert_desc (x : ScanRow) (l : list ScanRow) : list ScanRow :=
  match l with
  | [] => [x]
  | y :: r => if scanned_at y <? scanned_at x then x :: l else y :: insert_desc x r
  end.

Definition order_desc (l : list ScanRow) : list ScanRow := fold_right insert_desc [] l.

Definition getScansForSession (st : Store) (sessionId : string) : result (list ScanRow) :=
  Ok (order_desc (filter (fun sc => String.eqb (session_id sc) sessionId) (scans st))).

(** *** The writes as one operation type

    ([upsertAdminConfig], [updateAdminPassword] and
    [updateLecturerPasswords] write no column read here.) *)

Inductive op :=
| CreateLecturer (l : LecturerRow)
| DeleteLecturer (lid : string)
| CreateCourse (i : CourseInput)
| DeleteCourse (cid : string)
| UpsertStudentAndEnrol (studentNo surnameInitials courseId : string)
| RemoveStudentFromCourse (studentId courseId : string)
| CreateSession (s : SessionRow)
| CloseSession (sessionId : string)
| RecordScan (now : Z) (i : ScanInput).

Definition exec (st : Store) (o : op) : Store :=
  match o with
  | CreateLecturer l => fst (createLecturer st l)
  | DeleteLecturer lid => fst (deleteLecturer st lid)
  | CreateCourse i => fst (createCourse st i)
  | DeleteCourse cid => fst (deleteCourse st cid)
  | UpsertStudentAndEnrol n s c => fst (upsertStudentAndEnrol st n s c)
  | RemoveStudentFromCourse s c => fst (removeStudentFromCourse st s c)
  | CreateSession s => fst (createSession st s)
  | CloseSession sid => fst (closeSession st sid)
  | RecordScan now i => fst (recordScan st now i)
  end.

Definition run (st : Store) (ops : list op) : Store := fold_left exec ops st.

(** A request that does not reach the store rejects with the transport
    error and leaves the store as it is. *)
Definition request {A} (fault : option Error) (st : Store) (r : Store * result A)
  : Store * result A :=
  match fault with
  | Some e => (st, Throw e)
  | None => r
  end.

End Supabase.

(* ===================================================================== *)
(** ** The student check-in view and the lecturer's end of session *)
(* ===================================================================== *)

Module App.
Import Schema Supabase.

Inductive Step := loading | no_session | enter | verifying | success | already.

(** [result]: a scan, with [alreadyDone: true] when it is the copy of a
    scan found in the loaded session. *)
Record ScanResult := { scan : ScanRow; alreadyDone : bool }.

(** The state of [StudentScanView] (the course banner, display only, is
    left out). *)
Record View := {
  sessionId : option string;
  session : option Session;
  step : Step;
  studentNo : string;
  result : option ScanResult;
  err : string
}.

Definition initial (sid : option string) : View :=
  {| sessionId := sid; session := None; step := loading; studentNo := "";
     result := None; err := "" |}.

Definition set_step (v : View) (s : Step) : View :=
  {| sessionId := sessionId v; session := session v; step := s;
     studentNo := studentNo v; result := result v; err := err v |}.

Definition set_err (v : View) (e : string) : View :=
  {| sessionId := sessionId v; session := session v; step := step v;
     studentNo := studentNo v; result := result v; err := e |}.

Definition set_result (v : View) (r : option ScanResult) : View :=
  {| sessionId := sessionId v; session := session v; step := step v;
     studentNo := studentNo v; result := r; err := err v |}.

Definition set_session (v : View) (s : Session) : View :=
  {| sessionId := sessionId v; session := Some s; step := step v;
     studentNo := studentNo v; result := result v; err := err v |}.

Definition setStudentNo (v : View) (n : string) : View :=
  {| sessionId := sessionId v; session := session v; step := step v;
     studentNo := n; result := result v; err := err v |}.

(** The mount effect: load the session, gate on its status.  [fault] is
    a failure of the [getSession] request. *)
Definition load (st : Store) (fault : option Error) (sid : option string) : View :=
  let v := initial sid in
  match sid with
  | None => set_step v no_session
  | Some "" => set_step v no_session
  | Some i =>
      match snd (request fault st (st, getSession st i)) with
      | Throw _ => set_step v no_session
      | Ok None => set_step v no_session
      | Ok (Some s) =>
          if negb (String.eqb (status (row s)) "active") then set_step v no_session
          else set_step (set_session v s) enter
      end
  end.

(** The [catch] of [doLog]. *)
Definition on_error (v : View) (e : Error) : View :=
  match code e with
  | Some "23505" => set_step (set_err v "You have already scanned in for this session.") enter
  | _ => set_step (set_err v "Failed to record. Try again.") enter
  end.

Definition type_error : Error :=
  {| code := None; message := "Cannot read properties of null" |}.

(** The fixed campus coordinate used when no position is available. *)
Definition campus : Q * Q := ((-239045 # 10000)%Q, (294688 # 10000)%Q).

Section HandleScan.
Variable Date : string -> option Z.

(** [handleScan]: [now] is the client's clock as [toISOString] prints
    it, [server_now] the store's clock, [geo] the position when the
    device gives one, [fault1] and [fault2] failures of the
    [getStudentsForCourse] and [recordScan] requests. *)
Definition handleScan (st : Store) (now : string) (server_now : Z)
           (geo : option (Q * Q)) (fault1 fault2 : option Error) (v0 : View)
  : Store * View :=
  let v := set_err v0 "" in
  let sNo := JS.trim (studentNo v) in
  if String.eqb sNo "" then (st, set_err v "Please enter your student number")
  else
    match find (fun sc => String.eqb (student_no sc) sNo)
               (match session v with
                | Some s => Helpers.scans_or_empty s
                | None => []
                end) with
    | Some existing =>
        (st, set_step (set_result v (Some {| scan := existing; alreadyDone := true |})) already)
    | None =>
        let v := set_step v verifying in
        let '(lat, lng) := match geo with Some p => p | None => campus end in
        match session v with
        | None => (st, on_error v type_error)
        | Some s =>
            let ss := Helpers.getScanStatus Date now (date (row s)) (start_time (row s)) in
            match snd (request fault1 st (st, getStudentsForCourse st (course_id (row s)))) with
            | Throw e => (st, on_error v e)
            | Ok allStudents =>
                let student := find (fun x => String.eqb (st_student_no x) sNo) allStudents in
                let name :=
                  match student with
                  | Some x => if String.eqb (st_surname_initials x) "" then sNo
                              else st_surname_initials x
                  | None => sNo
                  end in
                let '(st', r) :=
                  request fault2 st
                    (recordScan st server_now
                       {| in_session_id := match sessionId v with Some i => i | None => "" end;
                          in_student_no := sNo; in_surname_initials := name;
                          in_status := Helpers.status ss;
                          in_minutes_late := Helpers.minutesLate ss;
                          in_lat := Some lat; in_lng := Some lng |}) in
                match r with
                | Ok sc =>
                    (st', set_step (set_result v (Some {| scan := sc; alreadyDone := false |})) success)
                | Throw e => (st', on_error v e)
                end
            end
        end
    end.
End HandleScan.

(** The buttons of the 'success' and 'already' cards. *)
Definition done (v : View) : View :=
  set_result (setStudentNo (set_step v enter) "") None.

Definition ok (v : View) : View := setStudentNo (set_step v enter) "".

(** The lecturer dashboard's [endSession]:
    [try { await closeSession(activeSessionId) } catch {}], then the
    active session is forgotten.  Nothing reaches the caller. *)
Definition endSession (st : Store) (fault : option Error) (activeSessionId : option string)
  : Store * option string :=
  match activeSessionId with
  | None => (st, None)
  | Some "" => (st, None)
  | Some sid => (fst (request fault st (closeSession st sid)), None)
  end.

End App.

(* ===================================================================== *)
(** ** The specification's own formulas *)
(* ===================================================================== *)

Module Spec.
Import Schema.

(** The percentage as the specification writes it:
    round(100 * (present + late) / max(total, 1)). *)
Definition pct (present late total : nat) : Z :=
  JS.Qround_half_up
    (Qmake (100 * (Z.of_nat present + Z.of_nat late))
           (Z.to_pos (Z.max (Z.of_nat total) 1))).

(** How one session counts for a student. *)
Inductive Attendance := Present | Late | Absent.

Definition attendance (studentNo : string) (session : Session) : Attendance :=
  match find (fun sc => String.eqb (student_no sc) studentNo)
             (Helpers.scans_or_empty session) with
  | None => Absent
  | Some scan => if String.eqb (sc_status scan) "late" then Late else Present
  end.

Definition is_att (a b : Attendance) : bool :=
  match a, b with
  | Present, Present | Late, Late | Absent, Absent => true
  | _, _ => false
  end.

Definition count (a : Attendance) (studentNo : string) (l : list Session) : nat :=
  List.length (filter (fun s => is_att (attendance studentNo s) a) l).

(** Elapsed minutes between two time values. *)
Definition elapsed (scan start : Z) : Q := Qmake (scan - start) 60000.

(** The classification of a difference of [d] milliseconds on the exact
    quotient. *)
Definition classify (d : Z) : Helpers.ScanStatus :=
  {| Helpers.status := if d <=? 600000 then "present" else "late";
     Helpers.minutesLate := Some (Z.max 0 ((d + 30000) / 60000)) |}.

Definition same_status (a b : Helpers.ScanStatus) : bool :=
  String.eqb (Helpers.status a) (Helpers.status b) &&
  match Helpers.minutesLate a, Helpers.minutesLate b with
  | Some x, Some y => x =? y
  | None, None => true
  | _, _ => false
  end.

(** The differences within 2 ms of a half minute, from ten minutes before
    the start to two hours after it: where a rounding error of the
    division could change the result. *)
Definition near_ties : list Z :=
  flat_map (fun k => map (fun j => 30000 * (Z.of_nat k - 20) + (Z.of_nat j - 2)) (seq 0 5))
           (seq 0 261).

(** Exhaustive comparison of [Helpers.pct] with [Spec.pct] for the totals
    from 1 to [n] and every attended count up to the total; the pairs
    listed in [except] are skipped. *)
Definition agree (attended total : nat) : bool :=
  match Helpers.pct (Z.of_nat attended) (Z.of_nat total) with
  | Some p => p =? pct attended 0 total
  | None => false
  end.

Definition agree_upto (except : list (nat * nat)) (n : nat) : bool :=
  forallb (fun t =>
    forallb (fun a =>
      existsb (fun '(a', t') => Nat.eqb a a' && Nat.eqb t t') except || agree a t)
      (seq 0 (S t)))
    (seq 1 n).

End Spec.

(* ===================================================================== *)
(** ** Store invariants *)
(* ===================================================================== *)

Module Inv.
Import Schema Supabase.

Definition scan_key (sc : ScanRow) : string * string := (session_id sc, student_no sc).

(** [unique (session_id, student_no)] *)
Definition scans_unique (st : Store) : Prop := NoDup (map scan_key (scans st)).

(** [sessions.id] is a primary key. *)
Definition sessions_unique (st : Store) : Prop := NoDup (map id (sessions st)).

(** [students.student_no] is unique and every id is the one
    [upsertStudentAndEnrol] builds. *)
Definition students_wf (st : Store) : Prop :=
  NoDup (map st_student_no (students st)) /\
  Forall (fun s => st_id s = "S_" ++ st_student_no s) (students st).

Definition wf (st : Store) : Prop :=
  scans_unique st /\ sessions_unique st /\ students_wf st.

(** Most recent first. *)
Definition descending (l : list ScanRow) : Prop :=
  StronglySorted (fun a b => scanned_at b <= scanned_at a) l.

Definition scans_of (st : Store) (sessionId : string) : list ScanRow :=
  filter (fun sc => String.eqb (session_id sc) sessionId) (scans st).

Definition absent (sessionId : string) (st : Store) : Prop :=
  forall s, In s (sessions st) -> id s <> sessionId.

Definition active (sessionId : string) (st : Store) : Prop :=
  exists s, In s (sessions st) /\ id s = sessionId /\ status s = "active".

End Inv.

(* ===================================================================== *)
(** ** A worked scenario: one lecturer, one course, one student *)
(* ===================================================================== *)

Module Scenario.
Import Schema Supabase App.

Definition lec : LecturerRow :=
  {| l_id := "L1"; l_name := "Dr Mabena"; l_email := "mabena@example.ac.za";
     l_department := "Accounting"; l_passwords := [] |}.

Definition crs : CourseRow :=
  {| c_id := "C1"; c_lecturer_id := "L1"; c_code := "ACC101"; c_name := "Accounting 1";
     c_department := "Accounting"; c_year := 2024; c_semester := "1";
     c_total_planned_classes := 40; c_room := "B12" |}.

Definition ses : SessionRow :=
  {| id := "SESSION001"; course_id := "C1"; lecturer_id := "L1";
     date := "2024-03-04"; start_time := "09:00"; room := "B12";
     lat := None; lng := None; status := "active" |}.

(** Local time is UTC+2. *)
Definition Date : string -> option Z := JS.Date_parse 120.

(** The store once the session is open. *)
Definition ops0 : list op :=
  [CreateLecturer lec; CreateCourse (course_input crs);
   UpsertStudentAndEnrol "20210001" "Khumalo T.S." "C1";
   UpsertStudentAndEnrol "20210002" "Sithole L.R." "C1";
   CreateSession ses].

Definition st0 : Store := run empty ops0.

(** A student opens the check-in link. *)
Definition v0 : View := load st0 None (Some "SESSION001").

(** First check-in of 20210001, at 09:14 local time. *)
Definition first : Store * View :=
  handleScan Date st0 "2024-03-04T07:14:00.000Z" 1709536440000 None None None
             (setStudentNo v0 "20210001").

(** 20210002 checks in at 09:16 from another device. *)
Definition st2 : Store :=
  fst (handleScan Date (fst first) "2024-03-04T07:16:00.000Z" 1709536560000 None None None
                  (setStudentNo (load (fst first) None (Some "SESSION001")) "20210002")).

(** The lecturer ends the session. *)
Definition closed : Store := fst (endSession st0 None (Some "SESSION001")).

(** Sessions as the statistics receive them. *)
Definition with_scan : Session := embed (fst first) ses.
Definition without_scan : Session :=
  {| row := {| id := "SESSION002"; course_id := "C1"; lecturer_id := "L1";
               date := "2024-03-05"; start_time := "09:00"; room := "B12";
               lat := None; lng := None; status := "closed" |};
     Schema.scans := Some [] |}.

End Scenario.

(* ===================================================================== *)
(** ** helpers.js: identifiers and passwords *)
(* ===================================================================== *)

Module Generators.

(** The random source: [rnd k] stands for the k-th call of [Math.random],
    and [Math.floor(Math.random() * n)], an index below [n], is that draw
    reduced modulo [n]. *)
Definition Random : Type := nat -> nat.

Definition floor_random (rnd : Random) (k n : nat) : nat := Nat.modulo (rnd k) n.

(** [s[i]]: a character, or undefined ([None]) past the end. *)
Definition char_at (s : string) (i : nat) : option ascii := String.get i s.

(** [id += x] *)
Definition append_elem (id : string) (x : option ascii) : string :=
  match x with
  | Some c => id ++ String c ""
  | None => id ++ "undefined"
  end.

Definition id_chars : string := "ABCDEFGHJKLMNPQRSTUVWXYZ0123456789".

Fixpoint genId_from (n : nat) (rnd : Random) (k : nat) (id : string) : string :=
  match n with
  | O => id
  | S n' =>
      genId_from n' rnd (S k)
        (append_elem id (char_at id_chars (floor_random rnd k (String.length id_chars))))
  end.

(** [genId()], started at draw [k]. *)
Definition genId (rnd : Random) (k : nat) : string := genId_from 10 rnd k "".

Definition upper : string := "ABCDEFGHJKLMNPQRSTUVWXYZ".
Definition lower : string := "abcdefghjkmnpqrstuvwxyz".
Definition digits : string := "23456789".
Definition all : string := upper ++ lower ++ digits.

Definition pick (rnd : Random) (k : nat) (s : string) : option ascii :=
  char_at s (floor_random rnd k (String.length s)).

(** [pw[i] = x]: an index past the end extends the array with holes. *)
Fixpoint set_at (i : nat) (x : option ascii) (pw : list (option ascii))
  : list (option ascii) :=
  match i, pw with
  | O, [] => [x]
  | O, _ :: r => x :: r
  | S i', [] => None :: set_at i' x []
  | S i', y :: r => y :: set_at i' x r
  end.

(** [[pw[i], pw[j]] = [pw[j], pw[i]]] *)
Definition swap (pw : list (option ascii)) (i j : nat) : list (option ascii) :=
  let a := nth i pw None in
  let b := nth j pw None in
  set_at j a (set_at i b pw).

(** The loop [for (i = pw.length - 1; i > 0; i--)]. *)
Fixpoint shuffle (i : nat) (rnd : Random) (k : nat) (pw : list (option ascii))
  : list (option ascii) :=
  match i with
  | O => pw
  | S i' => shuffle i' rnd (S k) (swap pw i (floor_random rnd k (S i)))
  end.

(** [pw.join('')]: a hole prints as nothing. *)
Fixpoint join (pw : list (option ascii)) : string :=
  match pw with
  | [] => ""
  | Some c :: r => String c (join r)
  | None :: r => join r
  end.

Definition initial (rnd : Random) (k : nat) : list (option ascii) :=
  [pick rnd k upper; pick rnd (k + 1) upper;
   pick rnd (k + 2) digits; pick rnd (k + 3) digits;
   pick rnd (k + 4) lower; pick rnd (k + 5) lower; pick rnd (k + 6) lower;
   pick rnd (k + 7) all].

(** [genPassword()], started at draw [k]; it uses 15 draws. *)
Definition genPassword (rnd : Random) (k : nat) : string :=
  let pw := initial rnd k in
  join (shuffle (List.length pw - 1) rnd (k + 8) pw).

(** [set.add(pw)] on a set kept in insertion order. *)
Definition add (pw : string) (set : list string) : list string :=
  if existsb (String.eqb pw) set then set else (set ++ [pw])%list.

(** [gen5Passwords()]: the [while (set.size < 5)] loop, [None] when it is
    still running after [fuel] rounds. *)
Fixpoint gen5_loop (fuel : nat) (rnd : Random) (k : nat) (set : list string)
  : option (list string) :=
  if Nat.leb 5 (List.length set) then Some set
  else
    match fuel with
    | O => None
    | S fuel' => gen5_loop fuel' rnd (k + 15) (add (genPassword rnd k) set)
    end.

Definition gen5Passwords (fuel : nat) (rnd : Random) (k : nat) : option (list string) :=
  gen5_loop fuel rnd k [].

(** The passwords of the first [n] rounds of the loop started at draw
    [k], and the set they leave when each is added in turn. *)
Definition drawn (rnd : Random) (k n : nat) : list string :=
  map (fun j => genPassword rnd (k + 15 * j)) (seq 0 n).

Definition seen (rnd : Random) (k n : nat) : list string :=
  fold_left (fun set pw => add pw set) (drawn rnd k n) [].

Definition is_upper (c : ascii) : bool :=
  let n := nat_of_ascii c in Nat.leb 65 n && Nat.leb n 90.
Definition is_lower (c : ascii) : bool :=
  let n := nat_of_ascii c in Nat.leb 97 n && Nat.leb n 122.
Definition is_digit (c : ascii) : bool :=
  let n := nat_of_ascii c in Nat.leb 48 n && Nat.leb n 57.

Definition count_chars (p : ascii -> bool) (s : string) : nat :=
  List.length (filter p (list_ascii_of_string s)).

(** The characters easily mistaken for one another. *)
Definition ambiguous : list ascii := list_ascii_of_string "IOilo01".

End Generators.

(* ===================================================================== *)
(** ** supabase.js: the remaining queries *)
(* ===================================================================== *)

Module Queries.
Import Schema Supabase.

(** [order(column)]: insertion sort; [before x y] says that [x] must come
    before [y]. *)
Fixpoint insert_by {A} (before : A -> A -> bool) (x : A) (l : list A) : list A :=
  match l with
  | [] => [x]
  | y :: r => if before x y then x :: l else y :: insert_by before x r
  end.

Definition sort_by {A} (before : A -> A -> bool) (l : list A) : list A :=
  fold_right (insert_by before) [] l.

(** A list is in order when no later element has to come before an
    earlier one. *)
Definition in_order {A} (before : A -> A -> bool) (l : list A) : Prop :=
  StronglySorted (fun a b => before b a = false) l.

Definition str_lt (a b : string) : bool :=
  match String.compare a b with
  | Lt => true
  | _ => false
  end.

(** [order('date', { ascending: false })]: dates are printed YYYY-MM-DD,
    so the later date is the greater string. *)
Definition later (x y : SessionRow) : bool := str_lt (date y) (date x).

(** [getSessions(courseId)]: the filter is added only for a truthy id. *)
Definition getSessions (st : Store) (courseId : option string) : result (list Session) :=
  let rows :=
    match courseId with
    | None => sessions st
    | Some "" => sessions st
    | Some c => filter (fun s => String.eqb (course_id s) c) (sessions st)
    end in
  Ok (map (embed st) (sort_by later rows)).

(** The rows [getSessions] selects. *)
Definition selected (st : Store) (courseId : option string) : list SessionRow :=
  match courseId with
  | None => sessions st
  | Some "" => sessions st
  | Some c => filter (fun s => String.eqb (course_id s) c) (sessions st)
  end.

Definition getAllSessions (st : Store) : result (list Session) :=
  Ok (map (embed st) (sort_by later (sessions st))).

(** [getLecturers()]: [order('name')]. *)
Definition getLecturers (st : Store) : result (list LecturerRow) :=
  Ok (sort_by (fun x y => str_lt (l_name x) (l_name y)) (lecturers st)).

(** [getCourses()]: [order('code')]. *)
Definition getCourses (st : Store) : result (list CourseRow) :=
  Ok (sort_by (fun x y => str_lt (c_code x) (c_code y)) (courses st)).

Definition with_lecturers (st : Store) (l : list LecturerRow) : Store :=
  {| lecturers := l; courses := courses st; students := students st;
     enrolments := enrolments st; sessions := sessions st; scans := scans st;
     scans_seq := scans_seq st |}.

Definition set_passwords (l : LecturerRow) (passwords : list string) : LecturerRow :=
  {| l_id := l_id l; l_name := l_name l; l_email := l_email l;
     l_department := l_department l; l_passwords := passwords |}.

(** [update({ passwords }).eq('id', id).select().single()]: the request
    fails, and nothing is written, unless exactly one row matches. *)
Definition updateLecturerPasswords (st : Store) (lid : string) (passwords : list string)
  : Store * result LecturerRow :=
  match filter (fun l => String.eqb (l_id l) lid) (lecturers st) with
  | [l] =>
      (with_lecturers st
         (map (fun x => if String.eqb (l_id x) lid then set_passwords x passwords else x)
              (lecturers st)),
       Ok (set_passwords l passwords))
  | _ => (st, Throw multiple_rows)
  end.

(** One row of an upload: [{ studentNo, surnameInitials }]. *)
Record Upload := { studentNo : string; surnameInitials : string }.

Record Tally := { added : nat; skipped : nat }.

(** [upsertManyStudents]: one [upsertStudentAndEnrol] per row, a throw
    counts as skipped and the loop goes on. *)
Fixpoint upsertMany_from (st : Store) (rows : list Upload) (courseId : string)
         (added skipped : nat) : Store * Tally :=
  match rows with
  | [] => (st, {| added := added; skipped := skipped |})
  | r :: rest =>
      match upsertStudentAndEnrol st (studentNo r) (surnameInitials r) courseId with
      | (st', Ok _) => upsertMany_from st' rest courseId (S added) skipped
      | (st', Throw _) => upsertMany_from st' rest courseId added (S skipped)
      end
  end.

Definition upsertManyStudents (st : Store) (rows : list Upload) (courseId : string)
  : Store * Tally :=
  upsertMany_from st rows courseId 0 0.

End Queries.

(* ===================================================================== *)
(** ** The screens: lecturer login, reports, live session *)
(* ===================================================================== *)

Module Screens.
Import Schema Supabase.

Inductive Login :=
| LoggedIn (lecturer : LecturerRow)
| Refused (message : string).

(** [loadCourses] of the lecturer dashboard: the lecturer's own courses,
    or nothing new when the request failed (the failure is flashed). *)
Definition loadCourses (st : Store) (fault : option Error) (lecturerId : string)
  : option (list CourseRow) :=
  match snd (request fault st (st, Queries.getCourses st)) with
  | Ok all => Some (filter (fun c => String.eqb (c_lecturer_id c) lecturerId) all)
  | Throw _ => None
  end.

(** The form of [AdminLecturers]. *)
Record LecturerForm := { f_name : string; f_email : string; f_department : string }.

(** [String.prototype.includes] for a one-character needle. *)
Fixpoint includes (c : ascii) (s : string) : bool :=
  match s with
  | EmptyString => false
  | String c' r => Ascii.eqb c' c || includes c r
  end.

Section CaseConversion.
(** [String.prototype.toLowerCase], the lower-case conversion of Unicode:
    left open, what follows holds whatever it does to a string. *)
Variable toLowerCase : string -> string.

(** The lecturer tab of [LoginScreen.handle]: [fault] is a failure of the
    [getLecturers] request. *)
Definition lecturerLogin (st : Store) (fault : option Error) (id password : string) : Login :=
  match snd (request fault st (st, Queries.getLecturers st)) with
  | Throw _ => Refused "Connection error. Check your internet and try again."
  | Ok lecturers =>
      match find (fun l => String.eqb (toLowerCase (l_email l)) (toLowerCase id)
                           && existsb (String.eqb password) (l_passwords l))
                 lecturers with
      | Some lec => LoggedIn lec
      | None => Refused "Incorrect email or password. Contact admin if all passwords are lost."
      end
  end.

(** [validate]: true when no error was noted.  [loaded] is the list of
    lecturers the screen holds. *)
Definition validate (loaded : list LecturerRow) (form : LecturerForm) : bool :=
  negb (String.eqb (JS.trim (f_name form)) "")
  && includes "@" (f_email form)
  && negb (String.eqb (JS.trim (f_department form)) "")
  && negb (existsb (fun l => String.eqb (toLowerCase (l_email l))
                                        (toLowerCase (f_email form))) loaded).

(** [addLecturer]: [newId] and [passwords] are the values [genId()] and
    [gen5Passwords()] returned; the result is the lecturer shown with the
    credentials, if any. *)
Definition addLecturer (st : Store) (fault : option Error) (loaded : list LecturerRow)
           (form : LecturerForm) (newId : string) (passwords : list string)
  : Store * option LecturerRow :=
  if negb (validate loaded form) then (st, None)
  else
    match request fault st
            (createLecturer st
               {| l_id := newId; l_name := JS.trim (f_name form);
                  l_email := toLowerCase (JS.trim (f_email form));
                  l_department := JS.trim (f_department form);
                  l_passwords := passwords |}) with
    | (st', Ok lec) => (st', Some lec)
    | (st', Throw _) => (st', None)
    end.
End CaseConversion.

(** The at-risk list of [ReportsTab]:
    [total > 0 && pct(present + late, total) < 80]. *)
Definition atRisk (sel : string) (sessions : list Session) (students : list StudentRow)
  : list StudentRow :=
  filter (fun st =>
            let s := Helpers.studentCourseStats (st_student_no st) sel sessions in
            Nat.ltb 0 (Helpers.total s)
            && Excel.lt_num (Helpers.pct (Z.of_nat (Helpers.present s + Helpers.late s))
                                         (Z.of_nat (Helpers.total s))) 80)
         students.

(** The live log of [LiveSessionTab].  Two things write it: the load of
    the session, [setScans(s?.scans || [])], and every scan the
    subscription delivers, [setScans(prev => [newScan, ...prev])].  The
    subscription is opened when the load is sent, so deliveries can come
    before the load resolves. *)
Inductive LiveEvent :=
| Loaded (s : option Session)
| Delivered (newScan : ScanRow).

Definition onNewScan (log : list ScanRow) (newScan : ScanRow) : list ScanRow :=
  newScan :: log.

Definition live_step (log : list ScanRow) (e : LiveEvent) : list ScanRow :=
  match e with
  | Loaded (Some s) => Helpers.scans_or_empty s
  | Loaded None => []
  | Delivered newScan => onNewScan log newScan
  end.

Definition liveLog (events : list LiveEvent) : list ScanRow :=
  fold_left live_step events [].

(** The counters above the log. *)
Definition presentCount (log : list ScanRow) : nat :=
  List.length (filter (fun s => String.eqb (sc_status s) "present") log).
Definition lateCount (log : list ScanRow) : nat :=
  List.length (filter (fun s => String.eqb (sc_status s) "late") log).

End Screens.

(* ===================================================================== *)
(** ** The clock: how a session's date and start time are written *)
(* ===================================================================== *)

Module Clock.
Import Schema Supabase.

(** The day of the proleptic Gregorian calendar [z] days after
    1970-01-01, as (year, month, day). *)
Definition civil_from_days (z : Z) : Z * Z * Z :=
  let z := z + 719468 in
  let era := z / 146097 in
  let doe := z - era * 146097 in
  let yoe := (doe - doe / 1460 + doe / 36524 - doe / 146096) / 365 in
  let doy := doe - (365 * yoe + yoe / 4 - yoe / 100) in
  let mp := (5 * doy + 2) / 153 in
  let d := doy - (153 * mp + 2) / 5 + 1 in
  let m := if mp <? 10 then mp + 3 else mp - 9 in
  (if m <=? 2 then yoe + era * 400 + 1 else yoe + era * 400, m, d).

Definition digit_char (d : Z) : ascii := ascii_of_nat (48 + Z.to_nat d).

(** [String(n).padStart(k, '0')] for k = 2, 3, 4. *)
Definition pad2 (n : Z) : string :=
  String (digit_char (n / 10)) (String (digit_char (n mod 10)) "").
Definition pad3 (n : Z) : string :=
  String (digit_char (n / 100)) (pad2 (n mod 100)).
Definition pad4 (n : Z) : string :=
  String (digit_char (n / 1000)) (pad3 (n mod 1000)).

(** [Date.prototype.toISOString] of the time value [t], for the years
    0000 to 9999: YYYY-MM-DDTHH:MM:SS.mmmZ in UTC. *)
Definition toISOString (t : Z) : string :=
  let '(y, m, d) := civil_from_days (t / 86400000) in
  let ms := t mod 86400000 in
  pad4 y ++ "-" ++ pad2 m ++ "-" ++ pad2 d ++ "T" ++
  pad2 (ms / 3600000) ++ ":" ++ pad2 (ms / 60000 mod 60) ++ ":" ++
  pad2 (ms / 1000 mod 60) ++ "." ++ pad3 (ms mod 1000) ++ "Z".

(** [s.split('T')[0]]: what precedes the first T. *)
Fixpoint split_T (s : string) : string :=
  match s with
  | EmptyString => EmptyString
  | String c r => if Ascii.eqb c "T" then EmptyString else String c (split_T r)
  end.

(** [Date.prototype.toTimeString().slice(0, 5)]: the local time HH:MM,
    [tz] minutes ahead of UTC. *)
Definition time_hm (tz t : Z) : string :=
  let l := t / 60000 + tz in
  pad2 (l / 60 mod 24) ++ ":" ++ pad2 (l mod 60).

(** [room || course.room || 'TBA'] *)
Definition room_or (room : string) (course : CourseRow) : string :=
  if negb (String.eqb room "") then room
  else if negb (String.eqb (c_room course) "") then c_room course
  else "TBA".

(** [startSession] of the lecturer dashboard at time [now] with the id
    [genId()] returned: the session that is created.  The date is the UTC
    date of [toISOString], the start time the local wall-clock time. *)
Definition new_session (tz : Z) (course : CourseRow) (lecturer : LecturerRow)
           (room : string) (now : Z) (newId : string) (geo : option (Q * Q)) : SessionRow :=
  let '(la, ln) := match geo with Some p => p | None => App.campus end in
  {| id := newId; course_id := c_id course; lecturer_id := l_id lecturer;
     date := split_T (toISOString now); start_time := time_hm tz now;
     room := room_or room course; lat := Some la; lng := Some ln; status := "" |}.

(** The store after [startSession] and the active session id the
    dashboard keeps ([None]: the failure is flashed). *)
Definition startSession (tz : Z) (st : Store) (fault : option Error) (course : CourseRow)
           (lecturer : LecturerRow) (room : string) (now : Z) (newId : string)
           (geo : option (Q * Q)) : Store * option string :=
  match request fault st
          (createSession st (new_session tz course lecturer room now newId geo)) with
  | (st', Ok s) => (st', Some (id s))
  | (st', Throw _) => (st', None)
  end.

(** The calendar check used below: the day number is recovered from the
    printed date, and the date has a valid shape. *)
Definition civil_ok (z : Z) : bool :=
  let '(y, m, d) := civil_from_days z in
  (JS.days_from_civil y m d =? z) && (0 <=? y) && (y <? 10000)
  && (1 <=? m) && (m <=? 12) && (1 <=? d) && (d <=? 31).

(** [civil_ok] on the [n] days from [z] on. *)
Fixpoint civil_ok_from (n : nat) (z : Z) : bool :=
  match n with
  | O => true
  | S k => civil_ok z && civil_ok_from k (z + 1)
  end.

(** Days from 1970-01-01 to 2099-12-31. *)
Definition days_checked : nat := Z.to_nat 47482.

(** By how many days the local date is ahead of the UTC date at [t]. *)
Definition day_shift (tz t : Z) : Z := ((t / 60000) mod 1440 + tz) / 1440.

End Clock.

(* ===================================================================== *)
(** ** Declared constraints of the schema as store invariants *)
(* ===================================================================== *)

Module Integrity.
Import Schema Supabase.

Definition enrolment_key (e : EnrolmentRow) : string * string :=
  (en_student_id e, en_course_id e).

(** Primary keys and [unique] columns. *)
Definition keys_ok (st : Store) : Prop :=
  NoDup (map l_id (lecturers st)) /\
  NoDup (map l_email (lecturers st)) /\
  NoDup (map c_id (courses st)) /\
  NoDup (map st_id (students st)) /\
  NoDup (map st_student_no (students st)) /\
  NoDup (map enrolment_key (enrolments st)) /\
  NoDup (map id (sessions st)) /\
  NoDup (map Inv.scan_key (scans st)).

(** [references ... on delete cascade]: no row points to a missing one. *)
Definition refs_ok (st : Store) : Prop :=
  (forall c, In c (courses st) -> In (c_lecturer_id c) (map l_id (lecturers st))) /\
  (forall e, In e (enrolments st) ->
             In (en_student_id e) (map st_id (students st)) /\
             In (en_course_id e) (map c_id (courses st))) /\
  (forall s, In s (sessions st) ->
             In (course_id s) (map c_id (courses st)) /\
             In (lecturer_id s) (map l_id (lecturers st))) /\
  (forall sc, In sc (scans st) -> In (session_id sc) (map id (sessions st))).

(** What the proofs carry from one write to the next. *)
Definition sound (st : Store) : Prop :=
  Inv.wf st /\
  NoDup (map l_id (lecturers st)) /\
  NoDup (map l_email (lecturers st)) /\
  NoDup (map c_id (courses st)) /\
  NoDup (map enrolment_key (enrolments st)) /\
  refs_ok st.

(** The roster of a course as the screens read it. *)
Definition roster (st : Store) (courseId : string) : list StudentRow :=
  match getStudentsForCourse st courseId with
  | Ok l => l
  | Throw _ => []
  end.

End Integrity.

(* ===================================================================== *)
(** ** Properties of helpers.js and excel.js *)
(* ===================================================================== *)

(** Lists with a unique key. *)
Section ListFacts.
Context {A K : Type}.
Variable key : A -> K.

Lemma NoDup_map_filter (p : A -> bool) (l : list A) :
  NoDup (map key l) -> NoDup (map key (filter p l)).
Proof.
  induction l as [| x l IH]; intro H; [exact H |].
  cbn [map] in H. apply NoDup_cons_iff in H. destruct H as [Hx Hl].
  cbn [filter]. destruct (p x); [| exact (IH Hl)].
  cbn [map]. constructor; [| exact (IH Hl)].
  intro Hin. apply Hx. apply in_map_iff in Hin. destruct Hin as [y [Ey Hy]].
  apply filter_In in Hy. apply in_map_iff. exists y. tauto.
Qed.

Lemma NoDup_map_snoc (l : list A) (x : A) :
  NoDup (map key l) -> ~ In (key x) (map key l) -> NoDup (map key (l ++ [x])).
Proof.
  intros Hl Hx. rewrite map_app. cbn [map].
  apply NoDup_app; [exact Hl | repeat constructor; intros [] |].
  intros k Hk [Ek | []]. subst k. exact (Hx Hk).
Qed.

Lemma NoDup_map_In_eq (l : list A) (x y : A) :
  NoDup (map key l) -> In x l -> In y l -> key x = key y -> x = y.
Proof.
  induction l as [| z l IH]; intros H Hx Hy E; [destruct Hx |].
  cbn [map] in H. apply NoDup_cons_iff in H. destruct H as [Hz Hl].
  destruct Hx as [Hx | Hx], Hy as [Hy | Hy].
  - congruence.
  - subst z. exfalso. apply Hz. rewrite E. apply in_map. exact Hy.
  - subst z. exfalso. apply Hz. rewrite <- E. apply in_map. exact Hx.
  - exact (IH Hl Hx Hy E).
Qed.
End ListFacts.

Section HelpersFacts.
Import Schema Helpers.

Lemma round_elapsed (d : Z) :
  JS.Qround_half_up (Qmake d 60000) = (d + 30000) / 60000.
Proof.
  unfold JS.Qround_half_up, Qplus, Qfloor. simpl Qnum. simpl Qden.
  replace (d * 2 + 1 * 60000) with ((d + 30000) * 2) by lia.
  rewrite Pos2Z.inj_mul.
  rewrite Z.div_mul_cancel_r by discriminate. reflexivity.
Qed.

Lemma elapsed_le (d k : Z) : (Qmake d 60000 <= inject_Z k)%Q <-> d <= 60000 * k.
Proof. unfold Qle, inject_Z. cbn [Qnum Qden]. lia. Qed.

Lemma elapsed_lt_half (d : Z) : (Qmake d 60000 < 1 # 2)%Q <-> d < 30000.
Proof. unfold Qlt. cbn [Qnum Qden]. lia. Qed.

Lemma nle_elapsed (d : Z) : JS.nle (Some (Qmake d 60000)) 10 = (d <=? 600000).
Proof.
  unfold JS.nle. destruct (Z.leb_spec d 600000) as [H | H].
  - apply Qle_bool_iff. apply (elapsed_le d 10). lia.
  - destruct (Qle_bool (Qmake d 60000) 10) eqn:E; [| reflexivity].
    apply Qle_bool_iff in E. apply (elapsed_le d 10) in E. lia.
Qed.

(** Shape of the result once both dates are valid. *)
Lemma getScanStatus_valid (Date : string -> option Z) scanTime sessionDate sessionStartTime t s :
  Date scanTime = Some t ->
  Date (sessionDate ++ "T" ++ sessionStartTime ++ ":00") = Some s ->
  getScanStatus Date scanTime sessionDate sessionStartTime =
  {| status := if t - s <=? 600000 then "present" else "late";
     minutesLate := Some (Z.max 0 ((t - s + 30000) / 60000)) |}.
Proof.
  intros Ht Hs. unfold getScanStatus. rewrite Ht, Hs. simpl JS.nsub. simpl JS.ndiv.
  rewrite nle_elapsed. unfold JS.Math_round_q, JS.Math_max. simpl option_map.
  rewrite round_elapsed. reflexivity.
Qed.

(** An invalid date makes the scan late with a NaN number of minutes. *)
Lemma getScanStatus_invalid (Date : string -> option Z) scanTime sessionDate sessionStartTime :
  Date scanTime = None \/ Date (sessionDate ++ "T" ++ sessionStartTime ++ ":00") = None ->
  getScanStatus Date scanTime sessionDate sessionStartTime =
  {| status := "late"; minutesLate := None |}.
Proof.
  intros [H | H]; unfold getScanStatus; rewrite H;
    [| destruct (Date scanTime)]; reflexivity.
Qed.

End HelpersFacts.

(** C1 (amended).  For valid scan and start times, with elapsed the
    minutes between them: the status is "present" exactly when
    elapsed <= 10 and "late" otherwise; the minutes-late value is
    max(0, round(elapsed)) whatever the status, so it equals
    round(elapsed) when late, is never negative, lies between 0 and 10
    when present, and is 0 exactly when elapsed < 1/2. *)
Theorem getScanStatus_classifies (Date : string -> option Z)
        (scanTime sessionDate sessionStartTime : string) (t s : Z) :
  Date scanTime = Some t ->
  Date (sessionDate ++ "T" ++ sessionStartTime ++ ":00") = Some s ->
  let r := Helpers.getScanStatus Date scanTime sessionDate sessionStartTime in
  let e := Spec.elapsed t s in
  (Helpers.status r = "present" <-> (e <= 10)%Q) /\
  (Helpers.status r = "late" <-> ~ (e <= 10)%Q) /\
  Helpers.minutesLate r = Some (Z.max 0 (JS.Qround_half_up e)) /\
  (Helpers.status r = "late" -> Helpers.minutesLate r = Some (JS.Qround_half_up e)) /\
  exists m, Helpers.minutesLate r = Some m /\ 0 <= m /\
            (Helpers.status r = "present" -> m <= 10) /\
            (m = 0 <-> (e < 1 # 2)%Q).
Proof.
  intros Ht Hs r e. subst r e. unfold Spec.elapsed.
  rewrite (getScanStatus_valid Date _ _ _ t s Ht Hs). cbn [Helpers.status Helpers.minutesLate].
  rewrite round_elapsed.
  pose proof (elapsed_le (t - s) 10) as Hle.
  pose proof (elapsed_lt_half (t - s)) as Hhalf.
  change (inject_Z 10) with 10%Q in Hle.
  assert (Hdiv : forall k, k <= (t - s + 30000) / 60000 <-> 60000 * k <= t - s + 30000).
  { intro k. split; intro H.
    - pose proof (Z.mul_div_le (t - s + 30000) 60000). lia.
    - apply Z.div_le_lower_bound; lia. }
  assert (Hm0 : Z.max 0 ((t - s + 30000) / 60000) = 0 <-> t - s < 30000).
  { split; intro M.
    - destruct (Z_lt_ge_dec (t - s) 30000) as [L | G]; [exact L |].
      assert (G' : 1 <= (t - s + 30000) / 60000) by (apply Hdiv; lia). lia.
    - destruct (Z_le_gt_dec ((t - s + 30000) / 60000) 0) as [L0 | G]; [lia |].
      assert (G' : 1 <= (t - s + 30000) / 60000) by lia. apply Hdiv in G'. lia. }
  assert (Hex : forall b : Prop, (b -> Z.max 0 ((t - s + 30000) / 60000) <= 10) ->
            exists m, Some (Z.max 0 ((t - s + 30000) / 60000)) = Some m /\ 0 <= m /\
                      (b -> m <= 10) /\ (m = 0 <-> (Qmake (t - s) 60000 < 1 # 2)%Q)).
  { intros b Hb. exists (Z.max 0 ((t - s + 30000) / 60000)).
    split; [reflexivity |]. split; [lia |]. split; [exact Hb |].
    rewrite Hm0. symmetry. exact Hhalf. }
  destruct (Z.leb_spec (t - s) 600000) as [H | H].
  - assert (Hup : (t - s + 30000) / 60000 <= 10).
    { destruct (Z_le_gt_dec ((t - s + 30000) / 60000) 10) as [L | G]; [exact L |].
      assert (G' : 11 <= (t - s + 30000) / 60000) by lia. apply Hdiv in G'. lia. }
    assert (He : (Qmake (t - s) 60000 <= 10)%Q) by (apply Hle; lia).
    split; [tauto |]. split; [split; [discriminate | tauto] |].
    split; [reflexivity |]. split; [discriminate |].
    apply Hex. intros _. lia.
  - assert (Hlo : 10 <= (t - s + 30000) / 60000) by (apply Hdiv; lia).
    assert (He : ~ (Qmake (t - s) 60000 <= 10)%Q) by (intro L; apply Hle in L; lia).
    split; [split; [discriminate | tauto] |]. split; [tauto |].
    split; [reflexivity |]. split; [intros _; f_equal; lia |].
    apply Hex. discriminate.
Qed.

Lemma getScanStatus_classifies_witness :
  let r := Helpers.getScanStatus (JS.Date_parse 120) "2024-03-04T07:14:00.000Z" "2024-03-04" "09:00" in
  let e := Spec.elapsed 1709536440000 1709535600000 in
  (Helpers.status r = "present" <-> (e <= 10)%Q) /\
  (Helpers.status r = "late" <-> ~ (e <= 10)%Q) /\
  Helpers.minutesLate r = Some (Z.max 0 (JS.Qround_half_up e)) /\
  (Helpers.status r = "late" -> Helpers.minutesLate r = Some (JS.Qround_half_up e)) /\
  exists m, Helpers.minutesLate r = Some m /\ 0 <= m /\
            (Helpers.status r = "present" -> m <= 10) /\
            (m = 0 <-> (e < 1 # 2)%Q).
Proof.
  apply (getScanStatus_classifies (JS.Date_parse 120)
           "2024-03-04T07:14:00.000Z" "2024-03-04" "09:00" 1709536440000 1709535600000).
  - reflexivity.
  - reflexivity.
Defined.

(** C1 as stated fails: a scan five minutes after the start is "present"
    and its minutes-late value is 5, not 0. *)
Lemma present_scan_keeps_minutes :
  let r := Helpers.getScanStatus (JS.Date_parse 120) "2024-03-04T07:05:00.000Z" "2024-03-04" "09:00" in
  Helpers.status r = "present" /\
  Helpers.minutesLate r = Some 5 /\
  Helpers.minutesLate r <> Some 0.
Proof. vm_compute. repeat split. discriminate. Qed.

(** C9.  A scan at or before the session start (elapsed <= 0) is
    "present" with minutes-late 0. *)
Theorem early_scan_is_present (Date : string -> option Z)
        (scanTime sessionDate sessionStartTime : string) (t s : Z) :
  Date scanTime = Some t ->
  Date (sessionDate ++ "T" ++ sessionStartTime ++ ":00") = Some s ->
  (Spec.elapsed t s <= 0)%Q ->
  Helpers.getScanStatus Date scanTime sessionDate sessionStartTime =
  {| Helpers.status := "present"; Helpers.minutesLate := Some 0 |}.
Proof.
  intros Ht Hs He. rewrite (getScanStatus_valid Date _ _ _ t s Ht Hs).
  apply (elapsed_le (t - s) 0) in He.
  assert (Hr : (t - s + 30000) / 60000 <= 0).
  { destruct (Z_le_gt_dec ((t - s + 30000) / 60000) 0) as [L | G]; [exact L |].
    pose proof (Z.mul_div_le (t - s + 30000) 60000). lia. }
  destruct (Z.leb_spec (t - s) 600000); [| lia].
  f_equal. f_equal. lia.
Qed.

Lemma early_scan_is_present_witness :
  Helpers.getScanStatus (JS.Date_parse 120) "2024-03-04T06:55:30.000Z" "2024-03-04" "09:00" =
  {| Helpers.status := "present"; Helpers.minutesLate := Some 0 |}.
Proof.
  apply (early_scan_is_present (JS.Date_parse 120)
           "2024-03-04T06:55:30.000Z" "2024-03-04" "09:00" 1709535330000 1709535600000).
  - reflexivity.
  - reflexivity.
  - unfold Spec.elapsed, Qle. cbn [Qnum Qden]. lia.
Defined.

(* --------------------------------------------------------------------- *)
(** *** Percentage *)

Lemma pct_no_sessions (attended : Z) : Helpers.pct attended 0 = Some 0.
Proof. reflexivity. Qed.

Lemma reportPct_no_sessions : Helpers.reportPct 0 0 0 = Some 0.
Proof. vm_compute. reflexivity. Qed.

Lemma agree_upto_sound (except : list (nat * nat)) (n a t : nat) :
  Spec.agree_upto except n = true ->
  (1 <= t <= n)%nat -> (a <= t)%nat -> ~ In (a, t) except ->
  Helpers.pct (Z.of_nat a) (Z.of_nat t) = Some (Spec.pct a 0 t).
Proof.
  unfold Spec.agree_upto. intros H Ht Ha Hex.
  rewrite forallb_forall in H.
  assert (Hin : In t (seq 1 n)) by (apply in_seq; lia).
  specialize (H t Hin). rewrite forallb_forall in H.
  assert (Hin' : In a (seq 0 (S t))) by (apply in_seq; lia).
  specialize (H a Hin'). apply orb_true_iff in H. destruct H as [H | H].
  - exfalso. apply Hex. apply existsb_exists in H. destruct H as [[a' t'] [Hi He]].
    apply andb_true_iff in He. destruct He as [E1 E2].
    apply Nat.eqb_eq in E1. apply Nat.eqb_eq in E2. subst. exact Hi.
  - unfold Spec.agree in H.
    destruct (Helpers.pct (Z.of_nat a) (Z.of_nat t)) as [p |]; [| discriminate].
    apply Z.eqb_eq in H. congruence.
Qed.

(** Up to 100 sessions the computed percentage is the specified one except
    at two ties, where it is one less. *)
Lemma pct_agrees_upto_100 (a t : nat) :
  (1 <= t <= 100)%nat -> (a <= t)%nat ->
  ~ In (a, t) [(23, 40); (46, 80)]%nat ->
  Helpers.pct (Z.of_nat a) (Z.of_nat t) = Some (Spec.pct a 0 t).
Proof.
  apply agree_upto_sound. vm_compute. reflexivity.
Qed.

(** C4 (the code at the failing input).  With 23 sessions attended out of
    40 the source computes (23 / 40) * 100 = 57.49999999999999 in binary64
    and rounds it to 57, where round(100 * 23 / max(40, 1)) = round(57.5)
    is 58. *)
Theorem pct_23_of_40 :
  JS.fmul (JS.fdiv (JS.of_Z 23) (JS.of_Z 40)) (JS.of_Z 100)
    = S754_finite false 8092405580431359 (-47) /\
  Helpers.pct 23 40 = Some 57 /\
  Helpers.reportPct 23 0 40 = Some 57 /\
  Spec.pct 23 0 40 = 58.
Proof. vm_compute. repeat split. Qed.

(* --------------------------------------------------------------------- *)
(** *** Statistics fold *)

Section StatsFacts.
Import Schema Helpers.
Variable studentNo : string.

Lemma count_session_step (acc : nat * nat * nat) (s : Session) :
  count_session studentNo acc s =
  let '(p, l, a) := acc in
  match Spec.attendance studentNo s with
  | Spec.Present => (S p, l, a)
  | Spec.Late => (p, S l, a)
  | Spec.Absent => (p, l, S a)
  end.
Proof.
  destruct acc as [[p l] a]. unfold count_session, Spec.attendance.
  destruct (find _ _) as [scan |]; [| reflexivity].
  destruct (String.eqb (sc_status scan) "late"); reflexivity.
Qed.

Lemma fold_count_session (cs : list Session) (p l a : nat) :
  fold_left (count_session studentNo) cs (p, l, a) =
  ((p + Spec.count Spec.Present studentNo cs)%nat,
   (l + Spec.count Spec.Late studentNo cs)%nat,
   (a + Spec.count Spec.Absent studentNo cs)%nat).
Proof.
  revert p l a. induction cs as [| s cs IH]; intros p l a.
  - unfold Spec.count. simpl. repeat rewrite Nat.add_0_r. reflexivity.
  - cbn [fold_left]. rewrite count_session_step. unfold Spec.count in *.
    cbn [filter]. destruct (Spec.attendance studentNo s); cbn [Spec.is_att];
      rewrite IH; cbn [List.length];
      rewrite ?Nat.add_succ_r, ?Nat.add_succ_l; reflexivity.
Qed.

Lemma count_partition (cs : list Session) :
  (Spec.count Spec.Present studentNo cs + Spec.count Spec.Late studentNo cs
   + Spec.count Spec.Absent studentNo cs = List.length cs)%nat.
Proof.
  unfold Spec.count. induction cs as [| s cs IH]; [reflexivity |].
  cbn [filter List.length].
  destruct (Spec.attendance studentNo s); cbn [Spec.is_att List.length]; lia.
Qed.

Lemma filter_perm {A} (f : A -> bool) (l l' : list A) :
  Permutation l l' -> Permutation (filter f l) (filter f l').
Proof.
  induction 1 as [| x l l' _ IH | x y l | l l' l'' _ IH1 _ IH2].
  - constructor.
  - cbn [filter]. destruct (f x); [constructor |]; exact IH.
  - cbn [filter]. destruct (f x), (f y); try reflexivity. constructor.
  - etransitivity; eassumption.
Qed.

Lemma count_perm (a : Spec.Attendance) (l l' : list Session) :
  Permutation l l' -> Spec.count a studentNo l = Spec.count a studentNo l'.
Proof.
  intro H. unfold Spec.count. apply Permutation_length, filter_perm, H.
Qed.

Lemma studentCourseStats_eq (courseId : string) (sessions : list Session) :
  let cs := filter (fun s => String.eqb (course_id (row s)) courseId) sessions in
  studentCourseStats studentNo courseId sessions =
  {| total := List.length cs;
     present := Spec.count Spec.Present studentNo cs;
     late := Spec.count Spec.Late studentNo cs;
     absent := Spec.count Spec.Absent studentNo cs |}.
Proof.
  intro cs. unfold studentCourseStats. fold cs.
  rewrite fold_count_session. reflexivity.
Qed.

(** What the three classes mean in terms of the scans of a session. *)
Lemma attendance_absent_iff (s : Session) :
  Spec.attendance studentNo s = Spec.Absent <->
  ~ exists sc, In sc (scans_or_empty s) /\ student_no sc = studentNo.
Proof.
  unfold Spec.attendance.
  destruct (find _ (scans_or_empty s)) as [scan |] eqn:Ef.
  - apply find_some in Ef. destruct Ef as [Hin E]. apply String.eqb_eq in E.
    split.
    + destruct (String.eqb (sc_status scan) "late"); discriminate.
    + intro N. exfalso. apply N. exists scan. split; assumption.
  - split; [| reflexivity]. intros _ [sc [Hin E]].
    pose proof (find_none _ _ Ef sc Hin) as Hn. cbn beta in Hn.
    rewrite E, String.eqb_refl in Hn. discriminate.
Qed.

Lemma attendance_late_iff (s : Session) :
  NoDup (map student_no (scans_or_empty s)) ->
  (Spec.attendance studentNo s = Spec.Late <->
   exists sc, In sc (scans_or_empty s) /\ student_no sc = studentNo /\
              sc_status sc = "late").
Proof.
  intro Hnd. unfold Spec.attendance.
  destruct (find _ (scans_or_empty s)) as [scan |] eqn:Ef.
  - apply find_some in Ef. destruct Ef as [Hin E]. apply String.eqb_eq in E.
    destruct (String.eqb_spec (sc_status scan) "late") as [El | El].
    + split; [| reflexivity]. intros _. exists scan. repeat split; assumption.
    + split; [discriminate |]. intros [sc [Hin' [E' El']]]. exfalso. apply El.
      assert (sc = scan).
      { apply (NoDup_map_In_eq student_no (scans_or_empty s)); congruence. }
      subst sc. exact El'.
  - split; [discriminate |]. intros [sc [Hin [E _]]].
    pose proof (find_none _ _ Ef sc Hin) as Hn. cbn beta in Hn.
    rewrite E, String.eqb_refl in Hn. discriminate.
Qed.

End StatsFacts.

Section RegisterFacts.
Import Schema Helpers Excel.

(** One session adds one cell and moves the counters as the statistics
    do. *)
Lemma cell_of_step (n : string) (cells : list Cell) (acc : nat * nat * nat) (s : Session) :
  exists c, cell_of n (cells, acc) s = ((cells ++ [c])%list, count_session n acc s).
Proof.
  destruct acc as [[p l] a]. unfold cell_of, count_session.
  destruct (find _ (scans_or_empty s)) as [scan |]; [| eexists; reflexivity].
  destruct (String.eqb (sc_status scan) "late"); eexists; reflexivity.
Qed.

Lemma cell_of_counts (n : string) (cs : list Session) :
  forall (cells : list Cell) (acc : nat * nat * nat),
    snd (fold_left (cell_of n) cs (cells, acc)) = fold_left (count_session n) cs acc /\
    List.length (fst (fold_left (cell_of n) cs (cells, acc)))
    = (List.length cells + List.length cs)%nat.
Proof.
  induction cs as [| s cs IH]; intros cells acc; cbn [fold_left].
  - cbn [fst snd List.length]. split; [reflexivity | lia].
  - destruct (cell_of_step n cells acc s) as [c E]. rewrite E.
    destruct (IH (cells ++ [c])%list (count_session n acc s)) as [H1 H2].
    split; [exact H1 |]. rewrite H2, length_app. cbn [List.length]. lia.
Qed.

Lemma dataRow_counts (cs : list Session) (st : StudentRow) :
  let n := st_student_no st in
  r_present (dataRow cs st) = Spec.count Spec.Present n cs /\
  r_late (dataRow cs st) = Spec.count Spec.Late n cs /\
  r_absent (dataRow cs st) = Spec.count Spec.Absent n cs /\
  r_total (dataRow cs st) = List.length cs /\
  List.length (r_cells (dataRow cs st)) = List.length cs /\
  r_attPct (dataRow cs st)
  = pct (Z.of_nat (Spec.count Spec.Present n cs) + Z.of_nat (Spec.count Spec.Late n cs))
        (Z.of_nat (List.length cs)).
Proof.
  cbv zeta. unfold dataRow.
  destruct (cell_of_counts (st_student_no st) cs [] (0%nat, 0%nat, 0%nat)) as [H1 H2].
  rewrite fold_count_session in H1.
  destruct (fold_left (cell_of _) cs _) as [cells [[p l] a]].
  cbn [fst snd] in H1, H2. inversion H1. subst p l a.
  cbn [r_present r_late r_absent r_total r_cells r_attPct List.length] in *.
  repeat (split; [first [reflexivity | exact H2] |]).
  unfold pct. destruct (List.length cs) as [| k] eqn:E; [reflexivity |].
  cbn [Nat.eqb]. replace (Z.of_nat (S k) =? 0) with false by (symmetry; apply Z.eqb_neq; lia).
  reflexivity.
Qed.

End RegisterFacts.

(* --------------------------------------------------------------------- *)
(** *** Policy bands *)

(** C6.  [attendanceStatus p] is "Good Standing" iff p >= 80, "At Risk"
    iff 60 <= p < 80 and "Critical" iff p < 60 (80, 79, 60 and 59 fall
    accordingly).  A row of the exported register counts the student's
    sessions as the scans have them, its percentage is
    [pct(present + late, total)] of those counts, and it is flagged
    exactly when that percentage is below 80, with the band of that
    percentage as status; for a course of up to 100 sessions this is
    exactly when the specified percentage
    round(100 * (present + late) / max(total, 1)) is below 80. *)
Theorem attendance_bands (p : Z) :
  (Helpers.label (Helpers.attendanceStatus p) = "Good Standing" <-> 80 <= p) /\
  (Helpers.label (Helpers.attendanceStatus p) = "At Risk" <-> 60 <= p < 80) /\
  (Helpers.label (Helpers.attendanceStatus p) = "Critical" <-> p < 60) /\
  Helpers.label (Helpers.attendanceStatus 80) = "Good Standing" /\
  Helpers.label (Helpers.attendanceStatus 79) = "At Risk" /\
  Helpers.label (Helpers.attendanceStatus 60) = "At Risk" /\
  Helpers.label (Helpers.attendanceStatus 59) = "Critical" /\
  forall (courseSessions : list Schema.Session) (st : Schema.StudentRow),
    let r := Excel.dataRow courseSessions st in
    let n := Schema.st_student_no st in
    let present := Spec.count Spec.Present n courseSessions in
    let late := Spec.count Spec.Late n courseSessions in
    let total := List.length courseSessions in
    (Excel.r_atRisk r = "YES — INTERVENTION NEEDED" <->
       exists q, Excel.r_attPct r = Some q /\ q < 80) /\
    (Excel.r_atRisk r = "No" <->
       ~ exists q, Excel.r_attPct r = Some q /\ q < 80) /\
    (forall q, Excel.r_attPct r = Some q ->
       Excel.r_status r = Helpers.label (Helpers.attendanceStatus q)) /\
    Excel.r_present r = present /\ Excel.r_late r = late /\
    Excel.r_absent r = Spec.count Spec.Absent n courseSessions /\
    Excel.r_total r = total /\
    Excel.r_attPct r = Helpers.pct (Z.of_nat present + Z.of_nat late) (Z.of_nat total) /\
    ((total <= 100)%nat ->
     Excel.r_attPct r <> None /\
     (Excel.r_atRisk r = "YES — INTERVENTION NEEDED" <-> Spec.pct present late total < 80) /\
     (Excel.r_atRisk r = "No" <-> 80 <= Spec.pct present late total)).
Proof.
  unfold Helpers.attendanceStatus.
  split; [| split; [| split]].
  - destruct (Z.leb_spec 80 p); [| destruct (Z.leb_spec 60 p)]; cbn [Helpers.label];
      split; intro; try lia; try discriminate; reflexivity.
  - destruct (Z.leb_spec 80 p); [| destruct (Z.leb_spec 60 p)]; cbn [Helpers.label];
      split; intro; try lia; try discriminate; reflexivity.
  - destruct (Z.leb_spec 80 p); [| destruct (Z.leb_spec 60 p)]; cbn [Helpers.label];
      split; intro; try lia; try discriminate; reflexivity.
  - do 4 (split; [reflexivity |]).
    intros courseSessions st. cbv zeta.
    destruct (dataRow_counts courseSessions st) as [Hp [Hl [Ha [Ht [_ Hpct]]]]].
    assert (Hflag : Excel.r_atRisk (Excel.dataRow courseSessions st)
                    = if Excel.lt_num (Excel.r_attPct (Excel.dataRow courseSessions st)) 80
                      then "YES — INTERVENTION NEEDED" else "No").
    { unfold Excel.dataRow. destruct (fold_left _ _ _) as [cells [[p0 l0] a0]]. reflexivity. }
    assert (Hstat : Excel.r_status (Excel.dataRow courseSessions st)
                    = if Excel.ge_num (Excel.r_attPct (Excel.dataRow courseSessions st)) 80
                      then "Good Standing"
                      else if Excel.ge_num (Excel.r_attPct (Excel.dataRow courseSessions st)) 60
                           then "At Risk" else "Critical").
    { unfold Excel.dataRow. destruct (fold_left _ _ _) as [cells [[p0 l0] a0]]. reflexivity. }
    split; [| split; [| split]].
    + rewrite Hflag. destruct (Excel.r_attPct _) as [q |]; cbn [Excel.lt_num].
      * destruct (Z.ltb_spec q 80).
        -- split; [intros _; exists q; split; [reflexivity | lia] | reflexivity].
        -- split; [discriminate | intros [q' [E L]]; inversion E; lia].
      * split; [discriminate | intros [q' [E _]]; discriminate].
    + rewrite Hflag. destruct (Excel.r_attPct _) as [q |]; cbn [Excel.lt_num].
      * destruct (Z.ltb_spec q 80).
        -- split; [discriminate |]. intro N. exfalso. apply N. exists q.
           split; [reflexivity | lia].
        -- split; [| reflexivity]. intros _ [q' [E L]]. inversion E. lia.
      * split; [| reflexivity]. intros _ [q' [E _]]. discriminate.
    + intros q E. rewrite Hstat, E. cbn [Excel.ge_num].
      destruct (80 <=? q); [reflexivity |]. destruct (60 <=? q); reflexivity.
    + split; [exact Hp |]. split; [exact Hl |]. split; [exact Ha |]. split; [exact Ht |].
      split; [exact Hpct |].
      intro Hle. rewrite Hflag, Hpct.
      set (present := Spec.count Spec.Present (Schema.st_student_no st) courseSessions) in *.
      set (late := Spec.count Spec.Late (Schema.st_student_no st) courseSessions) in *.
      set (total := List.length courseSessions) in *.
      assert (Hsum : (present + late <= total)%nat).
      { pose proof (count_partition (Schema.st_student_no st) courseSessions) as P.
        fold present late total in P. lia. }
      assert (Hspec : Spec.pct present late total = Spec.pct (present + late) 0 total).
      { unfold Spec.pct.
        replace (Z.of_nat (present + late) + Z.of_nat 0)
          with (Z.of_nat present + Z.of_nat late) by lia.
        reflexivity. }
      assert (Hcode : exists q, Helpers.pct (Z.of_nat present + Z.of_nat late) (Z.of_nat total)
                                = Some q /\
                                (q < 80 <-> Spec.pct present late total < 80)).
      { rewrite <- Nat2Z.inj_add, Hspec.
        destruct (Nat.eq_dec total 0) as [E0 | E0].
        - rewrite E0. replace (present + late)%nat with 0%nat by lia.
          exists 0. split; [reflexivity |]. vm_compute. split; intro; reflexivity.
        - destruct (Nat.eq_dec (present + late) 23) as [E23 | E23];
            [destruct (Nat.eq_dec total 40) as [E40 | E40] |].
          + rewrite E23, E40. exists 57. split; [vm_compute; reflexivity |].
            vm_compute. split; intro; reflexivity.
          + exists (Spec.pct (present + late) 0 total). split; [| tauto].
            apply pct_agrees_upto_100; [lia | exact Hsum |].
            intros [E | [E | []]]; inversion E; lia.
          + destruct (Nat.eq_dec (present + late) 46) as [E46 | E46];
              [destruct (Nat.eq_dec total 80) as [E80 | E80] |].
            * rewrite E46, E80. exists 57. split; [vm_compute; reflexivity |].
              vm_compute. split; intro; reflexivity.
            * exists (Spec.pct (present + late) 0 total). split; [| tauto].
              apply pct_agrees_upto_100; [lia | exact Hsum |].
              intros [E | [E | []]]; inversion E; lia.
            * exists (Spec.pct (present + late) 0 total). split; [| tauto].
              apply pct_agrees_upto_100; [lia | exact Hsum |].
              intros [E | [E | []]]; inversion E; lia. }
      destruct Hcode as [q [Eq Hq]]. rewrite Eq. cbn [Excel.lt_num].
      split; [discriminate |].
      destruct (Z.ltb_spec q 80) as [L | L].
      * split; [split; [intros _; apply Hq; exact L | reflexivity] |].
        split; [discriminate | intro G; apply Hq in L; lia].
      * split; [split; [discriminate | intro G; apply Hq in G; lia] |].
        split; [intros _ | reflexivity].
        destruct (Z.lt_ge_cases (Spec.pct present late total) 80) as [G | G]; [| exact G].
        apply Hq in G. lia.
Qed.

(** C3.  The fold counts each session of the course as absent when the
    student has no scan in it, late when the scan's status is "late" and
    present otherwise; present + late + absent = total = the number of the
    course's sessions; and the result is the same for any reordering of
    the session list (it is a function of its arguments alone).  The last
    two parts say what absent and late mean on the scans of a session. *)
Theorem studentCourseStats_counts (studentNo courseId : string)
        (sessions sessions' : list Schema.Session) :
  Permutation sessions sessions' ->
  let cs := filter (fun s => String.eqb (Schema.course_id (Schema.row s)) courseId) sessions in
  let r := Helpers.studentCourseStats studentNo courseId sessions in
  Helpers.absent r = Spec.count Spec.Absent studentNo cs /\
  Helpers.late r = Spec.count Spec.Late studentNo cs /\
  Helpers.present r = Spec.count Spec.Present studentNo cs /\
  (Helpers.present r + Helpers.late r + Helpers.absent r = Helpers.total r)%nat /\
  Helpers.total r = List.length cs /\
  Helpers.studentCourseStats studentNo courseId sessions' = r /\
  (forall s, Spec.attendance studentNo s = Spec.Absent <->
             ~ exists sc, In sc (Helpers.scans_or_empty s) /\
                          Schema.student_no sc = studentNo) /\
  (forall s, NoDup (map Schema.student_no (Helpers.scans_or_empty s)) ->
             (Spec.attendance studentNo s = Spec.Late <->
              exists sc, In sc (Helpers.scans_or_empty s) /\
                         Schema.student_no sc = studentNo /\
                         Schema.sc_status sc = "late")).
Proof.
  intros HP cs r. subst r.
  rewrite (studentCourseStats_eq studentNo courseId sessions).
  rewrite (studentCourseStats_eq studentNo courseId sessions'). fold cs.
  cbn [Helpers.absent Helpers.late Helpers.present Helpers.total].
  assert (HPc : Permutation
                  (filter (fun s => String.eqb (Schema.course_id (Schema.row s)) courseId) sessions')
                  cs).
  { apply filter_perm. symmetry. exact HP. }
  split; [reflexivity |]. split; [reflexivity |]. split; [reflexivity |].
  split; [apply count_partition |]. split; [reflexivity |].
  split; [| split].
  - rewrite (Permutation_length HPc).
    rewrite (count_perm studentNo Spec.Present _ _ HPc).
    rewrite (count_perm studentNo Spec.Late _ _ HPc).
    rewrite (count_perm studentNo Spec.Absent _ _ HPc).
    reflexivity.
  - intro s. apply attendance_absent_iff.
  - intro s. apply attendance_late_iff.
Qed.

(** Two duplicate-free session lists with the same members give the same
    statistics. *)
Lemma studentCourseStats_same_set (studentNo courseId : string)
      (sessions sessions' : list Schema.Session) :
  NoDup sessions -> NoDup sessions' ->
  (forall s, In s sessions <-> In s sessions') ->
  Helpers.studentCourseStats studentNo courseId sessions' =
  Helpers.studentCourseStats studentNo courseId sessions.
Proof.
  intros N N' H.
  assert (HP : Permutation sessions sessions') by (apply NoDup_Permutation; assumption).
  rewrite (studentCourseStats_eq studentNo courseId sessions).
  rewrite (studentCourseStats_eq studentNo courseId sessions'). cbv zeta.
  assert (HPc : Permutation
                  (filter (fun s => String.eqb (Schema.course_id (Schema.row s)) courseId) sessions')
                  (filter (fun s => String.eqb (Schema.course_id (Schema.row s)) courseId) sessions)).
  { apply filter_perm. symmetry. exact HP. }
  rewrite (Permutation_length HPc).
  rewrite (count_perm studentNo Spec.Present _ _ HPc).
  rewrite (count_perm studentNo Spec.Late _ _ HPc).
  rewrite (count_perm studentNo Spec.Absent _ _ HPc).
  reflexivity.
Qed.

Lemma studentCourseStats_counts_witness :
  let sessions := [Scenario.with_scan; Scenario.without_scan] in
  let sessions' := [Scenario.without_scan; Scenario.with_scan] in
  let cs := filter (fun s => String.eqb (Schema.course_id (Schema.row s)) "C1") sessions in
  let r := Helpers.studentCourseStats "20210001" "C1" sessions in
  Helpers.absent r = Spec.count Spec.Absent "20210001" cs /\
  Helpers.late r = Spec.count Spec.Late "20210001" cs /\
  Helpers.present r = Spec.count Spec.Present "20210001" cs /\
  (Helpers.present r + Helpers.late r + Helpers.absent r = Helpers.total r)%nat /\
  Helpers.total r = List.length cs /\
  Helpers.studentCourseStats "20210001" "C1" sessions' = r.
Proof.
  destruct (studentCourseStats_counts "20210001" "C1"
              [Scenario.with_scan; Scenario.without_scan]
              [Scenario.without_scan; Scenario.with_scan]
              (perm_swap _ _ _)) as [H1 [H2 [H3 [H4 [H5 [H6 _]]]]]].
  repeat split; assumption.
Defined.

(** One session with a late scan and one without a scan; and the
    percentage and band for five present and two late out of ten. *)
Lemma stats_example :
  Helpers.studentCourseStats "20210001" "C1" [Scenario.with_scan; Scenario.without_scan]
  = {| Helpers.total := 2; Helpers.present := 0; Helpers.late := 1; Helpers.absent := 1 |} /\
  Helpers.reportPct 5 2 10 = Some 70 /\
  Helpers.label (Helpers.attendanceStatus 70) = "At Risk".
Proof. vm_compute. repeat split. Qed.

(* ===================================================================== *)
(** ** Properties of the store *)
(* ===================================================================== *)

Section StringKeyFacts.
Context {A : Type}.
Variable key : A -> string.

Lemma existsb_eq_true (k : string) (l : list A) :
  Supabase.existsb_eq key k l = true <-> exists x, In x l /\ key x = k.
Proof.
  unfold Supabase.existsb_eq. rewrite existsb_exists.
  split; intros [x [Hx E]]; exists x; (split; [exact Hx |]);
    [apply String.eqb_eq | apply String.eqb_eq]; exact E.
Qed.

Lemma existsb_eq_false (k : string) (l : list A) :
  Supabase.existsb_eq key k l = false <-> ~ In k (map key l).
Proof.
  split.
  - intros H Hin. apply in_map_iff in Hin. destruct Hin as [x [E Hx]].
    assert (T : Supabase.existsb_eq key k l = true) by (apply existsb_eq_true; eauto).
    congruence.
  - intro H. destruct (Supabase.existsb_eq key k l) eqn:E; [| reflexivity].
    exfalso. apply H. apply existsb_eq_true in E. destruct E as [x [Hx E]].
    apply in_map_iff. eauto.
Qed.

Lemma filter_absent_key (l : list A) (k : string) :
  ~ In k (map key l) -> filter (fun y => String.eqb (key y) k) l = [].
Proof.
  induction l as [| z l IH]; intro H; [reflexivity |].
  cbn [filter]. destruct (String.eqb_spec (key z) k) as [E | E].
  - exfalso. apply H. left. exact E.
  - apply IH. intro Hin. apply H. right. exact Hin.
Qed.

(** With a unique key, selecting on the key of a stored row returns that
    row alone. *)
Lemma filter_unique_key (l : list A) (x : A) :
  NoDup (map key l) -> In x l ->
  filter (fun y => String.eqb (key y) (key x)) l = [x].
Proof.
  induction l as [| z l IH]; intros H Hx; [destruct Hx |].
  cbn [map] in H. apply NoDup_cons_iff in H. destruct H as [Hz Hl].
  cbn [filter]. destruct Hx as [Hx | Hx].
  - subst z. rewrite String.eqb_refl. f_equal.
    apply filter_absent_key. exact Hz.
  - destruct (String.eqb_spec (key z) (key x)) as [E | E].
    + exfalso. apply Hz. rewrite E. apply in_map. exact Hx.
    + exact (IH Hl Hx).
Qed.
End StringKeyFacts.

Section StoreInvariants.
Import Schema Supabase Inv.

Lemma set_status_closed_id (s : SessionRow) :
  status s = "closed" -> set_status s "closed" = s.
Proof. destruct s; cbn. intro E. subst. reflexivity. Qed.

Lemma map_id_close (sid : string) (l : list SessionRow) :
  map id (map (fun s => if String.eqb (id s) sid then set_status s "closed" else s) l)
  = map id l.
Proof.
  rewrite map_map. apply map_ext. intro s.
  destruct (String.eqb (id s) sid); reflexivity.
Qed.

(** Effect of each write on the sessions table. *)
Lemma sessions_delete_sessions dead st :
  sessions (delete_sessions dead st) = filter (fun s => negb (dead s)) (sessions st).
Proof. reflexivity. Qed.

Lemma sessions_delete_courses dead st :
  exists p, sessions (delete_courses dead st) = filter p (sessions st).
Proof. eexists. reflexivity. Qed.

(** The two upserts touch the students and enrolments tables only. *)
Lemma upsert_student_frame st new :
  let st1 := fst (upsert_student st new) in
  sessions st1 = sessions st /\ scans st1 = scans st /\
  enrolments st1 = enrolments st /\ courses st1 = courses st.
Proof.
  unfold upsert_student. destruct (find _ _).
  - destruct (existsb _ _); [cbn; tauto |]. destruct (_ && _); cbn; tauto.
  - destruct (existsb_eq _ _ _); cbn; tauto.
Qed.

Lemma upsert_enrolment_frame st new :
  let st1 := fst (upsert_enrolment st new) in
  sessions st1 = sessions st /\ scans st1 = scans st /\ students st1 = students st.
Proof.
  unfold upsert_enrolment. destruct (existsb _ _); [cbn; tauto |].
  destruct (_ || _); cbn; tauto.
Qed.

Lemma upsertStudentAndEnrol_frame n s c st :
  let st' := fst (upsertStudentAndEnrol st n s c) in
  sessions st' = sessions st /\ scans st' = scans st.
Proof.
  unfold upsertStudentAndEnrol.
  pose proof (upsert_student_frame st
                {| st_id := "S_" ++ n; st_student_no := n; st_surname_initials := s |}) as F1.
  destruct (upsert_student st _) as [st1 se]. cbn [fst] in F1.
  destruct se as [e |]; [cbn [fst]; tauto |].
  match goal with
  | |- context [upsert_enrolment st1 ?new] =>
      pose proof (upsert_enrolment_frame st1 new) as F2;
      destruct (upsert_enrolment st1 new) as [st2 ee]
  end.
  cbn [fst] in F2.
  assert (G : sessions st2 = sessions st /\ scans st2 = scans st).
  { destruct F1 as [A1 [A2 _]], F2 as [B1 [B2 _]]. split; congruence. }
  destruct ee as [e |]; [| exact G].
  destruct (code e) as [c0 |]; [destruct (negb _) |]; exact G.
Qed.

Lemma sessions_upsert n s c st :
  sessions (fst (upsertStudentAndEnrol st n s c)) = sessions st.
Proof. apply upsertStudentAndEnrol_frame. Qed.

Lemma scans_upsert n s c st :
  scans (fst (upsertStudentAndEnrol st n s c)) = scans st.
Proof. apply upsertStudentAndEnrol_frame. Qed.

(** The sessions table after one write: unchanged, filtered by a cascade
    delete, extended by a new id, or closed in place. *)
Lemma sessions_exec (st : Store) (o : op) :
  sessions (exec st o) = sessions st \/
  (exists p, sessions (exec st o) = filter p (sessions st)) \/
  (exists s, sessions (exec st o) = (sessions st ++ [s])%list /\
             ~ In (id s) (map id (sessions st)) /\ status s = "active") \/
  (exists sid, sessions (exec st o) =
               map (fun s => if String.eqb (id s) sid then set_status s "closed" else s)
                   (sessions st)).
Proof.
  destruct o; cbn [exec].
  - left. unfold createLecturer. destruct (_ || _); reflexivity.
  - right. left. unfold deleteLecturer. cbn [fst sessions].
    rewrite sessions_delete_sessions.
    destruct (sessions_delete_courses (fun c => String.eqb (c_lecturer_id c) lid) st) as [p Hp].
    rewrite Hp.
    exists (fun x => p x && negb (String.eqb (lecturer_id x) lid)).
    clear Hp. induction (sessions st) as [| x l IH]; [reflexivity |].
    cbn [filter]. destruct (p x); cbn [filter andb]; [| exact IH].
    destruct (negb _); [f_equal |]; exact IH.
  - left. unfold createCourse. destruct (course_row i) as [c | e]; [| reflexivity].
    unfold insert_course. destruct (existsb_eq _ _ _); [reflexivity |].
    destruct (negb _); reflexivity.
  - right. left. apply sessions_delete_courses.
  - left. apply sessions_upsert.
  - left. reflexivity.
  - unfold createSession. cbn [id set_status].
    destruct (existsb_eq id (id s) (sessions st)) eqn:E; [left; reflexivity |].
    destruct (_ || _); [left; reflexivity |].
    right. right. left. exists (set_status s "active"). cbn [fst sessions with_sessions].
    split; [reflexivity |]. split; [| reflexivity].
    apply existsb_eq_false in E. exact E.
  - right. right. right. exists sessionId. reflexivity.
  - left. unfold recordScan. destruct (in_minutes_late i); [| reflexivity].
    destruct (existsb _ _); [reflexivity |]. destruct (negb _); reflexivity.
Qed.

Lemma sessions_unique_exec (st : Store) (o : op) :
  sessions_unique st -> sessions_unique (exec st o).
Proof.
  unfold sessions_unique. intro H.
  destruct (sessions_exec st o) as [E | [[p E] | [[s [E [Hs _]]] | [sid E]]]]; rewrite E.
  - exact H.
  - apply NoDup_map_filter. exact H.
  - apply NoDup_map_snoc; assumption.
  - rewrite map_id_close. exact H.
Qed.

(** Effect of each write on the scans table: unchanged, filtered by a
    cascade delete, or extended by a row with a fresh key. *)
Lemma scans_exec (st : Store) (o : op) :
  scans (exec st o) = scans st \/
  (exists p, scans (exec st o) = filter p (scans st)) \/
  (exists r, scans (exec st o) = (scans st ++ [r])%list /\
             ~ In (scan_key r) (map scan_key (scans st))).
Proof.
  destruct o; cbn [exec].
  - left. unfold createLecturer. destruct (_ || _); reflexivity.
  - right. left. unfold deleteLecturer, delete_courses, delete_sessions.
    cbn [fst scans sessions courses]. eexists.
    match goal with
    | |- filter ?q (filter ?p ?l) = _ =>
        instantiate (1 := fun x => p x && q x);
        induction l as [| x l' IH]; [reflexivity |];
        cbn [filter]; destruct (p x); cbn [filter andb]; [| exact IH];
        destruct (q x); [f_equal |]; exact IH
    end.
  - left. unfold createCourse. destruct (course_row i) as [c | e]; [| reflexivity].
    unfold insert_course. destruct (existsb_eq _ _ _); [reflexivity |].
    destruct (negb _); reflexivity.
  - right. left. eexists. reflexivity.
  - left. apply scans_upsert.
  - left. reflexivity.
  - left. unfold createSession. destruct (existsb_eq _ _ _); [reflexivity |].
    destruct (_ || _); reflexivity.
  - left. reflexivity.
  - unfold recordScan. destruct (in_minutes_late i) as [m |]; [| left; reflexivity].
    destruct (existsb _ (scans st)) eqn:E; [left; reflexivity |].
    destruct (negb _); [left; reflexivity |].
    right. right. eexists. cbn [fst scans with_scans]. split; [reflexivity |].
    unfold scan_key at 1. cbn [session_id student_no].
    intro Hin. apply in_map_iff in Hin. destruct Hin as [x [Ex Hx]].
    assert (T : existsb (same_key (in_session_id i) (in_student_no i)) (scans st) = true).
    { apply existsb_exists. exists x. split; [exact Hx |].
      unfold scan_key in Ex. inversion Ex. unfold same_key.
      rewrite !String.eqb_refl. reflexivity. }
    congruence.
Qed.

Lemma scans_unique_exec (st : Store) (o : op) :
  scans_unique st -> scans_unique (exec st o).
Proof.
  unfold scans_unique. intro H.
  destruct (scans_exec st o) as [E | [[p E] | [r [E Hr]]]]; rewrite E.
  - exact H.
  - apply NoDup_map_filter. exact H.
  - apply NoDup_map_snoc; assumption.
Qed.

End StoreInvariants.

Section StudentInvariants.
Import Schema Supabase Inv.

Lemma upsert_student_wf (st : Store) (new : StudentRow) :
  students_wf st -> st_id new = "S_" ++ st_student_no new ->
  students_wf (fst (upsert_student st new)).
Proof.
  intros [Hnd Hid] Hnew. unfold upsert_student.
  destruct (find _ (students st)) as [old |] eqn:Ef.
  - destruct (existsb _ _); [split; assumption |].
    destruct (_ && _); [split; assumption |].
    cbn [fst]. unfold students_wf. cbn [students with_students]. split.
    + rewrite map_map.
      replace (map _ (students st)) with (map st_student_no (students st)); [exact Hnd |].
      apply map_ext. intro s.
      destruct (String.eqb_spec (st_student_no s) (st_student_no new)); congruence.
    + apply Forall_forall. intros x Hx. apply in_map_iff in Hx.
      destruct Hx as [s [Ex Hs]]. rewrite Forall_forall in Hid.
      destruct (String.eqb (st_student_no s) (st_student_no new)); subst x; auto.
  - destruct (existsb_eq _ _ _); [split; assumption |].
    cbn [fst]. unfold students_wf. cbn [students with_students]. split.
    + apply NoDup_map_snoc; [exact Hnd |].
      intro Hin. apply in_map_iff in Hin. destruct Hin as [s [Es Hs]].
      pose proof (find_none _ _ Ef s Hs) as Hn. cbn beta in Hn.
      rewrite Es, String.eqb_refl in Hn. discriminate.
    + apply Forall_app. split; [exact Hid |]. repeat constructor. exact Hnew.
Qed.

Lemma students_upsertStudentAndEnrol (st : Store) (n s c : string) :
  students (fst (upsertStudentAndEnrol st n s c)) =
  students (fst (upsert_student st {| st_id := "S_" ++ n; st_student_no := n;
                                      st_surname_initials := s |})).
Proof.
  unfold upsertStudentAndEnrol.
  destruct (upsert_student st _) as [st1 se]. cbn [fst].
  destruct se as [e |]; [reflexivity |].
  match goal with
  | |- context [upsert_enrolment st1 ?new] =>
      pose proof (upsert_enrolment_frame st1 new) as F2;
      destruct (upsert_enrolment st1 new) as [st2 ee]
  end.
  cbn [fst] in F2. destruct F2 as [_ [_ F2]].
  destruct ee as [e |]; [| exact F2].
  destruct (code e) as [c0 |]; [destruct (negb _) |]; exact F2.
Qed.

Lemma students_wf_exec (st : Store) (o : op) :
  students_wf st -> students_wf (exec st o).
Proof.
  intro H. unfold students_wf in *. destruct o; cbn [exec].
  - unfold createLecturer. destruct (_ || _); exact H.
  - exact H.
  - unfold createCourse. destruct (course_row i) as [c | e]; [| exact H].
    unfold insert_course. destruct (existsb_eq _ _ _); [exact H |].
    destruct (negb _); exact H.
  - exact H.
  - rewrite students_upsertStudentAndEnrol.
    apply (upsert_student_wf st); [exact H | reflexivity].
  - exact H.
  - unfold createSession. destruct (existsb_eq _ _ _); [exact H |].
    destruct (_ || _); exact H.
  - exact H.
  - unfold recordScan. destruct (in_minutes_late i); [| exact H].
    destruct (existsb _ _); [exact H |]. destruct (negb _); exact H.
Qed.

Lemma wf_empty : wf empty.
Proof. repeat split; constructor. Qed.

Lemma wf_exec (st : Store) (o : op) : wf st -> wf (exec st o).
Proof.
  intros [H1 [H2 H3]]. split; [| split].
  - apply scans_unique_exec, H1.
  - apply sessions_unique_exec, H2.
  - apply students_wf_exec, H3.
Qed.

Lemma wf_run (ops : list op) (st : Store) : wf st -> wf (run st ops).
Proof.
  revert st. induction ops as [| o ops IH]; intros st H; [exact H |].
  cbn [run fold_left]. apply IH, wf_exec, H.
Qed.

(** Every store the application can build satisfies the invariants. *)
Lemma wf_reachable (ops : list op) : wf (run empty ops).
Proof. apply wf_run, wf_empty. Qed.

End StudentInvariants.

Section UpsertStudent.
Import Schema Supabase Inv.

Variable st : Store.
Variables studentNo surnameInitials courseId : string.
Variable old : StudentRow.
Hypothesis Hwf : students_wf st.
Hypothesis Hold : In old (students st).
Hypothesis Hno : st_student_no old = studentNo.

Let new : StudentRow :=
  {| st_id := "S_" ++ studentNo; st_student_no := studentNo;
     st_surname_initials := surnameInitials |}.

Let replaced : list StudentRow :=
  map (fun s => if String.eqb (st_student_no s) studentNo then new else s) (students st).

Lemma old_id : st_id old = "S_" ++ studentNo.
Proof.
  destruct Hwf as [_ Hid]. rewrite Forall_forall in Hid.
  rewrite (Hid old Hold), Hno. reflexivity.
Qed.

Lemma upsert_student_existing :
  upsert_student st new = (with_students st replaced, None).
Proof.
  destruct Hwf as [Hnd Hid]. rewrite Forall_forall in Hid.
  unfold upsert_student. cbn [st_student_no st_id new].
  destruct (find _ (students st)) as [old' |] eqn:Ef.
  - apply find_some in Ef. destruct Ef as [Hin' E']. apply String.eqb_eq in E'.
    assert (old' = old).
    { apply (NoDup_map_In_eq st_student_no (students st)); congruence. }
    subst old'.
    assert (Epk : existsb (fun s => String.eqb (st_id s) ("S_" ++ studentNo)
                                    && negb (String.eqb (st_student_no s) studentNo))
                          (students st) = false).
    { destruct (existsb _ _) eqn:E; [| reflexivity].
      apply existsb_exists in E. destruct E as [s [Hs E]].
      apply andb_true_iff in E. destruct E as [E1 E2].
      apply String.eqb_eq in E1. rewrite (Hid s Hs) in E1.
      cbn in E1. inversion E1 as [E3]. rewrite E3, String.eqb_refl in E2. discriminate. }
    rewrite Epk. rewrite old_id, String.eqb_refl. reflexivity.
  - exfalso. pose proof (find_none _ _ Ef old Hold) as Hn. cbn beta in Hn.
    rewrite Hno, String.eqb_refl in Hn. discriminate.
Qed.

Lemma new_in_replaced : In new replaced.
Proof.
  unfold replaced. apply in_map_iff. exists old. split; [| exact Hold].
  rewrite Hno, String.eqb_refl. reflexivity.
Qed.

Lemma replaced_unique : NoDup (map st_student_no replaced).
Proof.
  destruct Hwf as [Hnd _]. unfold replaced. rewrite map_map.
  replace (map _ (students st)) with (map st_student_no (students st)); [exact Hnd |].
  apply map_ext. intro s.
  destruct (String.eqb_spec (st_student_no s) studentNo) as [E | E]; [| reflexivity].
  cbn. congruence.
Qed.

Lemma select_after_upsert :
  select_student_id (with_students st replaced) studentNo = Some ("S_" ++ studentNo).
Proof.
  unfold select_student_id. cbn [students with_students].
  pose proof (filter_unique_key st_student_no replaced new replaced_unique new_in_replaced) as F.
  cbn [st_student_no new] in F. rewrite F. reflexivity.
Qed.

Let enrolment : EnrolmentRow :=
  {| en_student_id := "S_" ++ studentNo; en_course_id := courseId |}.

Lemma upsert_enrolment_cases :
  let st1 := with_students st replaced in
  (In enrolment (enrolments st) /\ upsert_enrolment st1 enrolment = (st1, None)) \/
  (existsb_eq c_id courseId (courses st) = true /\
   upsert_enrolment st1 enrolment
   = (with_enrolments st1 (enrolments st ++ [enrolment])%list, None)) \/
  (existsb_eq c_id courseId (courses st) = false /\
   upsert_enrolment st1 enrolment = (st1, Some foreign_key_violation)).
Proof.
  intro st1. unfold upsert_enrolment.
  cbn [enrolments courses students st1 with_students en_student_id en_course_id enrolment].
  destruct (existsb _ (enrolments st)) eqn:Ee.
  - left. split; [| reflexivity]. apply existsb_exists in Ee.
    destruct Ee as [e [He E]]. apply andb_true_iff in E. destruct E as [E1 E2].
    apply String.eqb_eq in E1. apply String.eqb_eq in E2.
    destruct e as [a b]. cbn in E1, E2. subst. exact He.
  - right.
    assert (Hs : existsb_eq st_id ("S_" ++ studentNo) replaced = true).
    { apply existsb_eq_true. exists new. split; [apply new_in_replaced | reflexivity]. }
    rewrite Hs. cbn [negb orb].
    destruct (existsb_eq c_id courseId (courses st)); [left | right]; split; reflexivity.
Qed.

Lemma upsertStudentAndEnrol_existing :
  let r := upsertStudentAndEnrol st studentNo surnameInitials courseId in
  students (fst r) = replaced /\
  scans (fst r) = scans st /\
  sessions (fst r) = sessions st /\
  (existsb_eq c_id courseId (courses st) = true ->
     snd r = Ok new /\ In enrolment (enrolments (fst r))) /\
  (forall x, snd r = Ok x -> x = new /\ In enrolment (enrolments (fst r))).
Proof.
  intro r. subst r. unfold upsertStudentAndEnrol.
  fold new. rewrite upsert_student_existing. rewrite select_after_upsert.
  cbn [String.eqb String.append].
  change (String "S" (String "_" studentNo)) with ("S_" ++ studentNo).
  fold new enrolment.
  destruct upsert_enrolment_cases as [[Hin E] | [[Hc E] | [Hc E]]]; rewrite E;
    cbn [fst snd students scans sessions enrolments with_students with_enrolments
         code foreign_key_violation String.eqb Ascii.eqb Bool.eqb negb].
  - split; [reflexivity |]. split; [reflexivity |]. split; [reflexivity |]. split.
    + intros _. split; [reflexivity | exact Hin].
    + intros x Hx. inversion Hx. split; [reflexivity | exact Hin].
  - assert (Hin : In enrolment (enrolments st ++ [enrolment])%list)
      by (apply in_or_app; right; left; reflexivity).
    split; [reflexivity |]. split; [reflexivity |]. split; [reflexivity |]. split.
    + intros _. split; [reflexivity | exact Hin].
    + intros x Hx. inversion Hx. split; [reflexivity | exact Hin].
  - split; [reflexivity |]. split; [reflexivity |]. split; [reflexivity |]. split.
    + intro Hc'. rewrite Hc in Hc'. discriminate.
    + intros x Hx. discriminate.
Qed.

End UpsertStudent.

(** C10.  Upserting a student whose student number is already stored
    overwrites the surname and initials of that row in place (the
    conflicting row is not ignored), leaves every scan, hence every name
    snapshot, as it was, keeps the id of the existing student, returns
    that id and enrols it in the course. *)
Theorem upsert_existing_student_overwrites (st : Supabase.Store)
        (studentNo surnameInitials courseId : string) (old : Schema.StudentRow) :
  Inv.students_wf st ->
  In old (Supabase.students st) ->
  Schema.st_student_no old = studentNo ->
  let r := Supabase.upsertStudentAndEnrol st studentNo surnameInitials courseId in
  let new := {| Schema.st_id := Schema.st_id old; Schema.st_student_no := studentNo;
                Schema.st_surname_initials := surnameInitials |} in
  let enrolment := {| Schema.en_student_id := Schema.st_id old;
                      Schema.en_course_id := courseId |} in
  Supabase.students (fst r) =
    map (fun s => if String.eqb (Schema.st_student_no s) studentNo then new else s)
        (Supabase.students st) /\
  In new (Supabase.students (fst r)) /\
  Supabase.scans (fst r) = Supabase.scans st /\
  (Supabase.existsb_eq Schema.c_id courseId (Supabase.courses st) = true ->
     snd r = Supabase.Ok new /\ In enrolment (Supabase.enrolments (fst r))) /\
  (forall x, snd r = Supabase.Ok x ->
     x = new /\ In enrolment (Supabase.enrolments (fst r))).
Proof.
  intros Hwf Hold Hno r new enrolment. subst r new enrolment.
  rewrite (old_id st studentNo old Hwf Hold Hno).
  destruct (upsertStudentAndEnrol_existing st studentNo surnameInitials courseId old Hwf Hold Hno)
    as [H1 [H2 [_ [H4 H5]]]].
  split; [exact H1 |]. split.
  - rewrite H1. apply (new_in_replaced st studentNo surnameInitials old Hold Hno).
  - split; [exact H2 |]. split; [exact H4 | exact H5].
Qed.

Lemma upsert_existing_student_overwrites_witness :
  let r := Supabase.upsertStudentAndEnrol Scenario.st0 "20210001" "Khumalo-Nkosi T.S." "C1" in
  let new := {| Schema.st_id := "S_20210001"; Schema.st_student_no := "20210001";
                Schema.st_surname_initials := "Khumalo-Nkosi T.S." |} in
  Supabase.students (fst r) =
    map (fun s => if String.eqb (Schema.st_student_no s) "20210001" then new else s)
        (Supabase.students Scenario.st0) /\
  In new (Supabase.students (fst r)) /\
  Supabase.scans (fst r) = Supabase.scans Scenario.st0 /\
  snd r = Supabase.Ok new.
Proof.
  assert (Hwf : Inv.students_wf Scenario.st0).
  { exact (proj2 (proj2 (wf_reachable Scenario.ops0))). }
  assert (Hin : In {| Schema.st_id := "S_20210001"; Schema.st_student_no := "20210001";
                      Schema.st_surname_initials := "Khumalo T.S." |}
                   (Supabase.students Scenario.st0)).
  { vm_compute. left. reflexivity. }
  pose proof (upsert_existing_student_overwrites Scenario.st0
                "20210001" "Khumalo-Nkosi T.S." "C1" _ Hwf Hin eq_refl) as H.
  cbv zeta in H. cbn [Schema.st_id] in H.
  destruct H as [H1 [H2 [H3 [H4 _]]]].
  assert (Hc : Supabase.existsb_eq Schema.c_id "C1" (Supabase.courses Scenario.st0) = true).
  { vm_compute. reflexivity. }
  destruct (H4 Hc) as [H5 _].
  split; [exact H1 |]. split; [exact H2 |]. split; [exact H3 | exact H5].
Defined.

Section CloseSession.
Import Schema Supabase Inv.

Lemma with_sessions_same (st : Store) : with_sessions st (sessions st) = st.
Proof. destruct st; reflexivity. Qed.

Lemma close_map_fixed (sid : string) (l : list SessionRow) :
  (forall s, In s l -> id s = sid -> status s = "closed") ->
  map (fun s => if String.eqb (id s) sid then set_status s "closed" else s) l = l.
Proof.
  intro H. rewrite <- (map_id l) at 2. apply map_ext_in. intros s Hs.
  destruct (String.eqb_spec (id s) sid) as [E | E]; [| reflexivity].
  apply set_status_closed_id. exact (H s Hs E).
Qed.

(** A closed row survives every write unchanged, unless a cascade
    delete removes it. *)
Lemma closed_row_exec (st : Store) (o : op) (s : SessionRow) :
  sessions_unique st -> In s (sessions st) -> status s = "closed" ->
  In s (sessions (exec st o)) \/ absent (id s) (exec st o).
Proof.
  intros Hu Hs Hc.
  destruct (sessions_exec st o) as [E | [[p E] | [[x [E _]] | [sid E]]]].
  - left. rewrite E. exact Hs.
  - destruct (p s) eqn:Ep.
    + left. rewrite E. apply filter_In. split; assumption.
    + right. unfold absent. rewrite E. intros s' Hs' Eid.
      apply filter_In in Hs'. destruct Hs' as [Hin Hp].
      assert (s' = s) by (apply (NoDup_map_In_eq id (sessions st)); assumption).
      subst s'. congruence.
  - left. rewrite E. apply in_or_app. left. exact Hs.
  - left. rewrite E. apply in_map_iff. exists s. split; [| exact Hs].
    destruct (String.eqb (id s) sid); [apply set_status_closed_id; exact Hc | reflexivity].
Qed.

Lemma closed_row_run (ops : list op) (st : Store) (s : SessionRow) :
  sessions_unique st -> In s (sessions st) -> status s = "closed" ->
  ~ active (id s) (run st ops) \/
  exists pre post, ops = (pre ++ post)%list /\ absent (id s) (run st pre).
Proof.
  revert st. induction ops as [| o ops IH]; intros st Hu Hs Hc.
  - left. intros [s' [Hs' [Eid Ea]]]. cbn [run fold_left] in Hs'.
    assert (s' = s) by (apply (NoDup_map_In_eq id (sessions st)); assumption).
    subst s'. rewrite Hc in Ea. discriminate.
  - destruct (closed_row_exec st o s Hu Hs Hc) as [Hin | Habs].
    + destruct (IH (exec st o) (sessions_unique_exec st o Hu) Hin Hc)
        as [Hna | [pre [post [E Ha]]]].
      * left. exact Hna.
      * right. exists (o :: pre), post. split; [cbn; f_equal; exact E | exact Ha].
    + right. exists [o], ops. split; [reflexivity | exact Habs].
Qed.

End CloseSession.

(** C8.  Closing a session succeeds and changes the sessions table only,
    there only the rows with that id, and of those only the status, which
    becomes "closed"; every scan and every other table is as before.
    Closing a session that does not exist or is already closed leaves the
    store as it is and is no failure; [endSession] never passes a failure
    on.  Afterwards no sequence of writes makes the session active again:
    it stays closed until a cascade delete removes its row. *)
Theorem closeSession_frame (st : Supabase.Store) (sessionId : string) :
  Inv.sessions_unique st ->
  let st' := fst (Supabase.closeSession st sessionId) in
  snd (Supabase.closeSession st sessionId) = Supabase.Ok tt /\
  Supabase.scans st' = Supabase.scans st /\
  Supabase.scans_seq st' = Supabase.scans_seq st /\
  Supabase.lecturers st' = Supabase.lecturers st /\
  Supabase.courses st' = Supabase.courses st /\
  Supabase.students st' = Supabase.students st /\
  Supabase.enrolments st' = Supabase.enrolments st /\
  Supabase.sessions st' =
    map (fun s => if String.eqb (Schema.id s) sessionId
                  then Supabase.set_status s "closed" else s)
        (Supabase.sessions st) /\
  ((forall s, In s (Supabase.sessions st) -> Schema.id s = sessionId ->
              Schema.status s = "closed") -> st' = st) /\
  (forall fault, App.endSession st fault (Some sessionId) = (st, None) \/
                 App.endSession st fault (Some sessionId) = (st', None)) /\
  (forall ops, ~ Inv.active sessionId (Supabase.run st' ops) \/
               exists pre post, ops = (pre ++ post)%list /\
                                Inv.absent sessionId (Supabase.run st' pre)).
Proof.
  intros Hu st'. subst st'. unfold Supabase.closeSession. cbn [fst snd].
  repeat (split; [reflexivity |]).
  split; [| split].
  - intro H. rewrite (close_map_fixed sessionId _ H). apply with_sessions_same.
  - intro fault. unfold App.endSession.
    destruct sessionId as [| c r]; [left; reflexivity |].
    destruct fault; [left | right]; reflexivity.
  - intro ops.
    set (st' := Supabase.with_sessions st _).
    assert (Hu' : Inv.sessions_unique st').
    { unfold Inv.sessions_unique, st'. cbn [Supabase.sessions Supabase.with_sessions].
      rewrite map_id_close. exact Hu. }
    destruct (Supabase.existsb_eq Schema.id sessionId (Supabase.sessions st)) eqn:E.
    + apply existsb_eq_true in E. destruct E as [s [Hs Eid]]. subst sessionId.
      apply (closed_row_run ops st' (Supabase.set_status s "closed") Hu').
      * unfold st'. cbn [Supabase.sessions Supabase.with_sessions].
        apply in_map_iff. exists s. rewrite String.eqb_refl. split; [reflexivity | exact Hs].
      * reflexivity.
    + right. exists [], ops. split; [reflexivity |].
      apply existsb_eq_false in E. intros s Hs Eid. apply E.
      cbn [Supabase.run fold_left] in Hs. unfold st' in Hs.
      cbn [Supabase.sessions Supabase.with_sessions] in Hs.
      apply (in_map Schema.id) in Hs. rewrite map_id_close, Eid in Hs. exact Hs.
Qed.

Lemma closeSession_frame_witness :
  snd (Supabase.closeSession Scenario.st0 "SESSION001") = Supabase.Ok tt /\
  Supabase.scans (fst (Supabase.closeSession Scenario.st0 "SESSION001"))
  = Supabase.scans Scenario.st0.
Proof.
  destruct (closeSession_frame Scenario.st0 "SESSION001"
              (proj1 (proj2 (wf_reachable Scenario.ops0)))) as [H1 [H2 _]].
  split; [exact H1 | exact H2].
Defined.

(** The scenario: the lecturer ends the open session; its row is closed
    and nothing else differs. *)
Lemma endSession_example :
  map Schema.status (Supabase.sessions Scenario.closed) = ["closed"] /\
  Supabase.scans Scenario.closed = Supabase.scans Scenario.st0 /\
  fst (Supabase.closeSession Scenario.closed "SESSION001") = Scenario.closed /\
  fst (Supabase.closeSession Scenario.closed "NOSUCHSESS") = Scenario.closed.
Proof. vm_compute. repeat split. Qed.

(* --------------------------------------------------------------------- *)
(** *** Reading a session and its scans *)

Section Reads.
Import Schema Supabase Inv.

Lemma insert_desc_perm (x : ScanRow) (l : list ScanRow) :
  Permutation (insert_desc x l) (x :: l).
Proof.
  induction l as [| y r IH]; [reflexivity |].
  cbn [insert_desc]. destruct (scanned_at y <? scanned_at x); [reflexivity |].
  etransitivity; [apply perm_skip, IH | apply perm_swap].
Qed.

Lemma order_desc_perm (l : list ScanRow) : Permutation (order_desc l) l.
Proof.
  induction l as [| x l IH]; [reflexivity |].
  unfold order_desc in *. cbn [fold_right].
  etransitivity; [apply insert_desc_perm | apply perm_skip, IH].
Qed.

Lemma insert_desc_sorted (x : ScanRow) (l : list ScanRow) :
  descending l -> descending (insert_desc x l).
Proof.
  unfold descending. induction l as [| y r IH]; intro H.
  - repeat constructor.
  - cbn [insert_desc]. apply StronglySorted_inv in H. destruct H as [Hr Hy].
    destruct (Z.ltb_spec (scanned_at y) (scanned_at x)) as [L | G].
    + constructor; [constructor; assumption |].
      constructor; [lia |].
      rewrite Forall_forall in *. intros z Hz. specialize (Hy z Hz). lia.
    + constructor; [exact (IH Hr) |].
      rewrite Forall_forall in *. intros z Hz.
      apply (Permutation_in _ (insert_desc_perm x r)) in Hz.
      destruct Hz as [E | Hz]; [subst z; lia | exact (Hy z Hz)].
Qed.

Lemma order_desc_sorted (l : list ScanRow) : descending (order_desc l).
Proof.
  induction l as [| x l IH]; [constructor |].
  unfold order_desc in *. cbn [fold_right]. apply insert_desc_sorted, IH.
Qed.

Lemma getSession_found (st : Store) (s : SessionRow) :
  sessions_unique st -> In s (sessions st) ->
  getSession st (id s) = Ok (Some (embed st s)).
Proof.
  intros Hu Hs. unfold getSession.
  rewrite (filter_unique_key id (sessions st) s Hu Hs). reflexivity.
Qed.

Lemma getSession_missing (st : Store) (sessionId : string) :
  absent sessionId st -> getSession st sessionId = Ok None.
Proof.
  intro H. unfold getSession. rewrite filter_absent_key; [reflexivity |].
  intro Hin. apply in_map_iff in Hin. destruct Hin as [s [E Hs]]. exact (H s Hs E).
Qed.

End Reads.

(** C7 (the code at the failing input).  Two students check in to a
    session at 09:14 and at 09:16 and the session is read with
    [getSession].  Its select names no order for the embedded scans, so
    they come as the database produces them, whatever order that is; for
    these two rows of a table that saw nothing but their inserts it is the
    09:14 scan first, which is not most recent first.  The sibling
    [getScansForSession] does ask for the order and returns the 09:16 scan
    first, as it returns the scans of any session most recent first. *)
Theorem getSession_scans_order_not_fixed :
  (forall (pick : list Schema.ScanRow -> list Schema.ScanRow) (st : Supabase.Store)
          (s : Schema.SessionRow),
     Inv.sessions_unique st -> In s (Supabase.sessions st) ->
     Supabase.getSession_in pick st (Schema.id s)
     = Supabase.Ok (Some {| Schema.row := s;
                            Schema.scans := Some (pick (Inv.scans_of st (Schema.id s))) |})) /\
  (forall (st : Supabase.Store) (i : string) (sc : Schema.ScanRow),
     In sc (Inv.scans_of st i) <-> In sc (Supabase.scans st) /\ Schema.session_id sc = i) /\
  (forall (st : Supabase.Store) (i : string),
     exists l, Supabase.getScansForSession st i = Supabase.Ok l /\
               Permutation l (Inv.scans_of st i) /\ Inv.descending l) /\
  map Schema.scanned_at (Inv.scans_of Scenario.st2 "SESSION001")
  = [1709536440000; 1709536560000] /\
  (exists s l,
     Supabase.getSession Scenario.st2 "SESSION001" = Supabase.Ok (Some s) /\
     Supabase.getSession_in (fun rows => rows) Scenario.st2 "SESSION001"
     = Supabase.Ok (Some s) /\
     Schema.scans s = Some l /\
     map Schema.scanned_at l = [1709536440000; 1709536560000] /\
     ~ Inv.descending l) /\
  (exists l,
     Supabase.getScansForSession Scenario.st2 "SESSION001" = Supabase.Ok l /\
     map Schema.scanned_at l = [1709536560000; 1709536440000] /\
     Inv.descending l).
Proof.
  split; [| split; [| split; [| split; [| split]]]].
  - intros pick st s Hu Hs. unfold Supabase.getSession_in.
    rewrite (filter_unique_key Schema.id (Supabase.sessions st) s Hu Hs). reflexivity.
  - intros st i sc. unfold Inv.scans_of. rewrite filter_In, String.eqb_eq. tauto.
  - intros st i. exists (Supabase.order_desc (Inv.scans_of st i)).
    split; [reflexivity |]. split; [apply order_desc_perm | apply order_desc_sorted].
  - vm_compute. reflexivity.
  - eexists. eexists. split; [vm_compute; reflexivity |].
    split; [vm_compute; reflexivity |].
    split; [reflexivity |]. split; [reflexivity |].
    intro H. apply StronglySorted_inv in H. destruct H as [_ H].
    apply Forall_inv in H. cbn in H. lia.
  - eexists. split; [vm_compute; reflexivity |]. split; [reflexivity |].
    repeat constructor; cbn; lia.
Qed.

(* ===================================================================== *)
(** ** Properties of the check-in view *)
(* ===================================================================== *)

Section ViewFacts.
Import Schema Supabase App Inv.

Lemma getSession_some (st : Store) (i : string) (s : Session) :
  getSession st i = Ok (Some s) ->
  exists r, In r (sessions st) /\ id r = i /\ s = embed st r.
Proof.
  unfold getSession. intro H.
  destruct (filter _ (sessions st)) as [| r [| r' l]] eqn:Ef; try discriminate.
  inversion H. exists r.
  assert (Hin : In r (filter (fun s => String.eqb (id s) i) (sessions st)))
    by (rewrite Ef; left; reflexivity).
  apply filter_In in Hin. destruct Hin as [Hin E]. apply String.eqb_eq in E.
  repeat split; assumption.
Qed.

(** The gate of the mount effect: the view reaches 'enter' only with a
    stored session whose status is 'active'; in every other case
    (no id, request failed, no such session, any other status) it shows
    'no active session'. *)
Lemma load_gate (st : Store) (fault : option Error) (sid : option string) :
  (step (load st fault sid) = no_session /\ session (load st fault sid) = None /\
   err (load st fault sid) = "" /\ result (load st fault sid) = None) \/
  (exists i r, sid = Some i /\ i <> "" /\ fault = None /\
               In r (sessions st) /\ id r = i /\ status r = "active" /\
               load st fault sid =
               {| sessionId := Some i; session := Some (embed st r); step := enter;
                  studentNo := ""; result := None; err := "" |}).
Proof.
  unfold load. destruct sid as [i |]; [| left; repeat split].
  destruct i as [| c i']; [left; repeat split |].
  set (i := String c i'). destruct fault as [e |]; [left; repeat split |].
  cbn [request snd].
  destruct (getSession st i) as [[s |] | e] eqn:Eg; try (left; repeat split; fail).
  destruct (String.eqb_spec (status (row s)) "active") as [Ea | Ea];
    cbn [negb]; [| left; repeat split].
  right. apply getSession_some in Eg. destruct Eg as [r [Hin [Eid Es]]].
  exists i, r. subst s. cbn [row embed] in Ea.
  repeat split; try assumption. discriminate.
Qed.

Lemma load_missing_or_inactive (st : Store) (fault : option Error) (i : string) :
  (absent i st \/ forall r, In r (sessions st) -> id r = i -> status r <> "active") ->
  step (load st fault (Some i)) = no_session.
Proof.
  intro H. destruct (load_gate st fault (Some i)) as [[E _] | [i' [r [E1 [_ [_ [Hin [Eid [Ea _]]]]]]]]].
  - exact E.
  - exfalso. injection E1 as <-. destruct H as [H | H].
    + exact (H r Hin Eid).
    + exact (H r Hin Eid Ea).
Qed.

Lemma find_in_session (st : Store) (i X : string) :
  find (fun sc => String.eqb (student_no sc) X)
       (filter (fun sc => String.eqb (session_id sc) i) (scans st))
  = find (same_key i X) (scans st).
Proof.
  induction (scans st) as [| sc l IH]; [reflexivity |].
  cbn [filter find]. unfold same_key at 1.
  destruct (String.eqb (session_id sc) i); cbn [andb find]; [| exact IH].
  destruct (String.eqb (student_no sc) X); [reflexivity | exact IH].
Qed.

Lemma find_none_existsb {A} (p : A -> bool) (l : list A) :
  find p l = None <-> existsb p l = false.
Proof.
  induction l as [| x l IH]; [tauto |].
  cbn [find existsb]. destruct (p x); cbn [orb]; [split; discriminate | exact IH].
Qed.

Lemma find_snoc_new {A} (p : A -> bool) (l : list A) (x : A) :
  existsb p l = false -> p x = true -> find p (l ++ [x]) = Some x.
Proof.
  induction l as [| y l IH]; cbn [find existsb app]; intros H Hx.
  - rewrite Hx. reflexivity.
  - apply orb_false_iff in H. destruct H as [Hy Hl]. rewrite Hy. exact (IH Hl Hx).
Qed.

End ViewFacts.

Section HandleScanFacts.
Import Schema Supabase App Inv.
Variable Date : string -> option Z.

Variable st : Store.
Variables (now : string) (server_now : Z) (geo : option (Q * Q)).
Variable v : View.
Variables (snap : Session) (i X : string).
Hypothesis Htrim : JS.trim (studentNo v) = X.
Hypothesis HX : X <> "".
Hypothesis Hsnap : session v = Some snap.
Hypothesis Hid : sessionId v = Some i.

(** The number is in the loaded session: its scan is shown again and
    the store is not contacted. *)
Lemma handleScan_already (fault1 fault2 : option Error) (existing : ScanRow) :
  find (fun sc => String.eqb (student_no sc) X) (Helpers.scans_or_empty snap) = Some existing ->
  handleScan Date st now server_now geo fault1 fault2 v =
  (st, set_step (set_result (set_err v "")
                            (Some {| scan := existing; alreadyDone := true |})) already).
Proof.
  intro Hf. unfold handleScan. cbn [studentNo set_err session].
  rewrite Htrim, Hsnap, Hf.
  destruct (String.eqb_spec X "") as [E | _]; [contradiction | reflexivity].
Qed.

Variables (t s0 : Z).
Hypothesis Hnone :
  find (fun sc => String.eqb (student_no sc) X) (Helpers.scans_or_empty snap) = None.
Hypothesis Hnow : Date now = Some t.
Hypothesis Hstart : Date (date (row snap) ++ "T" ++ start_time (row snap) ++ ":00") = Some s0.

(** The number is not in the loaded session: one insert is sent. *)
Lemma handleScan_insert :
  exists name lat lng,
    handleScan Date st now server_now geo None None v =
    let v1 := set_step (set_err v "") verifying in
    let r := recordScan st server_now
               {| in_session_id := i; in_student_no := X; in_surname_initials := name;
                  in_status := if t - s0 <=? 600000 then "present" else "late";
                  in_minutes_late := Some (Z.max 0 ((t - s0 + 30000) / 60000));
                  in_lat := Some lat; in_lng := Some lng |} in
    match snd r with
    | Ok sc => (fst r, set_step (set_result v1 (Some {| scan := sc; alreadyDone := false |})) success)
    | Throw e => (fst r, on_error v1 e)
    end.
Proof.
  unfold handleScan. cbn [studentNo set_err set_step session sessionId].
  rewrite Htrim, Hsnap, Hnone, Hid.
  destruct (String.eqb_spec X "") as [E | _]; [contradiction |].
  rewrite (getScanStatus_valid Date now _ _ t s0 Hnow Hstart).
  cbn [Helpers.status Helpers.minutesLate request snd getStudentsForCourse].
  destruct (match geo with Some p => p | None => campus end) as [lat lng].
  match goal with
  | |- context [recordScan st server_now ?inp] =>
      exists (in_surname_initials inp), lat, lng
  end.
  cbv zeta. cbn [in_surname_initials].
  destruct (recordScan st server_now _) as [st' [sc | e]]; reflexivity.
Qed.

(** The store already holds a scan for the pair: the insert is refused
    and the view reports it. *)
Lemma handleScan_duplicate :
  existsb (same_key i X) (scans st) = true ->
  handleScan Date st now server_now geo None None v =
  (with_scans st (scans st) (scans_seq st + 1),
   set_step (set_err (set_step (set_err v "") verifying)
                     "You have already scanned in for this session.") enter).
Proof.
  intro Hdup. destruct handleScan_insert as [name [lat [lng E]]]. rewrite E. clear E.
  cbv zeta. unfold recordScan.
  cbn [in_minutes_late in_session_id in_student_no]. rewrite Hdup. reflexivity.
Qed.

(** No scan for the pair, and the session row exists: the scan is
    stored and shown. *)
Lemma handleScan_new :
  existsb (same_key i X) (scans st) = false ->
  existsb_eq id i (sessions st) = true ->
  exists sc,
    handleScan Date st now server_now geo None None v =
    (with_scans st (scans st ++ [sc])%list (scans_seq st + 1),
     set_step (set_result (set_step (set_err v "") verifying)
                          (Some {| scan := sc; alreadyDone := false |})) success) /\
    session_id sc = i /\ student_no sc = X /\ scanned_at sc = server_now /\
    sc_status sc = (if t - s0 <=? 600000 then "present" else "late") /\
    minutes_late sc = Z.max 0 ((t - s0 + 30000) / 60000).
Proof.
  intros Hfresh Hfk. destruct handleScan_insert as [name [lat [lng E]]]. rewrite E. clear E.
  cbv zeta. unfold recordScan.
  cbn [in_minutes_late in_session_id in_student_no]. rewrite Hfresh, Hfk.
  cbn [negb fst snd]. eexists. split; [reflexivity |]. repeat split.
Qed.

(** No scan for the pair, and the session row is gone: the foreign key
    refuses the insert and the view reports a generic failure. *)
Lemma handleScan_gone :
  existsb (same_key i X) (scans st) = false ->
  existsb_eq id i (sessions st) = false ->
  handleScan Date st now server_now geo None None v =
  (with_scans st (scans st) (scans_seq st + 1),
   set_step (set_err (set_step (set_err v "") verifying)
                     "Failed to record. Try again.") enter).
Proof.
  intros Hfresh Hfk. destruct handleScan_insert as [name [lat [lng E]]]. rewrite E. clear E.
  cbv zeta. unfold recordScan.
  cbn [in_minutes_late in_session_id in_student_no]. rewrite Hfresh, Hfk. reflexivity.
Qed.

End HandleScanFacts.

Section CheckInTwice.
Import Schema Supabase App Inv.

Lemma load_active (st : Store) (r : SessionRow) :
  sessions_unique st -> In r (sessions st) -> status r = "active" -> id r <> "" ->
  load st None (Some (id r)) =
  {| sessionId := Some (id r); session := Some (embed st r); step := enter;
     studentNo := ""; result := None; err := "" |}.
Proof.
  intros Hu Hin Ha Hne. unfold load.
  destruct (id r) as [| c i'] eqn:Ei; [contradiction |]. rewrite <- Ei.
  cbn [request snd]. rewrite (getSession_found st r Hu Hin).
  cbn [row embed]. rewrite Ha. reflexivity.
Qed.

Lemma same_key_true (i X : string) (sc : ScanRow) :
  session_id sc = i -> student_no sc = X -> same_key i X sc = true.
Proof. intros <- <-. unfold same_key. rewrite !String.eqb_refl. reflexivity. Qed.

(** No two scans of a reachable store share session and student. *)
Lemma reachable_scans_unique (ops : list op) (a b : ScanRow) :
  In a (scans (run empty ops)) -> In b (scans (run empty ops)) ->
  scan_key a = scan_key b -> a = b.
Proof.
  apply (NoDup_map_In_eq scan_key). exact (proj1 (wf_reachable ops)).
Qed.

End CheckInTwice.

(** [trim] removes the white space of Unicode at both ends and only
    there: a no-break space (C2 A0) before a student number, an
    ideographic space (E3 80 80) and a line separator (E2 80 A8) after
    it and a byte-order mark (EF BB BF) go, a string of such characters
    is blank, and a space within a name or a character that only ends in
    the byte A0 (the dagger, E2 80 A0) stays. *)
Lemma trim_unicode_space :
  let b (n : nat) := String (ascii_of_nat n) EmptyString in
  JS.trim (b 194%nat ++ b 160%nat ++ "20210001") = "20210001" /\
  JS.trim ("20210001" ++ b 227%nat ++ b 128%nat ++ b 128%nat ++ b 226%nat ++ b 128%nat ++ b 168%nat) = "20210001" /\
  JS.trim (b 239%nat ++ b 187%nat ++ b 191%nat ++ " 20210001" ++ b 9%nat ++ b 10%nat) = "20210001" /\
  JS.trim (b 194%nat ++ b 160%nat ++ b 226%nat ++ b 128%nat ++ b 137%nat ++ " ") = "" /\
  JS.trim " Mokoena  T " = "Mokoena  T" /\
  JS.trim (b 226%nat ++ b 128%nat ++ b 160%nat) = b 226%nat ++ b 128%nat ++ b 160%nat.
Proof. vm_compute. repeat split. Qed.

(** C2 (amended).  A student checks in to an active session for the first
    time: the scan is stored and shown.  Checking in again from a view
    loaded afterwards shows that same scan record, tagged as already
    recorded, and sends nothing to the store.  Checking in again from the
    view that made the first check-in (whose loaded session is older than
    the scan) sends a second insert; the store refuses it and stays as it
    is, and the view goes back to the entry step with the message "You
    have already scanned in for this session." and no scan record.  No
    store the application can build holds two scans for one session and
    student. *)
Theorem checkin_twice (Date : string -> option Z) (st : Supabase.Store)
        (r : Schema.SessionRow) (input now1 now2 : string) (server1 server2 : Z)
        (geo1 geo2 : option (Q * Q)) (t1 t2 s0 : Z) :
  Inv.sessions_unique st ->
  In r (Supabase.sessions st) ->
  Schema.status r = "active" ->
  Schema.id r <> "" ->
  JS.trim input <> "" ->
  existsb (Supabase.same_key (Schema.id r) (JS.trim input)) (Supabase.scans st) = false ->
  Date now1 = Some t1 ->
  Date now2 = Some t2 ->
  Date (Schema.date r ++ "T" ++ Schema.start_time r ++ ":00") = Some s0 ->
  let first := App.handleScan Date st now1 server1 geo1 None None
                 (App.setStudentNo (App.load st None (Some (Schema.id r))) input) in
  let st1 := fst first in
  exists sc,
    (App.step (snd first) = App.success /\
     App.result (snd first) = Some {| App.scan := sc; App.alreadyDone := false |} /\
     Supabase.scans st1 = (Supabase.scans st ++ [sc])%list /\
     Schema.session_id sc = Schema.id r /\ Schema.student_no sc = JS.trim input) /\
    (let again := App.handleScan Date st1 now2 server2 geo2 None None
                    (App.setStudentNo (App.load st1 None (Some (Schema.id r))) input) in
     fst again = st1 /\ App.step (snd again) = App.already /\ App.err (snd again) = "" /\
     App.result (snd again) = Some {| App.scan := sc; App.alreadyDone := true |}) /\
    (let again := App.handleScan Date st1 now2 server2 geo2 None None
                    (App.setStudentNo (App.done (snd first)) input) in
     Supabase.scans (fst again) = Supabase.scans st1 /\
     Supabase.sessions (fst again) = Supabase.sessions st1 /\
     App.step (snd again) = App.enter /\
     App.err (snd again) = "You have already scanned in for this session." /\
     App.result (snd again) = None) /\
    (forall ops a b,
        In a (Supabase.scans (Supabase.run Supabase.empty ops)) ->
        In b (Supabase.scans (Supabase.run Supabase.empty ops)) ->
        Inv.scan_key a = Inv.scan_key b -> a = b).
Proof.
  intros Hu Hin Ha Hne HX Hfresh Hn1 Hn2 Hs first st1.
  assert (Hnone : find (fun sc => String.eqb (Schema.student_no sc) (JS.trim input))
                       (Helpers.scans_or_empty (Supabase.embed st r)) = None).
  { cbn [Helpers.scans_or_empty Supabase.embed Schema.scans].
    rewrite find_in_session. apply find_none_existsb. exact Hfresh. }
  assert (Hfk : Supabase.existsb_eq Schema.id (Schema.id r) (Supabase.sessions st) = true).
  { apply existsb_eq_true. exists r. split; [exact Hin | reflexivity]. }
  destruct (handleScan_new Date st now1 server1 geo1
              (App.setStudentNo (App.load st None (Some (Schema.id r))) input)
              (Supabase.embed st r) (Schema.id r) (JS.trim input)) with (t := t1) (s0 := s0)
    as [sc [E1 [Ksid [Kno _]]]];
    try rewrite (load_active st r Hu Hin Ha Hne); try reflexivity; try assumption.
  subst first st1. rewrite E1. cbn [fst snd]. exists sc.
  set (st1 := Supabase.with_scans st (Supabase.scans st ++ [sc])%list (Supabase.scans_seq st + 1)).
  assert (Hu1 : Inv.sessions_unique st1) by exact Hu.
  assert (Hin1 : In r (Supabase.sessions st1)) by exact Hin.
  assert (Hkey : Supabase.same_key (Schema.id r) (JS.trim input) sc = true)
    by (apply same_key_true; assumption).
  split; [| split; [| split]].
  - repeat split; assumption.
  - cbv zeta. rewrite (load_active st1 r Hu1 Hin1 Ha Hne).
    match goal with
    | |- context [App.handleScan Date st1 now2 server2 geo2 None None ?v] =>
        rewrite (handleScan_already Date st1 now2 server2 geo2 v (Supabase.embed st1 r)
                   (JS.trim input) eq_refl HX eq_refl None None sc)
    end.
    + repeat split.
    + cbn [Helpers.scans_or_empty Supabase.embed Schema.scans].
      rewrite find_in_session. apply find_snoc_new; assumption.
  - cbv zeta.
    rewrite (handleScan_duplicate Date st1 now2 server2 geo2
               (App.setStudentNo
                  (App.done
                     (App.set_step
                        (App.set_result
                           (App.set_step
                              (App.set_err
                                 (App.setStudentNo (App.load st None (Some (Schema.id r))) input)
                                 "") App.verifying)
                           (Some {| App.scan := sc; App.alreadyDone := false |}))
                        App.success)) input)
               (Supabase.embed st r) (Schema.id r) (JS.trim input)) with (t := t2) (s0 := s0);
      try rewrite (load_active st r Hu Hin Ha Hne); try reflexivity; try assumption.
    + repeat split.
    + unfold st1. cbn [Supabase.scans Supabase.with_scans].
      rewrite existsb_app. cbn [existsb]. rewrite Hkey. rewrite orb_true_r. reflexivity.
  - exact reachable_scans_unique.
Qed.

Lemma checkin_twice_witness :
  let first := App.handleScan Scenario.Date Scenario.st0 "2024-03-04T07:14:00.000Z"
                 1709536440000 None None None
                 (App.setStudentNo (App.load Scenario.st0 None (Some (Schema.id Scenario.ses)))
                                   "20210001") in
  let st1 := fst first in
  exists sc,
    (App.step (snd first) = App.success /\
     App.result (snd first) = Some {| App.scan := sc; App.alreadyDone := false |} /\
     Supabase.scans st1 = (Supabase.scans Scenario.st0 ++ [sc])%list /\
     Schema.session_id sc = Schema.id Scenario.ses /\
     Schema.student_no sc = JS.trim "20210001") /\
    (let again := App.handleScan Scenario.Date st1 "2024-03-04T07:20:00.000Z"
                    1709536800000 None None None
                    (App.setStudentNo (App.load st1 None (Some (Schema.id Scenario.ses)))
                                      "20210001") in
     fst again = st1 /\ App.step (snd again) = App.already /\ App.err (snd again) = "" /\
     App.result (snd again) = Some {| App.scan := sc; App.alreadyDone := true |}) /\
    (let again := App.handleScan Scenario.Date st1 "2024-03-04T07:20:00.000Z"
                    1709536800000 None None None
                    (App.setStudentNo (App.done (snd first)) "20210001") in
     Supabase.scans (fst again) = Supabase.scans st1 /\
     Supabase.sessions (fst again) = Supabase.sessions st1 /\
     App.step (snd again) = App.enter /\
     App.err (snd again) = "You have already scanned in for this session." /\
     App.result (snd again) = None) /\
    (forall ops a b,
        In a (Supabase.scans (Supabase.run Supabase.empty ops)) ->
        In b (Supabase.scans (Supabase.run Supabase.empty ops)) ->
        Inv.scan_key a = Inv.scan_key b -> a = b).
Proof.
  apply (checkin_twice Scenario.Date Scenario.st0 Scenario.ses "20210001"
           "2024-03-04T07:14:00.000Z" "2024-03-04T07:20:00.000Z"
           1709536440000 1709536800000 None None
           1709536440000 1709536800000 1709535600000).
  - exact (proj1 (proj2 (wf_reachable Scenario.ops0))).
  - vm_compute. left. reflexivity.
  - reflexivity.
  - discriminate.
  - vm_compute. discriminate.
  - vm_compute. reflexivity.
  - vm_compute. reflexivity.
  - vm_compute. reflexivity.
  - vm_compute. reflexivity.
Defined.

(** C2 as stated fails: after a first check-in, the same student number
    entered again in the same view is answered with an error message on
    the entry step, not with the scan record of the first check-in. *)
Lemma second_checkin_in_same_view_is_refused :
  let again := App.handleScan Scenario.Date (fst Scenario.first) "2024-03-04T07:20:00.000Z"
                 1709536800000 None None None
                 (App.setStudentNo (App.done (snd Scenario.first)) "20210001") in
  App.step (snd Scenario.first) = App.success /\
  App.result (snd Scenario.first) <> None /\
  App.step (snd again) = App.enter /\
  App.step (snd again) <> App.already /\
  App.err (snd again) = "You have already scanned in for this session." /\
  App.result (snd again) = None /\
  App.result (snd again) <> App.result (snd Scenario.first).
Proof. vm_compute. repeat split; discriminate. Qed.

(* --------------------------------------------------------------------- *)
(** *** Check-in against a session that is not active *)

(** A view opened on a session that is missing or not active shows 'no
    active session', which is neither the duplicate-scan outcome nor an
    error message. *)
Lemma load_rejects_inactive (st : Supabase.Store) (fault : option Supabase.Error) (i : string) :
  (Inv.absent i st \/
   forall r, In r (Supabase.sessions st) -> Schema.id r = i -> Schema.status r <> "active") ->
  let v := App.load st fault (Some i) in
  App.step v = App.no_session /\ App.err v = "" /\ App.result v = None.
Proof.
  intros H v. subst v.
  pose proof (load_missing_or_inactive st fault i H) as Hs.
  destruct (load_gate st fault (Some i)) as [[E1 [_ [E2 E3]]] | [i' [r [_ [_ [_ [_ [_ [_ E]]]]]]]]].
  - repeat split; assumption.
  - rewrite E in Hs. discriminate.
Qed.

(** C5 (the code at the failing input).  A student opens the check-in link
    while the session is active; the lecturer then ends the session; the
    student submits.  The status is not looked at again: the scan is
    stored against the closed session and the view shows success.  Opened
    after the close, the same link shows 'no active session'; and when the
    session row has been deleted meanwhile, the submit ends in the generic
    failure message. *)
Theorem checkin_after_close_is_recorded :
  let submit st :=
    App.handleScan Scenario.Date st "2024-03-04T07:30:00.000Z" 1709537400000 None None None
                   (App.setStudentNo Scenario.v0 "20210001") in
  App.step Scenario.v0 = App.enter /\
  map Schema.status (Supabase.sessions Scenario.closed) = ["closed"] /\
  App.step (App.load Scenario.closed None (Some "SESSION001")) = App.no_session /\
  App.step (snd (submit Scenario.closed)) = App.success /\
  App.err (snd (submit Scenario.closed)) = "" /\
  map Inv.scan_key (Supabase.scans (fst (submit Scenario.closed)))
    = [("SESSION001", "20210001")] /\
  map Schema.status (Supabase.sessions (fst (submit Scenario.closed))) = ["closed"] /\
  let deleted := fst (Supabase.deleteCourse Scenario.st0 "C1") in
  Supabase.sessions deleted = [] /\
  App.step (snd (submit deleted)) = App.enter /\
  App.err (snd (submit deleted)) = "Failed to record. Try again.".
Proof. vm_compute. repeat split. Qed.

(* --------------------------------------------------------------------- *)
(** *** The division by 60000 in binary64 *)

(** Around every half minute (and so around the ten-minute limit) the
    binary64 quotient classifies as the exact quotient does. *)
Lemma classify64_near_ties (d : Z) :
  In d Spec.near_ties -> Helpers.classify64 d = Spec.classify d.
Proof.
  intro H.
  assert (A : forallb (fun d => Spec.same_status (Helpers.classify64 d) (Spec.classify d))
                      Spec.near_ties = true) by (vm_compute; reflexivity).
  rewrite forallb_forall in A. specialize (A d H).
  unfold Spec.same_status in A. apply andb_true_iff in A. destruct A as [A1 A2].
  apply String.eqb_eq in A1.
  destruct (Helpers.classify64 d) as [s1 [m1 |]], (Spec.classify d) as [s2 [m2 |]];
    cbn in *; try discriminate.
  - apply Z.eqb_eq in A2. subst. reflexivity.
  - subst. reflexivity.
Qed.

(* --------------------------------------------------------------------- *)
(** *** The submit path does not look at the session status *)

Section SubmitIgnoresStatus.
Import Schema Supabase App.

Lemma existsb_eq_id_close (i sid : string) (l : list SessionRow) :
  existsb_eq id i (map (fun s => if String.eqb (id s) sid then set_status s "closed" else s) l)
  = existsb_eq id i l.
Proof.
  unfold existsb_eq. induction l as [| s l IH]; [reflexivity |].
  cbn [map existsb]. rewrite IH. f_equal.
  destruct (String.eqb (id s) sid); reflexivity.
Qed.

(** Closing any session before a submit changes neither what the view
    shows nor which scans the store holds afterwards. *)
Lemma handleScan_after_close (Date : string -> option Z) (st : Store) (sid now : string)
      (server_now : Z) (geo : option (Q * Q)) (fault1 fault2 : option Error) (v : View) :
  let st' := fst (closeSession st sid) in
  snd (handleScan Date st' now server_now geo fault1 fault2 v)
  = snd (handleScan Date st now server_now geo fault1 fault2 v) /\
  scans (fst (handleScan Date st' now server_now geo fault1 fault2 v))
  = scans (fst (handleScan Date st now server_now geo fault1 fault2 v)).
Proof.
  cbv zeta. unfold closeSession, handleScan. cbn [fst].
  destruct (String.eqb _ ""); [split; reflexivity |].
  destruct (find _ _); [split; reflexivity |].
  destruct (match geo with Some p => p | None => campus end) as [lat lng].
  destruct (session (set_step (set_err v "") verifying)) as [s |]; [| split; reflexivity].
  destruct fault1 as [e1 |]; cbn [request snd]; [split; reflexivity |].
  unfold getStudentsForCourse. cbn [students enrolments with_sessions].
  destruct fault2 as [e2 |]; cbn [request]; [split; reflexivity |].
  unfold recordScan.
  cbn [scans scans_seq sessions with_sessions in_minutes_late in_session_id in_student_no].
  rewrite existsb_eq_id_close.
  destruct (Helpers.minutesLate _); [| split; reflexivity].
  destruct (existsb _ (scans st)); [split; reflexivity |].
  destruct (negb _); split; reflexivity.
Qed.

End SubmitIgnoresStatus.

(* ===================================================================== *)
(** ** Properties of the identifier and password generators *)
(* ===================================================================== *)

Section GeneratorFacts.
Import Generators.

Lemma chars_append (a b : string) :
  list_ascii_of_string (a ++ b) = (list_ascii_of_string a ++ list_ascii_of_string b)%list.
Proof. induction a as [| c a IH]; [reflexivity |]. cbn. rewrite IH. reflexivity. Qed.

Lemma chars_length (s : string) : List.length (list_ascii_of_string s) = String.length s.
Proof. induction s as [| c s IH]; [reflexivity |]. cbn. rewrite IH. reflexivity. Qed.

Lemma get_in_range (s : string) (i : nat) :
  (i < String.length s)%nat ->
  exists c, String.get i s = Some c /\ In c (list_ascii_of_string s).
Proof.
  revert i. induction s as [| c s IH]; intros i H; [cbn in H; lia |].
  destruct i as [| i].
  - exists c. split; [reflexivity | left; reflexivity].
  - cbn in H. destruct (IH i) as [c' [E Hin]]; [lia |].
    exists c'. split; [exact E | right; exact Hin].
Qed.

Lemma pick_in (rnd : Random) (k : nat) (s : string) :
  s <> "" -> exists c, pick rnd k s = Some c /\ In c (list_ascii_of_string s).
Proof.
  intro H. apply get_in_range. unfold floor_random.
  apply Nat.mod_upper_bound. destruct s; [contradiction | discriminate].
Qed.

Lemma genId_from_chars (n : nat) (rnd : Random) (k : nat) (id : string) :
  String.length (genId_from n rnd k id) = (String.length id + n)%nat /\
  forall c, In c (list_ascii_of_string (genId_from n rnd k id)) ->
            In c (list_ascii_of_string id) \/ In c (list_ascii_of_string id_chars).
Proof.
  revert k id. induction n as [| n IH]; intros k id.
  - cbn [genId_from]. split; [lia | intros c H; left; exact H].
  - cbn [genId_from].
    destruct (pick_in rnd k id_chars) as [c0 [E Hc0]]; [discriminate |].
    unfold pick in E. rewrite E. cbn [append_elem].
    destruct (IH (S k) (id ++ String c0 "")) as [L C]. split.
    + rewrite L. rewrite <- !chars_length, chars_append, length_app. cbn. lia.
    + intros c H. apply C in H. destruct H as [H | H]; [| right; exact H].
      rewrite chars_append in H. apply in_app_or in H. destruct H as [H | [H | []]].
      * left. exact H.
      * right. subst c. exact Hc0.
Qed.

(** Replacing one entry changes the multiset by that entry. *)
Lemma count_set_at (y x : option ascii) (pw : list (option ascii)) (i : nat)
      (dec : forall a b : option ascii, {a = b} + {a <> b}) :
  (i < List.length pw)%nat ->
  (count_occ dec (set_at i x pw) y + (if dec (nth i pw None) y then 1 else 0)
   = count_occ dec pw y + (if dec x y then 1 else 0))%nat.
Proof.
  revert i. induction pw as [| z pw IH]; intros i H; [cbn in H; lia |].
  destruct i as [| i]; cbn [set_at nth count_occ].
  - destruct (dec x y), (dec z y); lia.
  - cbn in H. specialize (IH i ltac:(lia)). destruct (dec z y); lia.
Qed.

Lemma nth_set_at (x : option ascii) (pw : list (option ascii)) (i j : nat) :
  (i < List.length pw)%nat ->
  nth j (set_at i x pw) None = if Nat.eqb j i then x else nth j pw None.
Proof.
  revert i j. induction pw as [| z pw IH]; intros i j H; [cbn in H; lia |].
  destruct i as [| i], j as [| j]; cbn [set_at nth Nat.eqb]; try reflexivity.
  apply IH. cbn in H. lia.
Qed.

Lemma length_set_at (x : option ascii) (pw : list (option ascii)) (i : nat) :
  (i < List.length pw)%nat -> List.length (set_at i x pw) = List.length pw.
Proof.
  revert i. induction pw as [| z pw IH]; intros i H; [cbn in H; lia |].
  destruct i as [| i]; cbn [set_at List.length]; [reflexivity |].
  rewrite IH; [reflexivity | cbn in H; lia].
Qed.

Lemma option_ascii_dec (a b : option ascii) : {a = b} + {a <> b}.
Proof. decide equality. apply ascii_dec. Qed.

Lemma swap_perm (pw : list (option ascii)) (i j : nat) :
  (i < List.length pw)%nat -> (j < List.length pw)%nat -> Permutation (swap pw i j) pw.
Proof.
  intros Hi Hj. apply (Permutation_count_occ option_ascii_dec). intro y. unfold swap.
  pose proof (count_set_at y (nth j pw None) pw i option_ascii_dec Hi) as H1.
  assert (Hj' : (j < List.length (set_at i (nth j pw None) pw))%nat)
    by (rewrite length_set_at; assumption).
  pose proof (count_set_at y (nth i pw None) (set_at i (nth j pw None) pw) j
                           option_ascii_dec Hj') as H2.
  rewrite (nth_set_at _ pw i j Hi) in H2.
  destruct (Nat.eqb_spec j i) as [E | E].
  - subst j. destruct (option_ascii_dec (nth i pw None) y); lia.
  - destruct (option_ascii_dec (nth i pw None) y), (option_ascii_dec (nth j pw None) y); lia.
Qed.

Lemma shuffle_perm (i : nat) (rnd : Random) (k : nat) (pw : list (option ascii)) :
  (i < List.length pw)%nat -> Permutation (shuffle i rnd k pw) pw.
Proof.
  revert k pw. induction i as [| i IH]; intros k pw H; [reflexivity |].
  cbn [shuffle].
  assert (Hj : (floor_random rnd k (S (S i)) < List.length pw)%nat).
  { unfold floor_random. pose proof (Nat.mod_upper_bound (rnd k) (S (S i))). lia. }
  pose proof (swap_perm pw (S i) _ H Hj) as P.
  etransitivity; [apply IH | exact P].
  rewrite (Permutation_length P). lia.
Qed.

Lemma join_somes (l : list ascii) : list_ascii_of_string (join (map Some l)) = l.
Proof. induction l as [| c l IH]; [reflexivity |]. cbn. rewrite IH. reflexivity. Qed.

Lemma perm_map_some (l : list ascii) (pw : list (option ascii)) :
  Permutation pw (map Some l) -> exists l', pw = map Some l' /\ Permutation l' l.
Proof.
  intro P. apply Permutation_map_inv in P.
  destruct P as [l' [E P]]. exists l'. split; [exact E | symmetry; exact P].
Qed.

Lemma class_of_upper :
  forall c, In c (list_ascii_of_string upper) ->
            is_upper c = true /\ ~ In c ambiguous /\ In c (list_ascii_of_string all).
Proof.
  assert (H : forallb (fun c => is_upper c
                                && negb (existsb (Ascii.eqb c) ambiguous)
                                && existsb (Ascii.eqb c) (list_ascii_of_string all))
                      (list_ascii_of_string upper) = true) by (vm_compute; reflexivity).
  rewrite forallb_forall in H. intros c Hc. specialize (H c Hc).
  apply andb_true_iff in H. destruct H as [H H3]. apply andb_true_iff in H.
  destruct H as [H1 H2]. split; [exact H1 |]. split.
  - intro Hin. apply negb_true_iff in H2.
    assert (T : existsb (Ascii.eqb c) ambiguous = true).
    { apply existsb_exists. exists c. split; [exact Hin | apply Ascii.eqb_refl]. }
    congruence.
  - apply existsb_exists in H3. destruct H3 as [x [Hx E]].
    apply Ascii.eqb_eq in E. subst x. exact Hx.
Qed.

Lemma class_of_lower :
  forall c, In c (list_ascii_of_string lower) ->
            is_lower c = true /\ ~ In c ambiguous /\ In c (list_ascii_of_string all).
Proof.
  assert (H : forallb (fun c => is_lower c
                                && negb (existsb (Ascii.eqb c) ambiguous)
                                && existsb (Ascii.eqb c) (list_ascii_of_string all))
                      (list_ascii_of_string lower) = true) by (vm_compute; reflexivity).
  rewrite forallb_forall in H. intros c Hc. specialize (H c Hc).
  apply andb_true_iff in H. destruct H as [H H3]. apply andb_true_iff in H.
  destruct H as [H1 H2]. split; [exact H1 |]. split.
  - intro Hin. apply negb_true_iff in H2.
    assert (T : existsb (Ascii.eqb c) ambiguous = true).
    { apply existsb_exists. exists c. split; [exact Hin | apply Ascii.eqb_refl]. }
    congruence.
  - apply existsb_exists in H3. destruct H3 as [x [Hx E]].
    apply Ascii.eqb_eq in E. subst x. exact Hx.
Qed.

Lemma class_of_digits :
  forall c, In c (list_ascii_of_string digits) ->
            is_digit c = true /\ ~ In c ambiguous /\ In c (list_ascii_of_string all).
Proof.
  assert (H : forallb (fun c => is_digit c
                                && negb (existsb (Ascii.eqb c) ambiguous)
                                && existsb (Ascii.eqb c) (list_ascii_of_string all))
                      (list_ascii_of_string digits) = true) by (vm_compute; reflexivity).
  rewrite forallb_forall in H. intros c Hc. specialize (H c Hc).
  apply andb_true_iff in H. destruct H as [H H3]. apply andb_true_iff in H.
  destruct H as [H1 H2]. split; [exact H1 |]. split.
  - intro Hin. apply negb_true_iff in H2.
    assert (T : existsb (Ascii.eqb c) ambiguous = true).
    { apply existsb_exists. exists c. split; [exact Hin | apply Ascii.eqb_refl]. }
    congruence.
  - apply existsb_exists in H3. destruct H3 as [x [Hx E]].
    apply Ascii.eqb_eq in E. subst x. exact Hx.
Qed.

Lemma class_of_all :
  forall c, In c (list_ascii_of_string all) -> ~ In c ambiguous.
Proof.
  assert (H : forallb (fun c => negb (existsb (Ascii.eqb c) ambiguous))
                      (list_ascii_of_string all) = true) by (vm_compute; reflexivity).
  rewrite forallb_forall in H. intros c Hc Hin. specialize (H c Hc).
  apply negb_true_iff in H.
  assert (T : existsb (Ascii.eqb c) ambiguous = true).
  { apply existsb_exists. exists c. split; [exact Hin | apply Ascii.eqb_refl]. }
  congruence.
Qed.

(** The characters of a password are the eight picks, in some order. *)
Lemma genPassword_perm (rnd : Random) (k : nat) :
  exists u1 u2 d1 d2 l1 l2 l3 a,
    Permutation (list_ascii_of_string (genPassword rnd k)) [u1; u2; d1; d2; l1; l2; l3; a] /\
    In u1 (list_ascii_of_string upper) /\ In u2 (list_ascii_of_string upper) /\
    In d1 (list_ascii_of_string digits) /\ In d2 (list_ascii_of_string digits) /\
    In l1 (list_ascii_of_string lower) /\ In l2 (list_ascii_of_string lower) /\
    In l3 (list_ascii_of_string lower) /\ In a (list_ascii_of_string all).
Proof.
  unfold genPassword, initial.
  destruct (pick_in rnd k upper) as [u1 [E1 H1]]; [discriminate |].
  destruct (pick_in rnd (k + 1) upper) as [u2 [E2 H2]]; [discriminate |].
  destruct (pick_in rnd (k + 2) digits) as [d1 [E3 H3]]; [discriminate |].
  destruct (pick_in rnd (k + 3) digits) as [d2 [E4 H4]]; [discriminate |].
  destruct (pick_in rnd (k + 4) lower) as [l1 [E5 H5]]; [discriminate |].
  destruct (pick_in rnd (k + 5) lower) as [l2 [E6 H6]]; [discriminate |].
  destruct (pick_in rnd (k + 6) lower) as [l3 [E7 H7]]; [discriminate |].
  destruct (pick_in rnd (k + 7) all) as [a [E8 H8]]; [discriminate |].
  rewrite E1, E2, E3, E4, E5, E6, E7, E8. cbn [List.length Nat.sub].
  exists u1, u2, d1, d2, l1, l2, l3, a.
  split; [| repeat split; assumption].
  match goal with
  | |- context [shuffle 7 rnd (k + 8) ?pw] =>
      pose proof (shuffle_perm 7 rnd (k + 8) pw ltac:(cbn; lia)) as P
  end.
  destruct (perm_map_some [u1; u2; d1; d2; l1; l2; l3; a] _ P) as [l' [E P']].
  rewrite E, join_somes. exact P'.
Qed.

End GeneratorFacts.

(** X1.  [genId] returns ten characters, each from its alphabet of
    capital letters and digits, and never the letters I or O. *)
Theorem genId_shape (rnd : Generators.Random) (k : nat) :
  String.length (Generators.genId rnd k) = 10%nat /\
  forall c, In c (list_ascii_of_string (Generators.genId rnd k)) ->
            In c (list_ascii_of_string Generators.id_chars) /\
            c <> "I"%char /\ c <> "O"%char.
Proof.
  destruct (genId_from_chars 10 rnd k "") as [L C]. split; [exact L |].
  intros c H. apply C in H. destruct H as [[] | H]. split; [exact H |].
  assert (A : forallb (fun c => negb (Ascii.eqb c "I") && negb (Ascii.eqb c "O"))
                      (list_ascii_of_string Generators.id_chars) = true)
    by (vm_compute; reflexivity).
  rewrite forallb_forall in A. specialize (A c H).
  apply andb_true_iff in A. destruct A as [A1 A2].
  apply negb_true_iff in A1. apply negb_true_iff in A2.
  split; intro E; subst c; discriminate.
Qed.

(** X2.  [genPassword] returns eight characters with at least two capital
    letters, two digits and three small letters, all from its alphabet,
    which has none of I, O, i, l, o, 0 and 1: the shuffle only reorders the
    eight picks. *)
Theorem genPassword_shape (rnd : Generators.Random) (k : nat) :
  let p := Generators.genPassword rnd k in
  String.length p = 8%nat /\
  (2 <= Generators.count_chars Generators.is_upper p)%nat /\
  (2 <= Generators.count_chars Generators.is_digit p)%nat /\
  (3 <= Generators.count_chars Generators.is_lower p)%nat /\
  forall c, In c (list_ascii_of_string p) ->
            In c (list_ascii_of_string Generators.all) /\ ~ In c Generators.ambiguous.
Proof.
  intro p. subst p.
  destruct (genPassword_perm rnd k)
    as [u1 [u2 [d1 [d2 [l1 [l2 [l3 [a [P [U1 [U2 [D1 [D2 [L1 [L2 [L3 A]]]]]]]]]]]]]]]].
  destruct (class_of_upper u1 U1) as [Tu1 [Nu1 Au1]].
  destruct (class_of_upper u2 U2) as [Tu2 [Nu2 Au2]].
  destruct (class_of_digits d1 D1) as [Td1 [Nd1 Ad1]].
  destruct (class_of_digits d2 D2) as [Td2 [Nd2 Ad2]].
  destruct (class_of_lower l1 L1) as [Tl1 [Nl1 Al1]].
  destruct (class_of_lower l2 L2) as [Tl2 [Nl2 Al2]].
  destruct (class_of_lower l3 L3) as [Tl3 [Nl3 Al3]].
  pose proof (class_of_all a A) as Na.
  split; [| split; [| split; [| split]]].
  - rewrite <- chars_length. rewrite (Permutation_length P). reflexivity.
  - unfold Generators.count_chars.
    rewrite (Permutation_length (filter_perm Generators.is_upper _ _ P)).
    cbn [filter]. rewrite Tu1, Tu2.
    repeat match goal with |- context [if ?b then _ else _] => destruct b end; cbn; lia.
  - unfold Generators.count_chars.
    rewrite (Permutation_length (filter_perm Generators.is_digit _ _ P)).
    cbn [filter]. rewrite Td1, Td2.
    repeat match goal with |- context [if ?b then _ else _] => destruct b end; cbn; lia.
  - unfold Generators.count_chars.
    rewrite (Permutation_length (filter_perm Generators.is_lower _ _ P)).
    cbn [filter]. rewrite Tl1, Tl2, Tl3.
    repeat match goal with |- context [if ?b then _ else _] => destruct b end; cbn; lia.
  - intros c H. apply (Permutation_in _ P) in H.
    cbn [In] in H.
    repeat (destruct H as [H | H]; [subst c; split; assumption |]). destruct H.
Qed.

Section FivePasswords.
Import Generators.

Lemma add_keeps (rnd : Random) (k : nat) (set : list string) :
  NoDup set -> (forall p, In p set -> exists k', p = genPassword rnd k') ->
  NoDup (add (genPassword rnd k) set) /\
  (forall p, In p (add (genPassword rnd k) set) -> exists k', p = genPassword rnd k') /\
  (List.length set <= List.length (add (genPassword rnd k) set) <= S (List.length set))%nat.
Proof.
  intros Hnd Hall. unfold add.
  destruct (existsb _ set) eqn:E.
  - split; [exact Hnd |]. split; [exact Hall | lia].
  - split; [| split].
    + apply NoDup_app; [exact Hnd | repeat constructor; intros [] |].
      intros p Hp [Ep | []]. subst p.
      assert (T : existsb (String.eqb (genPassword rnd k)) set = true).
      { apply existsb_exists. exists (genPassword rnd k).
        split; [exact Hp | apply String.eqb_refl]. }
      congruence.
    + intros p Hp. apply in_app_or in Hp. destruct Hp as [Hp | [Hp | []]].
      * exact (Hall p Hp).
      * exists k. symmetry. exact Hp.
    + rewrite length_app. cbn. lia.
Qed.

Lemma gen5_loop_result (fuel : nat) (rnd : Random) (k : nat) (set l : list string) :
  NoDup set -> (forall p, In p set -> exists k', p = genPassword rnd k') ->
  (List.length set <= 5)%nat ->
  gen5_loop fuel rnd k set = Some l ->
  List.length l = 5%nat /\ NoDup l /\
  (forall p, In p l -> exists k', p = genPassword rnd k') /\
  forall fuel', (fuel <= fuel')%nat -> gen5_loop fuel' rnd k set = Some l.
Proof.
  revert k set. induction fuel as [| fuel IH]; intros k set Hnd Hall Hlen H.
  - cbn [gen5_loop] in H. destruct (Nat.leb_spec 5 (List.length set)) as [G | G];
      [| discriminate].
    inversion H. subst l. repeat split; try assumption; try lia.
    intros fuel' _. destruct fuel'; cbn [gen5_loop];
      destruct (Nat.leb_spec 5 (List.length set)); try reflexivity; lia.
  - cbn [gen5_loop] in H. destruct (Nat.leb_spec 5 (List.length set)) as [G | G].
    + inversion H. subst l. repeat split; try assumption; try lia.
      intros fuel' _. destruct fuel'; cbn [gen5_loop];
        destruct (Nat.leb_spec 5 (List.length set)); try reflexivity; lia.
    + destruct (add_keeps rnd k set Hnd Hall) as [Hnd' [Hall' Hlen']].
      destruct (IH (k + 15)%nat _ Hnd' Hall' ltac:(lia) H) as [R1 [R2 [R3 R4]]].
      repeat split; try assumption.
      intros fuel' Hf. destruct fuel' as [| fuel']; [lia |].
      cbn [gen5_loop]. destruct (Nat.leb_spec 5 (List.length set)); [lia |].
      apply R4. lia.
Qed.

End FivePasswords.

(** X3.  Whenever the loop of [gen5Passwords] ends, it has produced
    exactly five passwords, no two the same, each an output of
    [genPassword]; running it longer gives the same five. *)
Theorem gen5Passwords_distinct (fuel : nat) (rnd : Generators.Random) (k : nat)
        (l : list string) :
  Generators.gen5Passwords fuel rnd k = Some l ->
  List.length l = 5%nat /\ NoDup l /\
  (forall p, In p l -> exists k', p = Generators.genPassword rnd k') /\
  forall fuel', (fuel <= fuel')%nat -> Generators.gen5Passwords fuel' rnd k = Some l.
Proof.
  intro H. apply (gen5_loop_result fuel rnd k [] l).
  - constructor.
  - intros p [].
  - cbn. lia.
  - exact H.
Qed.

Lemma gen5Passwords_distinct_witness :
  NoDup ["B4u57rdC"; "TLfumy74"; "PkhC354h"; "FL3mdLu4"; "B4dnmu7C"].
Proof.
  assert (H : Generators.gen5Passwords 10 (fun k => (k * k + 1)%nat) 0
              = Some ["B4u57rdC"; "TLfumy74"; "PkhC354h"; "FL3mdLu4"; "B4dnmu7C"])
    by (vm_compute; reflexivity).
  exact (proj1 (proj2 (gen5Passwords_distinct _ _ _ _ H))).
Defined.

(* ===================================================================== *)
(** ** The declared constraints hold in every store *)
(* ===================================================================== *)

Section IntegrityFacts.
Import Schema Supabase Integrity.

Lemma in_map_snoc {A B} (f : A -> B) (l : list A) (y : A) (x : B) :
  In x (map f l) -> In x (map f (l ++ [y])).
Proof. intro H. rewrite map_app. apply in_or_app. left. exact H. Qed.

Lemma in_map_last {A B} (f : A -> B) (l : list A) (y : A) :
  In (f y) (map f (l ++ [y])).
Proof. rewrite map_app. apply in_or_app. right. left. reflexivity. Qed.

Lemma existsb_eq_In {A} (key : A -> string) (k : string) (l : list A) :
  existsb_eq key k l = true <-> In k (map key l).
Proof.
  rewrite existsb_eq_true, in_map_iff. split; intros [x H]; exists x; tauto.
Qed.

(** A row whose key is not among the deleted keys survives the delete. *)
Lemma survives {A} (key : A -> string) (dead : A -> bool) (l : list A) (k : string) :
  In k (map key l) ->
  existsb_eq key k (filter dead l) = false ->
  In k (map key (filter (fun x => negb (dead x)) l)).
Proof.
  intros Hin Hgone. apply in_map_iff in Hin. destruct Hin as [x [E Hx]].
  apply in_map_iff. exists x. split; [exact E |]. apply filter_In. split; [exact Hx |].
  destruct (dead x) eqn:D; [| reflexivity]. exfalso.
  apply existsb_eq_false in Hgone. apply Hgone. apply in_map_iff. exists x.
  split; [exact E |]. apply filter_In. split; assumption.
Qed.

Lemma students_ids_unique (st : Store) :
  Inv.students_wf st -> NoDup (map st_id (students st)).
Proof.
  intros [Hnd Hid]. induction (students st) as [| x l IH]; [constructor |].
  cbn [map] in *. apply NoDup_cons_iff in Hnd. destruct Hnd as [Hx Hl].
  inversion Hid as [| ? ? Hx' Hl']; subst. constructor; [| exact (IH Hl Hl')].
  intro Hin. apply Hx. apply in_map_iff in Hin. destruct Hin as [y [E Hy]].
  rewrite Forall_forall in Hl'. rewrite (Hl' y Hy), Hx' in E. cbn in E.
  inversion E as [E']. apply in_map. exact Hy.
Qed.

Lemma sound_keys (st : Store) : sound st -> keys_ok st.
Proof.
  intros [[Hsc [Hse Hst]] [H1 [H2 [H3 [H4 _]]]]].
  repeat split; try assumption.
  - apply students_ids_unique. exact Hst.
  - exact (proj1 Hst).
Qed.

(** *** Cascading deletes *)

Lemma refs_delete_sessions (dead : SessionRow -> bool) (st : Store) :
  refs_ok st -> refs_ok (delete_sessions dead st).
Proof.
  intros [Hc [He [Hs Hsc]]]. unfold refs_ok, delete_sessions.
  cbn [lecturers courses students enrolments sessions scans].
  split; [exact Hc |]. split; [exact He |]. split.
  - intros s H. apply filter_In in H. exact (Hs s (proj1 H)).
  - intros sc H. apply filter_In in H. destruct H as [Hin Hk].
    apply negb_true_iff in Hk. exact (survives id dead _ _ (Hsc sc Hin) Hk).
Qed.

Lemma refs_delete_courses (dead : CourseRow -> bool) (st : Store) :
  refs_ok st -> refs_ok (delete_courses dead st).
Proof.
  intro H. pose proof (refs_delete_sessions
                         (fun s => existsb_eq c_id (course_id s) (filter dead (courses st)))
                         st H) as H1.
  destruct H as [Hc [He [Hs Hsc]]]. destruct H1 as [_ [_ [Hs1 Hsc1]]].
  unfold refs_ok, delete_courses.
  cbn [lecturers courses students enrolments sessions scans] in *.
  split; [| split; [| split]].
  - intros c Hin. apply filter_In in Hin. exact (Hc c (proj1 Hin)).
  - intros e Hin. apply filter_In in Hin. destruct Hin as [Hin Hk].
    apply negb_true_iff in Hk. destruct (He e Hin) as [A B].
    split; [exact A | exact (survives c_id dead _ _ B Hk)].
  - intros s Hin. pose proof Hin as Hin'. apply filter_In in Hin'.
    destruct Hin' as [Hin0 Hk]. apply negb_true_iff in Hk.
    destruct (Hs s Hin0) as [A B].
    split; [exact (survives c_id dead _ _ A Hk) | exact B].
  - exact Hsc1.
Qed.

Lemma refs_deleteLecturer (lid : string) (st : Store) :
  refs_ok st -> refs_ok (fst (deleteLecturer st lid)).
Proof.
  intro H.
  pose proof (refs_delete_courses (fun c => String.eqb (c_lecturer_id c) lid) st H) as H1.
  set (st1 := delete_courses (fun c => String.eqb (c_lecturer_id c) lid) st) in *.
  pose proof (refs_delete_sessions (fun s => String.eqb (lecturer_id s) lid) st1 H1) as H2.
  set (st2 := delete_sessions (fun s => String.eqb (lecturer_id s) lid) st1) in *.
  assert (Hcourses : forall c, In c (courses st2) -> c_lecturer_id c <> lid).
  { intros c Hin. cbn [st2 st1 delete_sessions delete_courses courses] in Hin.
    apply filter_In in Hin. destruct Hin as [_ Hk]. apply negb_true_iff in Hk.
    apply String.eqb_neq. exact Hk. }
  assert (Hsessions : forall s, In s (sessions st2) -> lecturer_id s <> lid).
  { intros s Hin. cbn [st2 delete_sessions sessions] in Hin.
    apply filter_In in Hin. destruct Hin as [_ Hk]. apply negb_true_iff in Hk.
    apply String.eqb_neq. exact Hk. }
  assert (Hkeep : forall k, k <> lid -> In k (map l_id (lecturers st2)) ->
                            In k (map l_id (filter (fun l => negb (String.eqb (l_id l) lid))
                                                   (lecturers st2)))).
  { intros k Hk Hin. apply in_map_iff in Hin. destruct Hin as [l [E Hl]].
    apply in_map_iff. exists l. split; [exact E |]. apply filter_In. split; [exact Hl |].
    apply negb_true_iff. apply String.eqb_neq. congruence. }
  destruct H2 as [Hc [He [Hs Hsc]]]. unfold deleteLecturer. fold st1. fold st2.
  unfold refs_ok. cbn [fst lecturers courses students enrolments sessions scans].
  split; [| split; [| split]].
  - intros c Hin. apply Hkeep; [exact (Hcourses c Hin) | exact (Hc c Hin)].
  - exact He.
  - intros s Hin. destruct (Hs s Hin) as [A B]. split; [exact A |].
    apply Hkeep; [exact (Hsessions s Hin) | exact B].
  - exact Hsc.
Qed.

End IntegrityFacts.

Section SoundWrites.
Import Schema Supabase Integrity.

Lemma upsert_student_ids (st : Store) (n s : string) (x : string) :
  Inv.students_wf st ->
  In x (map st_id (students st)) ->
  In x (map st_id (students (fst (upsert_student st
          {| st_id := "S_" ++ n; st_student_no := n; st_surname_initials := s |})))).
Proof.
  intros [_ Hid] Hin. rewrite Forall_forall in Hid. unfold upsert_student. cbn [st_id st_student_no].
  destruct (find _ (students st)).
  - destruct (existsb _ _); [exact Hin |]. destruct (_ && _); [exact Hin |].
    cbn [fst students with_students]. apply in_map_iff in Hin. destruct Hin as [y [E Hy]].
    apply in_map_iff.
    exists (if String.eqb (st_student_no y) n
            then {| st_id := "S_" ++ n; st_student_no := n; st_surname_initials := s |}
            else y).
    split; [| apply in_map_iff; exists y; split; [reflexivity | exact Hy]].
    destruct (String.eqb_spec (st_student_no y) n) as [En | En]; [| exact E].
    cbn [st_id]. rewrite <- E, (Hid y Hy), En. reflexivity.
  - destruct (existsb_eq _ _ _); [exact Hin |].
    cbn [fst students with_students]. apply in_map_snoc. exact Hin.
Qed.

Lemma upsert_student_other_tables (st : Store) (new : StudentRow) :
  let st1 := fst (upsert_student st new) in
  lecturers st1 = lecturers st /\ courses st1 = courses st /\
  enrolments st1 = enrolments st /\ sessions st1 = sessions st /\ scans st1 = scans st.
Proof.
  unfold upsert_student. destruct (find _ _).
  - destruct (existsb _ _); [cbn; tauto |]. destruct (_ && _); cbn; tauto.
  - destruct (existsb_eq _ _ _); cbn; tauto.
Qed.

(** The enrolment upsert adds at most one row, with a new key and with
    both references in place. *)
Lemma upsert_enrolment_effect (st : Store) (new : EnrolmentRow) :
  let st2 := fst (upsert_enrolment st new) in
  lecturers st2 = lecturers st /\ courses st2 = courses st /\
  students st2 = students st /\ sessions st2 = sessions st /\ scans st2 = scans st /\
  (enrolments st2 = enrolments st \/
   (enrolments st2 = (enrolments st ++ [new])%list /\
    ~ In (enrolment_key new) (map enrolment_key (enrolments st)) /\
    In (en_student_id new) (map st_id (students st)) /\
    In (en_course_id new) (map c_id (courses st)))).
Proof.
  unfold upsert_enrolment. destruct (existsb _ (enrolments st)) eqn:E; [cbn; tauto |].
  destruct (_ || _) eqn:F; [cbn; tauto |].
  cbn [fst lecturers courses students sessions scans enrolments with_enrolments].
  repeat (split; [reflexivity |]). right. split; [reflexivity |].
  apply orb_false_iff in F. destruct F as [F1 F2].
  apply negb_false_iff in F1. apply negb_false_iff in F2.
  apply existsb_eq_In in F1. apply existsb_eq_In in F2.
  split; [| split; assumption].
  intro Hin. apply in_map_iff in Hin. destruct Hin as [e [Ek He]].
  assert (T : existsb (fun e => String.eqb (en_student_id e) (en_student_id new)
                                && String.eqb (en_course_id e) (en_course_id new))
                      (enrolments st) = true).
  { apply existsb_exists. exists e. split; [exact He |].
    unfold enrolment_key in Ek. inversion Ek. rewrite !String.eqb_refl. reflexivity. }
  congruence.
Qed.

(** The store after [upsertStudentAndEnrol] is the store after its two
    upserts, whatever it returns. *)
Lemma upsertStudentAndEnrol_store (st : Store) (n s c : string) :
  let new := {| st_id := "S_" ++ n; st_student_no := n; st_surname_initials := s |} in
  let st1 := fst (upsert_student st new) in
  fst (upsertStudentAndEnrol st n s c) = st1 \/
  exists realId,
    fst (upsertStudentAndEnrol st n s c)
    = fst (upsert_enrolment st1 {| en_student_id := realId; en_course_id := c |}).
Proof.
  cbv zeta. unfold upsertStudentAndEnrol.
  destruct (upsert_student st _) as [st1 se]. cbn [fst].
  destruct se as [e |]; [left; reflexivity |].
  right.
  match goal with
  | |- context [upsert_enrolment st1 ?new] =>
      exists (en_student_id new); cbn [en_student_id];
      destruct (upsert_enrolment st1 new) as [st2 ee]
  end.
  cbn [fst]. destruct ee as [e |]; [| reflexivity].
  destruct (code e) as [c0 |]; [destruct (negb _) |]; reflexivity.
Qed.

Lemma refs_upsertStudentAndEnrol (st : Store) (n s c : string) :
  Inv.students_wf st ->
  NoDup (map enrolment_key (enrolments st)) -> refs_ok st ->
  let st' := fst (upsertStudentAndEnrol st n s c) in
  lecturers st' = lecturers st /\ courses st' = courses st /\
  NoDup (map enrolment_key (enrolments st')) /\ refs_ok st'.
Proof.
  intros Hwf Hnd [Hc [He [Hs Hsc]]] st'. subst st'.
  pose proof (upsert_student_other_tables st
                {| st_id := "S_" ++ n; st_student_no := n; st_surname_initials := s |})
    as [L1 [C1 [E1 [S1 Sc1]]]].
  pose proof (upsert_student_ids st n s) as Hids.
  set (st1 := fst (upsert_student st _)) in *.
  assert (R1 : refs_ok st1).
  { unfold refs_ok. rewrite L1, C1, E1, S1, Sc1.
    split; [exact Hc |]. split; [| split; assumption].
    intros e Hin. destruct (He e Hin) as [A B]. split; [apply Hids; assumption | exact B]. }
  destruct (upsertStudentAndEnrol_store st n s c) as [E | [realId E]]; fold st1 in E; rewrite E.
  - split; [exact L1 |]. split; [exact C1 |]. split; [rewrite E1; exact Hnd | exact R1].
  - destruct (upsert_enrolment_effect st1
                {| en_student_id := realId; en_course_id := c |})
      as [L2 [C2 [St2 [S2 [Sc2 En2]]]]].
    set (st2 := fst (upsert_enrolment st1 _)) in *.
    rewrite L2, C2, L1, C1. split; [reflexivity |]. split; [reflexivity |].
    destruct R1 as [Rc [Re [Rs Rsc]]].
    destruct En2 as [En2 | [En2 [Hfresh [Hst Hco]]]].
    + split; [rewrite En2, E1; exact Hnd |].
      unfold refs_ok. rewrite L2, C2, St2, S2, Sc2, En2. repeat split; try assumption;
        try (apply Re; assumption); try (apply Rs; assumption).
    + split; [rewrite En2; apply NoDup_map_snoc; [rewrite E1; exact Hnd | exact Hfresh] |].
      unfold refs_ok. rewrite L2, C2, St2, S2, Sc2, En2.
      split; [exact Rc |]. split; [| split; assumption].
      intros e Hin. apply in_app_or in Hin. destruct Hin as [Hin | [Hin | []]].
      * exact (Re e Hin).
      * subst e. split; assumption.
Qed.

End SoundWrites.

Section SoundExec.
Import Schema Supabase Integrity.

Lemma sound_empty : sound empty.
Proof.
  split; [exact wf_empty |]. repeat (split; [constructor |]).
  unfold refs_ok. cbn. repeat split; intros; contradiction.
Qed.

Lemma sound_exec (st : Store) (o : op) : sound st -> sound (exec st o).
Proof.
  intros [Hwf [Hl [Hm [Hc [He Hr]]]]].
  split; [apply wf_exec; exact Hwf |].
  pose proof Hr as [Rc [Re [Rs Rsc]]].
  pose (keep_all := conj Hl (conj Hm (conj Hc (conj He Hr)))).
  destruct o; cbn [exec].
  - (* createLecturer *)
    unfold createLecturer.
    destruct (_ || _) eqn:E; [exact keep_all |].
    apply orb_false_iff in E. destruct E as [E1 E2].
    apply existsb_eq_false in E1. apply existsb_eq_false in E2.
    cbn [fst]. unfold refs_ok. cbn [lecturers courses students enrolments sessions scans].
    split; [apply NoDup_map_snoc; assumption |].
    split; [apply NoDup_map_snoc; assumption |].
    split; [exact Hc |]. split; [exact He |].
    split; [intros c Hin; apply in_map_snoc; exact (Rc c Hin) |].
    split; [exact Re |]. split; [| exact Rsc].
    intros s Hin. destruct (Rs s Hin) as [A B]. split; [exact A | apply in_map_snoc; exact B].
  - (* deleteLecturer *)
    pose proof (refs_deleteLecturer lid st Hr) as R'.
    unfold deleteLecturer, delete_courses, delete_sessions in *.
    cbn [fst lecturers courses students enrolments sessions scans] in *.
    split; [apply NoDup_map_filter; exact Hl |].
    split; [apply NoDup_map_filter; exact Hm |].
    split; [apply NoDup_map_filter; exact Hc |].
    split; [apply NoDup_map_filter; exact He | exact R'].
  - (* createCourse *)
    unfold createCourse. destruct (course_row i) as [c | e]; [| exact keep_all].
    unfold insert_course.
    destruct (existsb_eq c_id (c_id c) (courses st)) eqn:E; [exact keep_all |].
    destruct (negb _) eqn:F; [exact keep_all |].
    apply existsb_eq_false in E. apply negb_false_iff in F. apply existsb_eq_In in F.
    cbn [fst]. unfold refs_ok. cbn [lecturers courses students enrolments sessions scans].
    split; [exact Hl |]. split; [exact Hm |].
    split; [apply NoDup_map_snoc; assumption |]. split; [exact He |].
    split; [| split; [| split; [| exact Rsc]]].
    + intros x Hin. apply in_app_or in Hin. destruct Hin as [Hin | [Hin | []]].
      * exact (Rc x Hin).
      * subst x. exact F.
    + intros e Hin. destruct (Re e Hin) as [A B]. split; [exact A | apply in_map_snoc; exact B].
    + intros s Hin. destruct (Rs s Hin) as [A B]. split; [apply in_map_snoc; exact A | exact B].
  - (* deleteCourse *)
    pose proof (refs_delete_courses (fun c => String.eqb (c_id c) cid) st Hr) as R'.
    unfold deleteCourse, delete_courses, delete_sessions in *.
    cbn [fst lecturers courses students enrolments sessions scans] in *.
    split; [exact Hl |]. split; [exact Hm |].
    split; [apply NoDup_map_filter; exact Hc |].
    split; [apply NoDup_map_filter; exact He | exact R'].
  - (* upsertStudentAndEnrol *)
    destruct (refs_upsertStudentAndEnrol st studentNo surnameInitials courseId
                (proj2 (proj2 Hwf)) He Hr) as [L [C [N R]]].
    rewrite L, C. repeat (split; [assumption |]). exact R.
  - (* removeStudentFromCourse *)
    unfold removeStudentFromCourse. cbn [fst]. unfold refs_ok.
    cbn [lecturers courses students enrolments sessions scans with_enrolments].
    split; [exact Hl |]. split; [exact Hm |]. split; [exact Hc |].
    split; [apply NoDup_map_filter; exact He |].
    split; [exact Rc |]. split; [| split; assumption].
    intros e Hin. apply filter_In in Hin. exact (Re e (proj1 Hin)).
  - (* createSession *)
    unfold createSession. cbn [id course_id lecturer_id set_status].
    destruct (existsb_eq id (id s) (sessions st)); [exact keep_all |].
    destruct (_ || _) eqn:F; [exact keep_all |].
    apply orb_false_iff in F. destruct F as [F1 F2].
    apply negb_false_iff in F1. apply negb_false_iff in F2.
    apply existsb_eq_In in F1. apply existsb_eq_In in F2.
    cbn [fst]. unfold refs_ok.
    cbn [lecturers courses students enrolments sessions scans with_sessions].
    repeat (split; [assumption |]). split.
    + intros x Hin. apply in_app_or in Hin. destruct Hin as [Hin | [Hin | []]].
      * exact (Rs x Hin).
      * subst x. cbn [course_id lecturer_id set_status]. split; assumption.
    + intros sc Hin. apply in_map_snoc. exact (Rsc sc Hin).
  - (* closeSession *)
    unfold closeSession. cbn [fst]. unfold refs_ok.
    cbn [lecturers courses students enrolments sessions scans with_sessions].
    repeat (split; [assumption |]). split.
    + intros x Hin. apply in_map_iff in Hin. destruct Hin as [y [E Hy]].
      destruct (Rs y Hy) as [A B].
      destruct (String.eqb (id y) sessionId); subst x; split; assumption.
    + intros sc Hin. rewrite map_id_close. exact (Rsc sc Hin).
  - (* recordScan *)
    unfold recordScan. destruct (in_minutes_late i) as [m |]; [| exact keep_all].
    destruct (existsb _ (scans st)); [exact keep_all |].
    destruct (negb _) eqn:F; [exact keep_all |].
    apply negb_false_iff in F. apply existsb_eq_In in F.
    cbn [fst]. unfold refs_ok.
    cbn [lecturers courses students enrolments sessions scans with_scans].
    repeat (split; [assumption |]).
    intros sc Hin. apply in_app_or in Hin. destruct Hin as [Hin | [Hin | []]].
    + exact (Rsc sc Hin).
    + subst sc. exact F.
Qed.

Lemma sound_run (ops : list op) (st : Store) : sound st -> sound (run st ops).
Proof.
  revert st. induction ops as [| o ops IH]; intros st H; [exact H |].
  cbn [run fold_left]. apply IH, sound_exec, H.
Qed.

Lemma sound_reachable (ops : list op) : sound (run empty ops).
Proof. apply sound_run, sound_empty. Qed.

End SoundExec.

(** X4.  Whatever writes of supabase.js are applied to an empty database,
    every declared key stays unique: lecturer ids and emails, course ids,
    student ids and student numbers, (student, course) enrolments, session
    ids and (session, student) scans. *)
Theorem reachable_keys_unique (ops : list Supabase.op) :
  Integrity.keys_ok (Supabase.run Supabase.empty ops).
Proof. apply sound_keys, sound_reachable. Qed.

(** X5.  Whatever writes of supabase.js are applied to an empty database,
    no row refers to a missing one: every course has its lecturer, every
    enrolment its student and course, every session its course and
    lecturer, and every scan its session; the cascading deletes take the
    dependent rows along. *)
Theorem reachable_refs_ok (ops : list Supabase.op) :
  Integrity.refs_ok (Supabase.run Supabase.empty ops).
Proof. apply sound_reachable. Qed.

(* ===================================================================== *)
(** ** Students, enrolments and rosters *)
(* ===================================================================== *)

Section EnrolFacts.
Import Schema Supabase Integrity.

Variable st : Store.
Variables n s c : string.
Hypothesis Hwf : Inv.students_wf st.

Let new : StudentRow :=
  {| st_id := "S_" ++ n; st_student_no := n; st_surname_initials := s |}.

Let enrolment : EnrolmentRow :=
  {| en_student_id := "S_" ++ n; en_course_id := c |}.

(** On a well-formed students table the student upsert cannot fail: the
    row is rewritten in place or appended. *)
Lemma upsert_student_total :
  exists l, upsert_student st new = (with_students st l, None) /\
            In new l /\ NoDup (map st_student_no l) /\
            Forall (fun x => st_id x = "S_" ++ st_student_no x) l /\
            (forall x, In x (students st) -> st_student_no x <> n -> In x l) /\
            (forall x, In x l -> x = new \/ In x (students st)) /\
            (In new (students st) -> l = students st).
Proof.
  destruct (find (fun x => String.eqb (st_student_no x) n) (students st)) as [old |] eqn:Ef.
  - apply find_some in Ef. destruct Ef as [Hold Hno]. apply String.eqb_eq in Hno.
    eexists. split; [exact (upsert_student_existing st n s old Hwf Hold Hno) |].
    split; [exact (new_in_replaced st n s old Hold Hno) |].
    split; [exact (replaced_unique st n s Hwf) |].
    split; [| split; [| split]].
    + pose proof (upsert_student_wf st new Hwf eq_refl) as W.
      pose proof (upsert_student_existing st n s old Hwf Hold Hno) as Ex.
      cbv zeta in Ex. unfold new in W. rewrite Ex in W. exact (proj2 W).
    + intros x Hx Hne. apply in_map_iff. exists x. split; [| exact Hx].
      apply String.eqb_neq in Hne. rewrite Hne. reflexivity.
    + intros x Hx. apply in_map_iff in Hx. destruct Hx as [y [E Hy]].
      destruct (String.eqb (st_student_no y) n); subst x; [left; reflexivity | right; exact Hy].
    + intro Hnew. rewrite <- (map_id (students st)) at 2. apply map_ext_in.
      intros y Hy. destruct (String.eqb_spec (st_student_no y) n) as [En | En]; [| reflexivity].
      symmetry. apply (NoDup_map_In_eq st_student_no (students st)); try assumption.
      exact (proj1 Hwf).
  - exists (students st ++ [new])%list.
    assert (Hfresh : existsb_eq st_id ("S_" ++ n) (students st) = false).
    { apply existsb_eq_false. intro Hin. apply in_map_iff in Hin. destruct Hin as [y [E Hy]].
      destruct Hwf as [_ Hid]. rewrite Forall_forall in Hid. rewrite (Hid y Hy) in E.
      cbn in E. inversion E as [E'].
      pose proof (find_none _ _ Ef y Hy) as Hn. cbn beta in Hn.
      rewrite E', String.eqb_refl in Hn. discriminate. }
    split.
    { unfold upsert_student. cbn [st_student_no st_id new]. rewrite Ef, Hfresh. reflexivity. }
    pose proof (upsert_student_wf st new Hwf eq_refl) as W.
    unfold upsert_student in W. cbn [st_student_no st_id new] in W.
    rewrite Ef, Hfresh in W. destruct W as [W1 W2].
    split; [apply in_or_app; right; left; reflexivity |].
    split; [exact W1 |]. split; [exact W2 |]. split; [| split].
    + intros x Hx _. apply in_or_app. left. exact Hx.
    + intros x Hx. apply in_app_or in Hx. destruct Hx as [Hx | [Hx | []]]; [right | left]; auto.
    + intro Hnew. exfalso. pose proof (find_none _ _ Ef new Hnew) as Hn. cbn beta in Hn.
      cbn [st_student_no new] in Hn. rewrite String.eqb_refl in Hn. discriminate.
Qed.

(** Outcome of [upsertStudentAndEnrol] on a well-formed students table. *)
Lemma upsertStudentAndEnrol_cases :
  exists l, In new l /\ NoDup (map st_student_no l) /\
            Forall (fun x => st_id x = "S_" ++ st_student_no x) l /\
            (forall x, In x (students st) -> st_student_no x <> n -> In x l) /\
            (forall x, In x l -> x = new \/ In x (students st)) /\
            (In new (students st) -> l = students st) /\
    let st1 := with_students st l in
    ((In enrolment (enrolments st) /\
      upsertStudentAndEnrol st n s c = (st1, Ok new)) \/
     (~ In enrolment (enrolments st) /\ In c (map c_id (courses st)) /\
      upsertStudentAndEnrol st n s c
      = (with_enrolments st1 (enrolments st ++ [enrolment])%list, Ok new)) \/
     (~ In enrolment (enrolments st) /\ ~ In c (map c_id (courses st)) /\
      upsertStudentAndEnrol st n s c = (st1, Throw foreign_key_violation))).
Proof.
  destruct upsert_student_total as [l [E [Hin [Hnd [Hid [Hkeep [Hfrom Hsame]]]]]]].
  exists l. repeat (split; [assumption |]). intro st1.
  assert (Hsel : select_student_id st1 n = Some ("S_" ++ n)).
  { unfold select_student_id. cbn [students st1 with_students].
    pose proof (filter_unique_key st_student_no l new Hnd Hin) as F.
    cbn [st_student_no new] in F. rewrite F. reflexivity. }
  unfold upsertStudentAndEnrol. fold new. rewrite E. fold st1. rewrite Hsel.
  cbn [String.eqb String.append].
  change (String "S" (String "_" n)) with ("S_" ++ n). fold new enrolment.
  unfold upsert_enrolment.
  cbn [enrolments courses students st1 with_students en_student_id en_course_id enrolment].
  destruct (existsb _ (enrolments st)) eqn:Ee.
  - left. split; [| reflexivity]. apply existsb_exists in Ee.
    destruct Ee as [e [He Ek]]. apply andb_true_iff in Ek. destruct Ek as [E1 E2].
    apply String.eqb_eq in E1. apply String.eqb_eq in E2.
    destruct e as [a b]. cbn in E1, E2. subst. exact He.
  - assert (Hnot : ~ In enrolment (enrolments st)).
    { intro He. assert (T : existsb (fun e => String.eqb (en_student_id e) ("S_" ++ n)
                                              && String.eqb (en_course_id e) c)
                                    (enrolments st) = true).
      { apply existsb_exists. exists enrolment. split; [exact He |].
        cbn [en_student_id en_course_id enrolment]. rewrite !String.eqb_refl. reflexivity. }
      congruence. }
    assert (Hs : existsb_eq st_id ("S_" ++ n) l = true).
    { apply existsb_eq_true. exists new. split; [exact Hin | reflexivity]. }
    rewrite Hs. cbn [negb orb].
    destruct (existsb_eq c_id c (courses st)) eqn:Ec; cbn [negb].
    + right. left. apply existsb_eq_In in Ec. repeat split; assumption.
    + right. right. apply existsb_eq_false in Ec. repeat split; assumption.
Qed.

End EnrolFacts.

(** X6.  On a store with a well-formed students table and intact
    references, [upsertStudentAndEnrol] succeeds exactly when the course
    exists, and then the student is enrolled in it.  When the course does
    not exist it throws the foreign-key error after the student row has
    been written all the same: the two upserts are not one transaction. *)
Theorem upsertStudentAndEnrol_outcome (st : Supabase.Store) (n s c : string) :
  Inv.students_wf st ->
  Integrity.refs_ok st ->
  let r := Supabase.upsertStudentAndEnrol st n s c in
  let new := {| Schema.st_id := "S_" ++ n; Schema.st_student_no := n;
                Schema.st_surname_initials := s |} in
  let enrolment := {| Schema.en_student_id := "S_" ++ n; Schema.en_course_id := c |} in
  In new (Supabase.students (fst r)) /\
  (In c (map Schema.c_id (Supabase.courses st)) ->
     snd r = Supabase.Ok new /\ In enrolment (Supabase.enrolments (fst r))) /\
  (~ In c (map Schema.c_id (Supabase.courses st)) ->
     snd r = Supabase.Throw Supabase.foreign_key_violation /\
     Supabase.enrolments (fst r) = Supabase.enrolments st).
Proof.
  intros Hwf Hrefs r new enrolment. subst r.
  pose proof (upsertStudentAndEnrol_cases st n s c Hwf) as H. cbv zeta in H.
  destruct H as [l [Hin [_ [_ [_ [_ [_ H]]]]]]].
  destruct H as [[He E] | [[He [Hc E]] | [He [Hc E]]]]; rewrite E;
    cbn [fst snd Supabase.students Supabase.enrolments Supabase.with_students
         Supabase.with_enrolments].
  - split; [exact Hin |]. split; [intros _; split; [reflexivity | exact He] |].
    intro Hc. exfalso. apply Hc.
    destruct Hrefs as [_ [Re _]]. exact (proj2 (Re _ He)).
  - split; [exact Hin |]. split; [| intro N; contradiction].
    intros _. split; [reflexivity |]. apply in_or_app. right. left. reflexivity.
  - split; [exact Hin |]. split; [intro N; contradiction |].
    intros _. split; reflexivity.
Qed.

Lemma upsertStudentAndEnrol_outcome_witness :
  let r := Supabase.upsertStudentAndEnrol Scenario.st0 "20210003" "Mokoena N.P." "NOCOURSE" in
  In {| Schema.st_id := "S_20210003"; Schema.st_student_no := "20210003";
        Schema.st_surname_initials := "Mokoena N.P." |} (Supabase.students (fst r)) /\
  snd r = Supabase.Throw Supabase.foreign_key_violation.
Proof.
  assert (Hwf : Inv.students_wf Scenario.st0).
  { exact (proj2 (proj2 (wf_reachable Scenario.ops0))). }
  assert (Hrefs : Integrity.refs_ok Scenario.st0).
  { exact (proj2 (proj2 (proj2 (proj2 (proj2 (sound_reachable Scenario.ops0)))))). }
  pose proof (upsertStudentAndEnrol_outcome Scenario.st0 "20210003" "Mokoena N.P." "NOCOURSE"
                Hwf Hrefs) as H.
  cbv zeta in H. destruct H as [H1 [_ H3]].
  assert (Hc : ~ In "NOCOURSE" (map Schema.c_id (Supabase.courses Scenario.st0))).
  { vm_compute. intros [E | []]. discriminate. }
  destruct (H3 Hc) as [H4 _].
  split; [exact H1 | exact H4].
Defined.

(** X7.  [upsertStudentAndEnrol] is idempotent: after a call that
    succeeded, the same call again returns the same student and leaves
    every table as it is. *)
Theorem upsertStudentAndEnrol_idempotent (st : Supabase.Store) (n s c : string)
        (x : Schema.StudentRow) :
  Inv.students_wf st ->
  snd (Supabase.upsertStudentAndEnrol st n s c) = Supabase.Ok x ->
  let st' := fst (Supabase.upsertStudentAndEnrol st n s c) in
  Supabase.upsertStudentAndEnrol st' n s c = (st', Supabase.Ok x).
Proof.
  intros Hwf Hok st'. subst st'.
  pose proof (upsertStudentAndEnrol_cases st n s c Hwf) as H. cbv zeta in H.
  destruct H as [l [Hin [Hnd [Hid [_ [_ [_ H]]]]]]].
  assert (Again : forall st1 : Supabase.Store,
            Supabase.students st1 = l ->
            In {| Schema.en_student_id := "S_" ++ n; Schema.en_course_id := c |}
               (Supabase.enrolments st1) ->
            Supabase.upsertStudentAndEnrol st1 n s c
            = (st1, Supabase.Ok {| Schema.st_id := "S_" ++ n; Schema.st_student_no := n;
                                   Schema.st_surname_initials := s |})).
  { intros st1 Hst He.
    assert (Hwf1 : Inv.students_wf st1) by (unfold Inv.students_wf; rewrite Hst; split; assumption).
    pose proof (upsertStudentAndEnrol_cases st1 n s c Hwf1) as H1. cbv zeta in H1.
    destruct H1 as [l1 [_ [_ [_ [_ [_ [Hsame H1]]]]]]].
    rewrite Hst in Hsame. rewrite (Hsame Hin) in H1.
    replace (Supabase.with_students st1 l) with st1 in H1
      by (rewrite <- Hst; destruct st1; reflexivity).
    destruct H1 as [[_ E] | [[N _] | [N _]]]; [exact E | contradiction | contradiction]. }
  destruct H as [[He E] | [[He [Hc E]] | [He [Hc E]]]]; rewrite E in *; cbn [fst snd] in *.
  - inversion Hok. subst x. apply Again; [reflexivity | exact He].
  - inversion Hok. subst x. apply Again; [reflexivity |].
    cbn [Supabase.enrolments Supabase.with_enrolments]. apply in_or_app. right. left. reflexivity.
  - discriminate.
Qed.

Lemma upsertStudentAndEnrol_idempotent_witness :
  let st' := fst (Supabase.upsertStudentAndEnrol Scenario.st0 "20210003" "Mokoena N.P." "C1") in
  Supabase.upsertStudentAndEnrol st' "20210003" "Mokoena N.P." "C1"
  = (st', Supabase.Ok {| Schema.st_id := "S_20210003"; Schema.st_student_no := "20210003";
                         Schema.st_surname_initials := "Mokoena N.P." |}).
Proof.
  apply (upsertStudentAndEnrol_idempotent Scenario.st0 "20210003" "Mokoena N.P." "C1").
  - exact (proj2 (proj2 (wf_reachable Scenario.ops0))).
  - vm_compute. reflexivity.
Defined.

Section RosterFacts.
Import Schema Supabase Integrity Queries.

(** Who is on a roster: the students an enrolment of the course points to. *)
Lemma roster_In (st : Store) (c : string) (x : StudentRow) :
  In x (roster st c) <->
  In x (students st) /\
  In {| en_student_id := st_id x; en_course_id := c |} (enrolments st).
Proof.
  unfold roster, getStudentsForCourse. rewrite in_flat_map. split.
  - intros [e [He Hx]]. apply filter_In in He. destruct He as [He Ec].
    apply filter_In in Hx. destruct Hx as [Hx Ei].
    apply String.eqb_eq in Ec. apply String.eqb_eq in Ei.
    split; [exact Hx |]. destruct e as [a b]. cbn in Ec, Ei. subst. exact He.
  - intros [Hx He]. eexists. split.
    + apply filter_In. split; [exact He |]. cbn. apply String.eqb_refl.
    + apply filter_In. split; [exact Hx |]. cbn. apply String.eqb_refl.
Qed.

Lemma roster_ids_unique (st : Store) (c : string) :
  NoDup (map st_id (students st)) ->
  NoDup (map enrolment_key (enrolments st)) ->
  NoDup (map st_id (roster st c)).
Proof.
  intros Hs He. unfold roster, getStudentsForCourse.
  induction (enrolments st) as [| e es IH]; [constructor |].
  cbn [map] in He. apply NoDup_cons_iff in He. destruct He as [He Hes].
  cbn [filter]. destruct (String.eqb_spec (en_course_id e) c) as [Ec | Ec]; [| exact (IH Hes)].
  cbn [flat_map]. rewrite map_app. apply NoDup_app.
  - apply NoDup_map_filter. exact Hs.
  - exact (IH Hes).
  - intros k H1 H2. apply He.
    apply in_map_iff in H1. destruct H1 as [x [Ex Hx]]. apply filter_In in Hx.
    destruct Hx as [_ Ei]. apply String.eqb_eq in Ei.
    apply in_map_iff in H2. destruct H2 as [y [Ey Hy]]. apply in_flat_map in Hy.
    destruct Hy as [e' [He' Hy]]. apply filter_In in He'. destruct He' as [He' Ec'].
    apply String.eqb_eq in Ec'. apply filter_In in Hy. destruct Hy as [_ Ei'].
    apply String.eqb_eq in Ei'.
    apply in_map_iff. exists e'. split; [| exact He'].
    unfold enrolment_key. congruence.
Qed.

(** One enrolment call on a sound store. *)
Lemma enrol_step (st : Store) (n s c : string) :
  sound st ->
  let r := upsertStudentAndEnrol st n s c in
  sound (fst r) /\ courses (fst r) = courses st /\
  incl (map st_student_no (students st)) (map st_student_no (students (fst r))) /\
  incl (enrolments st) (enrolments (fst r)) /\
  In n (map st_student_no (students (fst r))) /\
  (In c (map c_id (courses st)) ->
     (exists x, snd r = Ok x) /\
     In {| en_student_id := "S_" ++ n; en_course_id := c |} (enrolments (fst r))) /\
  (~ In c (map c_id (courses st)) ->
     (exists e, snd r = Throw e) /\ enrolments (fst r) = enrolments st).
Proof.
  intros Hs r. subst r.
  pose proof (sound_exec st (UpsertStudentAndEnrol n s c) Hs) as Hs'. cbn [exec] in Hs'.
  destruct Hs as [[_ [_ Hwf]] [_ [_ [_ [Hnd Hrefs]]]]].
  pose proof (refs_upsertStudentAndEnrol st n s c Hwf Hnd Hrefs) as F. cbv zeta in F.
  destruct F as [_ [Fc _]].
  split; [exact Hs' |]. split; [exact Fc |]. clear Hs' Fc.
  pose proof (upsertStudentAndEnrol_cases st n s c Hwf) as H. cbv zeta in H.
  destruct H as [l [Hin [_ [_ [Hkeep [_ [_ H]]]]]]].
  assert (Hnos : incl (map st_student_no (students st)) (map st_student_no l)).
  { intros k Hk. apply in_map_iff in Hk. destruct Hk as [x [E Hx]].
    destruct (string_dec (st_student_no x) n) as [En | En].
    - apply in_map_iff. eexists. split; [| exact Hin]. cbn. congruence.
    - apply in_map_iff. exists x. split; [exact E | exact (Hkeep x Hx En)]. }
  assert (Hn : In n (map st_student_no l)).
  { apply in_map_iff. eexists. split; [| exact Hin]. reflexivity. }
  destruct H as [[He E] | [[He [Hc E]] | [He [Hc E]]]]; rewrite E;
    cbn [fst snd students enrolments with_students with_enrolments].
  - split; [exact Hnos |]. split; [apply incl_refl |]. split; [exact Hn |].
    split; [intros _; split; [eexists; reflexivity | exact He] |].
    intro Hc. exfalso. apply Hc. destruct Hrefs as [_ [Re _]]. exact (proj2 (Re _ He)).
  - split; [exact Hnos |]. split; [apply incl_appl, incl_refl |]. split; [exact Hn |].
    split; [| intro N; contradiction].
    intros _. split; [eexists; reflexivity |]. apply in_or_app. right. left. reflexivity.
  - split; [exact Hnos |]. split; [apply incl_refl |]. split; [exact Hn |].
    split; [intro N; contradiction |].
    intros _. split; [eexists; reflexivity | reflexivity].
Qed.

(** The counters of the upload loop add up, on any store. *)
Lemma upsertMany_from_total (rows : list Upload) (c : string) :
  forall (st : Store) (a k : nat),
    (added (snd (upsertMany_from st rows c a k))
     + skipped (snd (upsertMany_from st rows c a k))
     = a + k + List.length rows)%nat.
Proof.
  induction rows as [| u rows IH]; intros st a k; cbn [upsertMany_from].
  - cbn. lia.
  - destruct (upsertStudentAndEnrol st (studentNo u) (surnameInitials u) c) as [st' [x | e]];
      rewrite IH; cbn [List.length]; lia.
Qed.

(** The upload loop on a sound store. *)
Lemma upsertMany_from_sound (rows : list Upload) (c : string) :
  forall (st : Store) (a k : nat),
    sound st ->
    let r := upsertMany_from st rows c a k in
    sound (fst r) /\ courses (fst r) = courses st /\
    incl (map st_student_no (students st)) (map st_student_no (students (fst r))) /\
    incl (enrolments st) (enrolments (fst r)) /\
    (forall u, In u rows -> In (studentNo u) (map st_student_no (students (fst r)))) /\
    (In c (map c_id (courses st)) ->
       snd r = {| added := a + List.length rows; skipped := k |} /\
       forall u, In u rows ->
         In {| en_student_id := "S_" ++ studentNo u; en_course_id := c |}
            (enrolments (fst r))) /\
    (~ In c (map c_id (courses st)) ->
       snd r = {| added := a; skipped := k + List.length rows |} /\
       enrolments (fst r) = enrolments st).
Proof.
  induction rows as [| u rows IH]; intros st a k Hs; cbv zeta; cbn [upsertMany_from].
  - cbn [fst snd List.length]. rewrite !Nat.add_0_r.
    split; [exact Hs |]. split; [reflexivity |].
    split; [apply incl_refl |]. split; [apply incl_refl |].
    split; [intros u [] |].
    split; intros _; (split; [reflexivity |]); [intros u [] | reflexivity].
  - pose proof (enrol_step st (studentNo u) (surnameInitials u) c Hs) as H. cbv zeta in H.
    destruct H as [Hs1 [Hc1 [Hn1 [He1 [Hin1 [Hyes Hno]]]]]].
    destruct (upsertStudentAndEnrol st (studentNo u) (surnameInitials u) c) as [st1 [x | e]];
      cbn [fst snd] in *.
    + specialize (IH st1 (S a) k Hs1). cbv zeta in IH.
      destruct IH as [Hs2 [Hc2 [Hn2 [He2 [Hin2 [Hyes2 Hno2]]]]]].
      split; [exact Hs2 |]. split; [congruence |].
      split; [exact (incl_tran Hn1 Hn2) |]. split; [exact (incl_tran He1 He2) |].
      split; [intros v [Hv | Hv]; [subst v; exact (Hn2 _ Hin1) | exact (Hin2 v Hv)] |].
      split.
      * intro Hc. rewrite Hc1 in Hyes2. destruct (Hyes2 Hc) as [T Hen].
        split; [rewrite T; cbn [List.length]; f_equal; lia |].
        intros v [Hv | Hv]; [subst v; apply He2; exact (proj2 (Hyes Hc)) | exact (Hen v Hv)].
      * intro Hc. destruct (Hno Hc) as [[e E] _]. discriminate.
    + specialize (IH st1 a (S k) Hs1). cbv zeta in IH.
      destruct IH as [Hs2 [Hc2 [Hn2 [He2 [Hin2 [Hyes2 Hno2]]]]]].
      split; [exact Hs2 |]. split; [congruence |].
      split; [exact (incl_tran Hn1 Hn2) |]. split; [exact (incl_tran He1 He2) |].
      split; [intros v [Hv | Hv]; [subst v; exact (Hn2 _ Hin1) | exact (Hin2 v Hv)] |].
      split.
      * intro Hc. destruct (Hyes Hc) as [[x E] _]. discriminate.
      * intro Hc. rewrite Hc1 in Hno2. destruct (Hno2 Hc) as [T Hen].
        split; [rewrite T; cbn [List.length]; f_equal; lia |].
        rewrite Hen. exact (proj2 (Hno Hc)).
Qed.

End RosterFacts.

(** X8.  [upsertManyStudents] counts every row once, as added or as
    skipped.  On a sound store (every store the application builds is
    one) a row is never skipped when the course exists, also when the
    student was enrolled already or occurs twice in the upload, and every
    uploaded student number is on the course's roster afterwards; when
    the course does not exist every row is skipped and no enrolment is
    written, yet every uploaded student number is in the students table
    afterwards. *)
Theorem upsertManyStudents_tally (st : Supabase.Store) (rows : list Queries.Upload)
        (c : string) :
  Integrity.sound st ->
  let r := Queries.upsertManyStudents st rows c in
  (Queries.added (snd r) + Queries.skipped (snd r) = List.length rows)%nat /\
  (In c (map Schema.c_id (Supabase.courses st)) ->
     snd r = {| Queries.added := List.length rows; Queries.skipped := 0 |} /\
     forall u, In u rows ->
       In (Queries.studentNo u) (map Schema.st_student_no (Integrity.roster (fst r) c))) /\
  (~ In c (map Schema.c_id (Supabase.courses st)) ->
     snd r = {| Queries.added := 0; Queries.skipped := List.length rows |} /\
     Supabase.enrolments (fst r) = Supabase.enrolments st /\
     forall u, In u rows ->
       In (Queries.studentNo u) (map Schema.st_student_no (Supabase.students (fst r)))).
Proof.
  intros Hs r. subst r. unfold Queries.upsertManyStudents.
  split; [apply (upsertMany_from_total rows c st 0 0) |].
  pose proof (upsertMany_from_sound rows c st 0 0 Hs) as H. cbv zeta in H.
  destruct H as [Hs' [_ [_ [_ [Hin [Hyes Hno]]]]]].
  split.
  - intro Hc. destruct (Hyes Hc) as [T Hen]. split; [exact T |].
    intros u Hu. specialize (Hin u Hu). apply in_map_iff in Hin.
    destruct Hin as [x [E Hx]]. apply in_map_iff. exists x. split; [exact E |].
    apply roster_In. split; [exact Hx |].
    destruct Hs' as [[_ [_ [_ Hid]]] _]. rewrite Forall_forall in Hid.
    rewrite (Hid x Hx), E. exact (Hen u Hu).
  - intro Hc. destruct (Hno Hc) as [T Hen]. split; [exact T |]. split; [exact Hen | exact Hin].
Qed.

Lemma upsertManyStudents_tally_witness :
  snd (Queries.upsertManyStudents Scenario.st0
         [ {| Queries.studentNo := "20210001"; Queries.surnameInitials := "Khumalo T." |};
           {| Queries.studentNo := "20210009"; Queries.surnameInitials := "Zulu B." |};
           {| Queries.studentNo := "20210009"; Queries.surnameInitials := "Zulu B.B." |} ]
         "C1")
  = {| Queries.added := 3; Queries.skipped := 0 |}.
Proof.
  pose proof (upsertManyStudents_tally Scenario.st0
         [ {| Queries.studentNo := "20210001"; Queries.surnameInitials := "Khumalo T." |};
           {| Queries.studentNo := "20210009"; Queries.surnameInitials := "Zulu B." |};
           {| Queries.studentNo := "20210009"; Queries.surnameInitials := "Zulu B.B." |} ]
         "C1" (sound_reachable Scenario.ops0)) as H.
  cbv zeta in H. destruct H as [_ [H _]].
  assert (Hc : In "C1" (map Schema.c_id (Supabase.courses Scenario.st0))).
  { vm_compute. left. reflexivity. }
  destruct (H Hc) as [T _]. exact T.
Defined.

(** X9.  After a successful [upsertStudentAndEnrol] the returned student
    is on the roster [getStudentsForCourse] gives for the course, with the
    uploaded name, and the roster lists no student twice. *)
Theorem enrolled_student_on_roster (st : Supabase.Store) (n s c : string)
        (x : Schema.StudentRow) :
  Integrity.sound st ->
  snd (Supabase.upsertStudentAndEnrol st n s c) = Supabase.Ok x ->
  let st' := fst (Supabase.upsertStudentAndEnrol st n s c) in
  x = {| Schema.st_id := "S_" ++ n; Schema.st_student_no := n;
         Schema.st_surname_initials := s |} /\
  In x (Integrity.roster st' c) /\
  NoDup (map Schema.st_id (Integrity.roster st' c)) /\
  (forall y, In y (Integrity.roster st' c) -> Schema.st_student_no y = n -> y = x).
Proof.
  intros Hs Hok st'. subst st'.
  pose proof (sound_exec st (Supabase.UpsertStudentAndEnrol n s c) Hs) as Hs'.
  cbn [Supabase.exec] in Hs'. apply sound_keys in Hs'.
  destruct Hs' as [_ [_ [_ [Hids [Hnos [Hen _]]]]]].
  destruct Hs as [[_ [_ Hwf]] _].
  pose proof (upsertStudentAndEnrol_cases st n s c Hwf) as H. cbv zeta in H.
  destruct H as [l [Hin [_ [_ [_ [_ [_ H]]]]]]].
  assert (Hx : x = {| Schema.st_id := "S_" ++ n; Schema.st_student_no := n;
                      Schema.st_surname_initials := s |}
               /\ In x (Integrity.roster (fst (Supabase.upsertStudentAndEnrol st n s c)) c)).
  { destruct H as [[He E] | [[He [Hc E]] | [He [Hc E]]]]; rewrite E in Hok |- *;
      cbn [fst snd] in *; [| | discriminate].
    - inversion Hok. subst x. split; [reflexivity |]. apply roster_In. split; [exact Hin | exact He].
    - inversion Hok. subst x. split; [reflexivity |]. apply roster_In. split; [exact Hin |].
      cbn [Supabase.enrolments Supabase.with_enrolments Schema.st_id].
      apply in_or_app. right. left. reflexivity. }
  destruct Hx as [Ex Hx]. split; [exact Ex |]. split; [exact Hx |].
  split; [apply roster_ids_unique; assumption |].
  intros y Hy En.
  apply (NoDup_map_In_eq Schema.st_student_no
           (Supabase.students (fst (Supabase.upsertStudentAndEnrol st n s c)))).
  - exact Hnos.
  - exact (proj1 (proj1 (roster_In _ _ _) Hy)).
  - exact (proj1 (proj1 (roster_In _ _ _) Hx)).
  - rewrite En, Ex. reflexivity.
Qed.

Lemma enrolled_student_on_roster_witness :
  In {| Schema.st_id := "S_20210001"; Schema.st_student_no := "20210001";
        Schema.st_surname_initials := "Khumalo-Nkosi T.S." |}
     (Integrity.roster
        (fst (Supabase.upsertStudentAndEnrol Scenario.st0 "20210001" "Khumalo-Nkosi T.S." "C1"))
        "C1").
Proof.
  assert (Hok : snd (Supabase.upsertStudentAndEnrol Scenario.st0 "20210001"
                       "Khumalo-Nkosi T.S." "C1")
                = Supabase.Ok {| Schema.st_id := "S_20210001"; Schema.st_student_no := "20210001";
                                 Schema.st_surname_initials := "Khumalo-Nkosi T.S." |}).
  { vm_compute. reflexivity. }
  pose proof (enrolled_student_on_roster Scenario.st0 "20210001" "Khumalo-Nkosi T.S." "C1" _
                (sound_reachable Scenario.ops0) Hok) as H.
  cbv zeta in H. destruct H as [_ [H _]]. exact H.
Defined.

(** X10.  [removeStudentFromCourse] takes exactly that student off that
    course's roster: every other roster entry, of this and of every other
    course, stays, none is added, and the students, sessions and recorded
    scans are left as they are (the student's past check-ins remain). *)
Theorem removeStudentFromCourse_roster (st : Supabase.Store) (sid c c' : string)
        (x : Schema.StudentRow) :
  let r := Supabase.removeStudentFromCourse st sid c in
  snd r = Supabase.Ok tt /\
  (In x (Integrity.roster (fst r) c') <->
   In x (Integrity.roster st c') /\ ~ (Schema.st_id x = sid /\ c' = c)) /\
  Supabase.students (fst r) = Supabase.students st /\
  Supabase.sessions (fst r) = Supabase.sessions st /\
  Supabase.scans (fst r) = Supabase.scans st.
Proof.
  cbv zeta. unfold Supabase.removeStudentFromCourse. cbn [fst snd].
  split; [reflexivity |]. split; [| repeat split].
  rewrite !roster_In.
  cbn [Supabase.students Supabase.enrolments Supabase.with_enrolments].
  rewrite filter_In. cbn [Schema.en_student_id Schema.en_course_id].
  rewrite negb_true_iff, andb_false_iff, !String.eqb_neq.
  destruct (string_dec (Schema.st_id x) sid) as [E1 | E1];
    destruct (string_dec c' c) as [E2 | E2]; tauto.
Qed.

Section SessionFacts.
Import Schema Supabase App Integrity.

(** No scan refers to a session id the sessions table does not hold. *)
Lemma no_scans_of_missing (st : Store) (i : string) :
  refs_ok st -> ~ In i (map id (sessions st)) ->
  filter (fun sc => String.eqb (session_id sc) i) (scans st) = [].
Proof.
  intros [_ [_ [_ Hsc]]] Hi. apply filter_absent_key.
  intro Hin. apply in_map_iff in Hin. destruct Hin as [sc [E Hin]].
  apply Hi. rewrite <- E. exact (Hsc sc Hin).
Qed.

Lemma createSession_cases (st : Store) (new : SessionRow) :
  let s := set_status new "active" in
  (In (id new) (map id (sessions st)) /\
   createSession st new = (st, Throw unique_violation)) \/
  (~ In (id new) (map id (sessions st)) /\
   ~ (In (course_id new) (map c_id (courses st)) /\
      In (lecturer_id new) (map l_id (lecturers st))) /\
   createSession st new = (st, Throw foreign_key_violation)) \/
  (~ In (id new) (map id (sessions st)) /\
   In (course_id new) (map c_id (courses st)) /\
   In (lecturer_id new) (map l_id (lecturers st)) /\
   createSession st new = (with_sessions st (sessions st ++ [s]), Ok s)).
Proof.
  cbv zeta. unfold createSession. cbn [id course_id lecturer_id set_status].
  destruct (existsb_eq id (id new) (sessions st)) eqn:Ei.
  - left. apply existsb_eq_In in Ei. split; [exact Ei | reflexivity].
  - right. apply existsb_eq_false in Ei.
    destruct (existsb_eq c_id (course_id new) (courses st)) eqn:Ec;
      destruct (existsb_eq l_id (lecturer_id new) (lecturers st)) eqn:El; cbn [negb orb].
    + right. apply existsb_eq_In in Ec. apply existsb_eq_In in El.
      split; [exact Ei |]. split; [exact Ec |]. split; [exact El | reflexivity].
    + left. apply existsb_eq_false in El.
      split; [exact Ei |]. split; [tauto | reflexivity].
    + left. apply existsb_eq_false in Ec.
      split; [exact Ei |]. split; [tauto | reflexivity].
    + left. apply existsb_eq_false in Ec.
      split; [exact Ei |]. split; [tauto | reflexivity].
Qed.

End SessionFacts.

(** X11.  [createSession] on a store with intact references: it succeeds
    exactly when the id is new and the course and the lecturer exist, and
    stores the row with status 'active' whatever status was passed; the
    session read back by [getSession] is that row with an empty scan list,
    and a student view opened on it reaches the entry step.  A refused
    insert (duplicate id: 23505, missing course or lecturer: 23503) leaves
    the store as it was. *)
Theorem createSession_round_trip (st : Supabase.Store) (new : Schema.SessionRow) :
  Integrity.refs_ok st ->
  Schema.id new <> "" ->
  let r := Supabase.createSession st new in
  let s := Supabase.set_status new "active" in
  let read := {| Schema.row := s; Schema.scans := Some [] |} in
  (snd r = Supabase.Ok s <->
   ~ In (Schema.id new) (map Schema.id (Supabase.sessions st)) /\
   In (Schema.course_id new) (map Schema.c_id (Supabase.courses st)) /\
   In (Schema.lecturer_id new) (map Schema.l_id (Supabase.lecturers st))) /\
  (forall x, snd r = Supabase.Ok x ->
     x = s /\
     Supabase.getSession (fst r) (Schema.id new) = Supabase.Ok (Some read) /\
     App.load (fst r) None (Some (Schema.id new))
     = {| App.sessionId := Some (Schema.id new); App.session := Some read;
          App.step := App.enter; App.studentNo := ""; App.result := None;
          App.err := "" |}) /\
  (forall e, snd r = Supabase.Throw e ->
     fst r = st /\
     (e = Supabase.unique_violation \/ e = Supabase.foreign_key_violation)).
Proof.
  intros Hrefs Hid r s read. subst r.
  pose proof (createSession_cases st new) as H. cbv zeta in H. fold s in H.
  destruct H as [[Hi E] | [[Hi [Hn E]] | [Hi [Hc [Hl E]]]]]; rewrite E; cbn [fst snd].
  - split; [split; [discriminate | tauto] |].
    split; [discriminate |]. intros e He. inversion He. split; [reflexivity | left; reflexivity].
  - split; [split; [discriminate | tauto] |].
    split; [discriminate |]. intros e He. inversion He. split; [reflexivity | right; reflexivity].
  - split; [split; [tauto | reflexivity] |].
    split; [| discriminate]. intros x Hx. inversion Hx. split; [reflexivity |].
    assert (G : Supabase.getSession
                  (Supabase.with_sessions st (Supabase.sessions st ++ [s])) (Schema.id new)
                = Supabase.Ok (Some read)).
    { unfold Supabase.getSession. cbn [Supabase.sessions Supabase.with_sessions].
      rewrite filter_app, (filter_absent_key Schema.id _ _ Hi). cbn [filter app].
      change (Schema.id s) with (Schema.id new). rewrite String.eqb_refl.
      unfold Supabase.embed. cbn [Supabase.scans Supabase.with_sessions].
      change (Schema.id s) with (Schema.id new).
      rewrite (no_scans_of_missing st _ Hrefs Hi). reflexivity. }
    split; [exact G |].
    unfold App.load. destruct (Schema.id new) as [| a i] eqn:Ei; [congruence |].
    cbn [Supabase.request snd]. rewrite G. reflexivity.
Qed.

Lemma createSession_round_trip_witness :
  snd (Supabase.createSession Scenario.st0
         {| Schema.id := "SESSION002"; Schema.course_id := "C1"; Schema.lecturer_id := "L1";
            Schema.date := "2024-03-05"; Schema.start_time := "09:00"; Schema.room := "B12";
            Schema.lat := None; Schema.lng := None; Schema.status := "closed" |})
  = Supabase.Ok
      {| Schema.id := "SESSION002"; Schema.course_id := "C1"; Schema.lecturer_id := "L1";
         Schema.date := "2024-03-05"; Schema.start_time := "09:00"; Schema.room := "B12";
         Schema.lat := None; Schema.lng := None; Schema.status := "active" |}.
Proof.
  assert (Hrefs : Integrity.refs_ok Scenario.st0).
  { exact (proj2 (proj2 (proj2 (proj2 (proj2 (sound_reachable Scenario.ops0)))))). }
  assert (Hid : "SESSION002" <> "") by discriminate.
  pose proof (createSession_round_trip Scenario.st0
         {| Schema.id := "SESSION002"; Schema.course_id := "C1"; Schema.lecturer_id := "L1";
            Schema.date := "2024-03-05"; Schema.start_time := "09:00"; Schema.room := "B12";
            Schema.lat := None; Schema.lng := None; Schema.status := "closed" |}
         Hrefs Hid) as H.
  cbv zeta in H. destruct H as [[_ H] _].
  assert (Hc : ~ In "SESSION002" (map Schema.id (Supabase.sessions Scenario.st0)) /\
               In "C1" (map Schema.c_id (Supabase.courses Scenario.st0)) /\
               In "L1" (map Schema.l_id (Supabase.lecturers Scenario.st0))).
  { vm_compute. split; [intros [E | []]; discriminate |]. split; left; reflexivity. }
  exact (H Hc).
Defined.

Section CascadeFacts.
Import Schema Supabase Integrity.

Lemma none_dead {A} (key : A -> string) (dead : A -> bool) (l : list A) (k : string) :
  existsb_eq key k (filter dead l) = false <->
  forall x, In x l -> key x = k -> dead x = false.
Proof.
  rewrite existsb_eq_false. split.
  - intros H x Hx E. destruct (dead x) eqn:D; [| reflexivity].
    exfalso. apply H. apply in_map_iff. exists x. split; [exact E |].
    apply filter_In. split; assumption.
  - intros H Hin. apply in_map_iff in Hin. destruct Hin as [x [E Hx]].
    apply filter_In in Hx. destruct Hx as [Hx D]. rewrite (H x Hx E) in D. discriminate.
Qed.

Lemma delete_sessions_scans (dead : SessionRow -> bool) (st : Store) (sc : ScanRow) :
  In sc (scans (delete_sessions dead st)) <->
  In sc (scans st) /\ forall s, In s (sessions st) -> id s = session_id sc -> dead s = false.
Proof.
  unfold delete_sessions. cbn [scans]. rewrite filter_In, negb_true_iff, none_dead. tauto.
Qed.

Lemma delete_sessions_sessions (dead : SessionRow -> bool) (st : Store) (s : SessionRow) :
  In s (sessions (delete_sessions dead st)) <-> In s (sessions st) /\ dead s = false.
Proof.
  unfold delete_sessions. cbn [sessions]. rewrite filter_In, negb_true_iff. tauto.
Qed.

Lemma delete_courses_sessions (dead : CourseRow -> bool) (st : Store) (s : SessionRow) :
  In s (sessions (delete_courses dead st)) <->
  In s (sessions st) /\
  forall c, In c (courses st) -> c_id c = course_id s -> dead c = false.
Proof.
  unfold delete_courses. cbn [sessions]. rewrite delete_sessions_sessions, none_dead. tauto.
Qed.

Lemma delete_courses_enrolments (dead : CourseRow -> bool) (st : Store) (e : EnrolmentRow) :
  In e (enrolments (delete_courses dead st)) <->
  In e (enrolments st) /\
  forall c, In c (courses st) -> c_id c = en_course_id e -> dead c = false.
Proof.
  unfold delete_courses, delete_sessions. cbn [enrolments courses].
  rewrite filter_In, negb_true_iff, none_dead. tauto.
Qed.

Lemma delete_courses_scans (dead : CourseRow -> bool) (st : Store) (sc : ScanRow) :
  In sc (scans (delete_courses dead st)) <->
  In sc (scans st) /\
  forall s, In s (sessions st) -> id s = session_id sc ->
            In s (sessions (delete_courses dead st)).
Proof.
  unfold delete_courses at 1. cbn [scans]. rewrite delete_sessions_scans.
  split; intros [H1 H2]; (split; [exact H1 |]); intros s Hs E.
  - apply delete_courses_sessions. split; [exact Hs |]. apply none_dead. exact (H2 s Hs E).
  - apply none_dead. exact (proj2 (proj1 (delete_courses_sessions _ _ _) (H2 s Hs E))).
Qed.

Lemma delete_courses_courses (dead : CourseRow -> bool) (st : Store) (c : CourseRow) :
  In c (courses (delete_courses dead st)) <-> In c (courses st) /\ dead c = false.
Proof.
  unfold delete_courses, delete_sessions. cbn [courses]. rewrite filter_In, negb_true_iff. tauto.
Qed.

Lemma delete_courses_frame (dead : CourseRow -> bool) (st : Store) :
  lecturers (delete_courses dead st) = lecturers st /\
  students (delete_courses dead st) = students st.
Proof. split; reflexivity. Qed.

Lemma roster_empty (st : Store) (c : string) :
  (forall e, In e (enrolments st) -> en_course_id e <> c) -> roster st c = [].
Proof.
  intro H. unfold roster, getStudentsForCourse.
  replace (filter (fun e => String.eqb (en_course_id e) c) (enrolments st)) with (@nil EnrolmentRow);
    [reflexivity |].
  symmetry. apply filter_absent_key. intro Hin. apply in_map_iff in Hin.
  destruct Hin as [e [E He]]. exact (H e He E).
Qed.

End CascadeFacts.

(** X12.  [deleteCourse] on a store with intact references removes the
    course, its sessions, the scans of those sessions and its enrolments,
    and nothing else: rows of other courses, the lecturers and the
    students stay; the course's roster is empty afterwards.  It returns
    normally also when there is no such course. *)
Theorem deleteCourse_cascade (st : Supabase.Store) (cid : string) :
  Integrity.refs_ok st ->
  let r := Supabase.deleteCourse st cid in
  snd r = Supabase.Ok tt /\
  Supabase.lecturers (fst r) = Supabase.lecturers st /\
  Supabase.students (fst r) = Supabase.students st /\
  (forall c, In c (Supabase.courses (fst r)) <->
             In c (Supabase.courses st) /\ Schema.c_id c <> cid) /\
  (forall s, In s (Supabase.sessions (fst r)) <->
             In s (Supabase.sessions st) /\ Schema.course_id s <> cid) /\
  (forall e, In e (Supabase.enrolments (fst r)) <->
             In e (Supabase.enrolments st) /\ Schema.en_course_id e <> cid) /\
  (forall sc, In sc (Supabase.scans (fst r)) <->
              In sc (Supabase.scans st) /\
              forall s, In s (Supabase.sessions st) ->
                        Schema.id s = Schema.session_id sc -> Schema.course_id s <> cid) /\
  Integrity.roster (fst r) cid = [].
Proof.
  intros [_ [Re [Rs _]]] r. subst r. unfold Supabase.deleteCourse. cbn [fst snd].
  set (dead := fun c : Schema.CourseRow => String.eqb (Schema.c_id c) cid).
  assert (Hdead : forall k, In k (map Schema.c_id (Supabase.courses st)) ->
            ((forall c, In c (Supabase.courses st) -> Schema.c_id c = k -> dead c = false)
             <-> k <> cid)).
  { intros k Hk. split.
    - intros H E. apply in_map_iff in Hk. destruct Hk as [c [Ec Hc]].
      specialize (H c Hc Ec). unfold dead in H. apply String.eqb_neq in H. congruence.
    - intros H c _ Ec. unfold dead. apply String.eqb_neq. congruence. }
  assert (Hse : forall s, In s (Supabase.sessions (Supabase.delete_courses dead st)) <->
                          In s (Supabase.sessions st) /\ Schema.course_id s <> cid).
  { intro s. rewrite delete_courses_sessions. split; intros [H1 H2]; (split; [exact H1 |]);
      apply (Hdead _ (proj1 (Rs s H1))); exact H2. }
  assert (Hen : forall e, In e (Supabase.enrolments (Supabase.delete_courses dead st)) <->
                          In e (Supabase.enrolments st) /\ Schema.en_course_id e <> cid).
  { intro e. rewrite delete_courses_enrolments. split; intros [H1 H2]; (split; [exact H1 |]);
      apply (Hdead _ (proj2 (Re e H1))); exact H2. }
  split; [reflexivity |]. split; [reflexivity |]. split; [reflexivity |].
  split.
  { intro c. rewrite delete_courses_courses. unfold dead. rewrite String.eqb_neq. tauto. }
  split; [exact Hse |]. split; [exact Hen |]. split.
  { intro sc. rewrite delete_courses_scans. split; intros [H1 H2]; (split; [exact H1 |]);
      intros s Hs E.
    - exact (proj2 (proj1 (Hse s) (H2 s Hs E))).
    - apply Hse. split; [exact Hs | exact (H2 s Hs E)]. }
  apply roster_empty. intros e He. exact (proj2 (proj1 (Hen e) He)).
Qed.

Lemma deleteCourse_cascade_witness :
  Integrity.roster (fst (Supabase.deleteCourse Scenario.st0 "C1")) "C1" = [].
Proof.
  assert (Hrefs : Integrity.refs_ok Scenario.st0).
  { exact (proj2 (proj2 (proj2 (proj2 (proj2 (sound_reachable Scenario.ops0)))))). }
  pose proof (deleteCourse_cascade Scenario.st0 "C1" Hrefs) as H.
  cbv zeta in H. destruct H as [_ [_ [_ [_ [_ [_ [_ H]]]]]]]. exact H.
Defined.

(** X13.  [deleteLecturer] does not keep the lecturer's courses: through
    the cascades of the schema it removes the lecturer, every course of
    the lecturer with its enrolments, every session of such a course or
    started by the lecturer, and the scans of the removed sessions.  All
    other rows and the students stay. *)
Theorem deleteLecturer_cascade (st : Supabase.Store) (lid : string) :
  let r := Supabase.deleteLecturer st lid in
  let own := fun k => exists c, In c (Supabase.courses st) /\ Schema.c_id c = k /\
                                Schema.c_lecturer_id c = lid in
  snd r = Supabase.Ok tt /\
  Supabase.students (fst r) = Supabase.students st /\
  (forall l, In l (Supabase.lecturers (fst r)) <->
             In l (Supabase.lecturers st) /\ Schema.l_id l <> lid) /\
  (forall c, In c (Supabase.courses (fst r)) <->
             In c (Supabase.courses st) /\ Schema.c_lecturer_id c <> lid) /\
  (forall s, In s (Supabase.sessions (fst r)) <->
             In s (Supabase.sessions st) /\ Schema.lecturer_id s <> lid /\
             ~ own (Schema.course_id s)) /\
  (forall e, In e (Supabase.enrolments (fst r)) <->
             In e (Supabase.enrolments st) /\ ~ own (Schema.en_course_id e)) /\
  (forall sc, In sc (Supabase.scans (fst r)) <->
              In sc (Supabase.scans st) /\
              forall s, In s (Supabase.sessions st) ->
                        Schema.id s = Schema.session_id sc ->
                        In s (Supabase.sessions (fst r))).
Proof.
  cbv zeta. unfold Supabase.deleteLecturer. cbn [fst snd].
  set (dead := fun c : Schema.CourseRow => String.eqb (Schema.c_lecturer_id c) lid).
  set (dead2 := fun s : Schema.SessionRow => String.eqb (Schema.lecturer_id s) lid).
  cbn [Supabase.lecturers Supabase.courses Supabase.students Supabase.enrolments
       Supabase.sessions Supabase.scans].
  assert (Hown : forall k,
            (forall c, In c (Supabase.courses st) -> Schema.c_id c = k -> dead c = false) <->
            ~ (exists c, In c (Supabase.courses st) /\ Schema.c_id c = k /\
                         Schema.c_lecturer_id c = lid)).
  { intro k. split.
    - intros H [c [Hc [Ek El]]]. specialize (H c Hc Ek). unfold dead in H.
      apply String.eqb_neq in H. contradiction.
    - intros H c Hc Ek. unfold dead. apply String.eqb_neq. intro El. apply H.
      exists c. repeat split; assumption. }
  assert (Hse : forall s,
            In s (Supabase.sessions (Supabase.delete_sessions dead2
                                       (Supabase.delete_courses dead st))) <->
            In s (Supabase.sessions st) /\ Schema.lecturer_id s <> lid /\
            ~ (exists c, In c (Supabase.courses st) /\ Schema.c_id c = Schema.course_id s /\
                         Schema.c_lecturer_id c = lid)).
  { intro s. rewrite delete_sessions_sessions, delete_courses_sessions, Hown.
    unfold dead2. rewrite String.eqb_neq. tauto. }
  split; [reflexivity |]. split; [reflexivity |]. split.
  { intro l. rewrite filter_In, negb_true_iff, String.eqb_neq. tauto. }
  split.
  { intro c. change (Supabase.courses (Supabase.delete_sessions dead2
                                         (Supabase.delete_courses dead st)))
      with (Supabase.courses (Supabase.delete_courses dead st)).
    rewrite delete_courses_courses. unfold dead. rewrite String.eqb_neq. tauto. }
  split; [exact Hse |]. split.
  { intro e. change (Supabase.enrolments (Supabase.delete_sessions dead2
                                            (Supabase.delete_courses dead st)))
      with (Supabase.enrolments (Supabase.delete_courses dead st)).
    rewrite delete_courses_enrolments, Hown. tauto. }
  intro sc. rewrite delete_sessions_scans, delete_courses_scans.
  split.
  - intros [[H1 H2] H3]. split; [exact H1 |]. intros s Hs E.
    apply delete_sessions_sessions. split; [exact (H2 s Hs E) |]. exact (H3 s (H2 s Hs E) E).
  - intros [H1 H2]. split; [split; [exact H1 |] |].
    + intros s Hs E. exact (proj1 (proj1 (delete_sessions_sessions _ _ _) (H2 s Hs E))).
    + intros s Hs E. apply delete_courses_sessions in Hs.
      exact (proj2 (proj1 (delete_sessions_sessions _ _ _) (H2 s (proj1 Hs) E))).
Qed.

Section SortFacts.
Import Schema Supabase Queries.

Lemma str_lt_asym (a b : string) : str_lt a b = true -> str_lt b a = false.
Proof.
  unfold str_lt. rewrite (String.compare_antisym a b).
  destruct (String.compare b a); cbn; congruence.
Qed.

Lemma str_lt_trans (a b c : string) :
  str_lt a b = true -> str_lt b c = true -> str_lt a c = true.
Proof.
  unfold str_lt. intros H1 H2.
  destruct (String.compare a b) eqn:E1; try discriminate.
  destruct (String.compare b c) eqn:E2; try discriminate.
  change String.compare with OrderedTypeEx.String_as_OT.cmp in *.
  apply OrderedTypeEx.String_as_OT.cmp_lt in E1, E2.
  pose proof (OrderedTypeEx.String_as_OT.lt_trans _ _ _ E1 E2) as E3.
  apply OrderedTypeEx.String_as_OT.cmp_lt in E3. rewrite E3. reflexivity.
Qed.

Variable A : Type.
Variable before : A -> A -> bool.

Lemma insert_by_perm (x : A) (l : list A) : Permutation (insert_by before x l) (x :: l).
Proof.
  induction l as [| y r IH]; [reflexivity |].
  cbn [insert_by]. destruct (before x y); [reflexivity |].
  etransitivity; [apply perm_skip, IH | apply perm_swap].
Qed.

Lemma sort_by_perm (l : list A) : Permutation (sort_by before l) l.
Proof.
  induction l as [| x l IH]; [reflexivity |].
  unfold sort_by in *. cbn [fold_right].
  etransitivity; [apply insert_by_perm | apply perm_skip, IH].
Qed.

Hypothesis before_asym : forall x y, before x y = true -> before y x = false.
Hypothesis before_trans :
  forall x y z, before x y = true -> before z y = false -> before z x = false.

Lemma insert_by_sorted (x : A) (l : list A) :
  in_order before l -> in_order before (insert_by before x l).
Proof.
  unfold in_order. induction l as [| y r IH]; intro H.
  - repeat constructor.
  - cbn [insert_by]. apply StronglySorted_inv in H. destruct H as [Hr Hy].
    destruct (before x y) eqn:E.
    + constructor; [constructor; assumption |].
      constructor; [exact (before_asym _ _ E) |].
      rewrite Forall_forall in *. intros z Hz.
      exact (before_trans _ _ _ E (Hy z Hz)).
    + constructor; [exact (IH Hr) |].
      rewrite Forall_forall in *. intros z Hz.
      apply (Permutation_in _ (insert_by_perm x r)) in Hz.
      destruct Hz as [Ez | Hz]; [subst z; exact E | exact (Hy z Hz)].
Qed.

Lemma sort_by_sorted (l : list A) : in_order before (sort_by before l).
Proof.
  induction l as [| x l IH]; [constructor |].
  unfold sort_by in *. cbn [fold_right]. apply insert_by_sorted, IH.
Qed.

End SortFacts.

Section SessionLists.
Import Schema Supabase Queries.

Lemma later_asym (x y : SessionRow) : later x y = true -> later y x = false.
Proof. unfold later. apply str_lt_asym. Qed.

Lemma later_trans (x y z : SessionRow) :
  later x y = true -> later z y = false -> later z x = false.
Proof.
  unfold later. intros H1 H2.
  destruct (str_lt (date x) (date z)) eqn:E; [| reflexivity].
  rewrite (str_lt_trans _ _ _ H1 E) in H2. discriminate.
Qed.

Lemma sorted_map {B C} (f : B -> C) (R : B -> B -> Prop) (R' : C -> C -> Prop) (l : list B) :
  (forall a b, R a b -> R' (f a) (f b)) ->
  StronglySorted R l -> StronglySorted R' (map f l).
Proof.
  intros HR H. induction H as [| a l Hl IH Ha]; [constructor |].
  cbn [map]. constructor; [exact IH |].
  rewrite Forall_forall in *. intros c Hc. apply in_map_iff in Hc.
  destruct Hc as [b [E Hb]]. subst c. exact (HR _ _ (Ha b Hb)).
Qed.

Lemma getSessions_eq (st : Store) (courseId : option string) :
  getSessions st courseId = Ok (map (embed st) (sort_by later (Queries.selected st courseId))).
Proof. destruct courseId as [[| a c] |]; reflexivity. Qed.

Lemma selected_In (st : Store) (courseId : option string) (r : SessionRow) :
  In r (Queries.selected st courseId) <->
  In r (sessions st) /\
  match courseId with
  | Some c => c = "" \/ course_id r = c
  | None => True
  end.
Proof.
  destruct courseId as [[| a c] |]; cbn [selected]; [tauto | | tauto].
  rewrite filter_In, String.eqb_eq. split; [tauto |].
  intros [H [N | E]]; [discriminate | tauto].
Qed.

End SessionLists.

(** X14.  [getSessions] returns exactly the sessions of the given course,
    or every session when the course id is missing or empty (the filter is
    skipped, as [getAllSessions] does), each once for a store with unique
    session ids, latest date first, and each with exactly the scans
    recorded for it. *)
Theorem getSessions_lists (st : Supabase.Store) (courseId : option string) :
  exists l,
    Queries.getSessions st courseId = Supabase.Ok l /\
    (forall s, In s l <->
               exists r, In r (Supabase.sessions st) /\ s = Supabase.embed st r /\
                         match courseId with
                         | Some c => c = "" \/ Schema.course_id r = c
                         | None => True
                         end) /\
    StronglySorted
      (fun a b => Queries.str_lt (Schema.date (Schema.row a)) (Schema.date (Schema.row b))
                  = false) l /\
    (forall s sc, In s l ->
                  (In sc (Helpers.scans_or_empty s) <->
                   In sc (Supabase.scans st) /\
                   Schema.session_id sc = Schema.id (Schema.row s))) /\
    (Inv.sessions_unique st -> NoDup (map (fun s => Schema.id (Schema.row s)) l)) /\
    (courseId = None \/ courseId = Some "" ->
     Queries.getAllSessions st = Supabase.Ok l).
Proof.
  eexists. split; [apply getSessions_eq |].
  assert (Hin : forall s,
            In s (map (Supabase.embed st)
                      (Queries.sort_by Queries.later (Queries.selected st courseId))) <->
            exists r, In r (Supabase.sessions st) /\ s = Supabase.embed st r /\
                      match courseId with
                      | Some c => c = "" \/ Schema.course_id r = c
                      | None => True
                      end).
  { intro s. rewrite in_map_iff. split.
    - intros [r [E Hr]]. exists r.
      apply (Permutation_in _ (sort_by_perm _ Queries.later _)) in Hr.
      apply selected_In in Hr. split; [tauto |]. split; [congruence | tauto].
    - intros [r [Hr [E Hc]]]. exists r. split; [congruence |].
      apply (Permutation_in _ (Permutation_sym (sort_by_perm _ Queries.later _))).
      apply selected_In. tauto. }
  split; [exact Hin |]. split; [| split; [| split]].
  - apply (sorted_map (Supabase.embed st)
             (fun a b => Queries.later b a = false)).
    + intros a b H. exact H.
    + apply (sort_by_sorted _ Queries.later later_asym later_trans).
  - intros s sc Hs. apply Hin in Hs. destruct Hs as [r [_ [E _]]]. subst s.
    cbn [Supabase.embed Helpers.scans_or_empty Schema.scans Schema.row].
    rewrite filter_In, String.eqb_eq. tauto.
  - intro Hu. rewrite map_map. cbn [Supabase.embed Schema.row].
    apply (Permutation_NoDup (l := map Schema.id (Queries.selected st courseId))).
    + apply Permutation_map, Permutation_sym, sort_by_perm.
    + destruct courseId as [[| a c] |]; cbn [Queries.selected]; try exact Hu.
      apply NoDup_map_filter. exact Hu.
  - intros [E | E]; subst courseId; reflexivity.
Qed.

Section CountAfterScan.
Import Schema Supabase Helpers.

Variables st st' : Store.
Variable now : Z.
Variable inp : ScanInput.
Variable r : ScanRow.
Hypothesis Hrec : recordScan st now inp = (st', Ok r).

Let i : string := in_session_id inp.
Let X : string := in_student_no inp.
Let N : Spec.Attendance :=
  if String.eqb (in_status inp) "late" then Spec.Late else Spec.Present.

(** What a successful insert did. *)
Lemma recordScan_ok :
  existsb (same_key i X) (scans st) = false /\
  session_id r = i /\ student_no r = X /\ sc_status r = in_status inp /\
  in_minutes_late inp = Some (minutes_late r) /\
  sessions st' = sessions st /\ scans st' = (scans st ++ [r])%list.
Proof.
  revert Hrec. unfold recordScan. fold i X.
  destruct (in_minutes_late inp) as [m |]; [| intro H; inversion H].
  destruct (existsb (same_key i X) (scans st)); [intro H; inversion H |].
  destruct (negb _); [intro H; inversion H |].
  intro H. inversion H. subst. cbn. repeat split; reflexivity.
Qed.

Lemma embed_after (s : SessionRow) :
  scans_or_empty (embed st' s)
  = (scans_or_empty (embed st s) ++ (if String.eqb i (id s) then [r] else []))%list.
Proof.
  destruct recordScan_ok as [_ [Ei [_ [_ [_ [_ Esc]]]]]].
  unfold embed. cbn [scans_or_empty Schema.scans]. rewrite Esc, filter_app.
  cbn [filter]. rewrite Ei. reflexivity.
Qed.

Lemma attendance_other_session (Y : string) (s : SessionRow) :
  id s <> i -> Spec.attendance Y (embed st' s) = Spec.attendance Y (embed st s).
Proof.
  intro H. unfold Spec.attendance. rewrite embed_after.
  destruct (String.eqb_spec i (id s)) as [E | E]; [congruence |].
  rewrite app_nil_r. reflexivity.
Qed.

Lemma find_app_miss {A} (p : A -> bool) (l : list A) (x : A) :
  p x = false -> find p (l ++ [x]) = find p l.
Proof.
  intro H. induction l as [| y l IH]; cbn [find app]; [rewrite H; reflexivity |].
  destruct (p y); [reflexivity | exact IH].
Qed.

Lemma attendance_other_student (Y : string) (s : SessionRow) :
  Y <> X -> Spec.attendance Y (embed st' s) = Spec.attendance Y (embed st s).
Proof.
  intro H. unfold Spec.attendance. rewrite embed_after.
  destruct (String.eqb i (id s)); [| rewrite app_nil_r; reflexivity].
  rewrite find_app_miss; [reflexivity |].
  destruct recordScan_ok as [_ [_ [Ex _]]]. rewrite Ex. apply String.eqb_neq. congruence.
Qed.

Lemma attendance_before (s : SessionRow) :
  id s = i -> Spec.attendance X (embed st s) = Spec.Absent.
Proof.
  intro E. unfold Spec.attendance, embed. cbn [scans_or_empty Schema.scans].
  rewrite E, find_in_session.
  destruct recordScan_ok as [Hnew _]. apply find_none_existsb in Hnew. rewrite Hnew.
  reflexivity.
Qed.

Lemma attendance_after (s : SessionRow) :
  id s = i -> Spec.attendance X (embed st' s) = N.
Proof.
  intro E. unfold Spec.attendance. rewrite embed_after, <- E, String.eqb_refl.
  unfold embed. cbn [scans_or_empty Schema.scans]. rewrite E.
  destruct recordScan_ok as [Hnew [Ei [Ex [Es _]]]].
  rewrite (find_snoc_new (fun sc => String.eqb (student_no sc) X)).
  - rewrite Es. reflexivity.
  - apply find_none_existsb. rewrite find_in_session. apply find_none_existsb. exact Hnew.
  - rewrite Ex. apply String.eqb_refl.
Qed.

Lemma count_map (a : Spec.Attendance) (Y : string) (e : SessionRow -> Session)
      (s : SessionRow) (l : list SessionRow) :
  Spec.count a Y (map e (s :: l))
  = ((if Spec.is_att (Spec.attendance Y (e s)) a then 1 else 0) + Spec.count a Y (map e l))%nat.
Proof.
  unfold Spec.count. cbn [map filter].
  destruct (Spec.is_att _ a); reflexivity.
Qed.

Lemma count_untouched (a : Spec.Attendance) (Y : string) (l : list SessionRow) :
  (Y <> X \/ forall s, In s l -> id s <> i) ->
  Spec.count a Y (map (embed st') l) = Spec.count a Y (map (embed st) l).
Proof.
  intro H. induction l as [| s l IH]; [reflexivity |].
  rewrite !count_map. rewrite IH.
  - f_equal. destruct H as [H | H].
    + rewrite attendance_other_student by exact H. reflexivity.
    + rewrite attendance_other_session by (apply H; left; reflexivity). reflexivity.
  - destruct H as [H | H]; [left; exact H | right].
    intros s' Hs'. apply H. right. exact Hs'.
Qed.

Lemma count_moved (l : list SessionRow) (s0 : SessionRow) :
  NoDup (map id l) -> In s0 l -> id s0 = i ->
  forall a,
    (Spec.count a X (map (embed st') l) + (if Spec.is_att Spec.Absent a then 1 else 0)
     = Spec.count a X (map (embed st) l) + (if Spec.is_att N a then 1 else 0))%nat.
Proof.
  induction l as [| s l IH]; intros Hnd Hin E a; [destruct Hin |].
  cbn [map] in Hnd. apply NoDup_cons_iff in Hnd. destruct Hnd as [Hs Hl].
  rewrite !count_map.
  destruct (string_dec (id s) i) as [Es | Es].
  - rewrite (attendance_before s Es), (attendance_after s Es).
    rewrite (count_untouched a X l).
    + lia.
    + right. intros s' Hs' E'. apply Hs. rewrite Es, <- E'. apply in_map. exact Hs'.
  - rewrite (attendance_other_session X s Es).
    destruct Hin as [Hin | Hin]; [subst s0; contradiction |].
    specialize (IH Hl Hin E a). lia.
Qed.

End CountAfterScan.

Section StatsAfterScan.
Import Schema Supabase Helpers Queries.

Lemma filter_map_rows (st : Store) (c : string) (l : list SessionRow) :
  filter (fun s => String.eqb (course_id (row s)) c) (map (embed st) l)
  = map (embed st) (filter (fun s => String.eqb (course_id s) c) l).
Proof.
  induction l as [| s l IH]; [reflexivity |].
  cbn [map filter embed row]. destruct (String.eqb (course_id s) c); cbn [map]; rewrite <- IH;
    reflexivity.
Qed.

Lemma stats_of_rows (st : Store) (Y c : string) (l : list SessionRow) :
  let cs := filter (fun s => String.eqb (course_id s) c) l in
  studentCourseStats Y c (map (embed st) l)
  = {| total := List.length cs;
       present := Spec.count Spec.Present Y (map (embed st) cs);
       late := Spec.count Spec.Late Y (map (embed st) cs);
       absent := Spec.count Spec.Absent Y (map (embed st) cs) |}.
Proof.
  cbv zeta. pose proof (studentCourseStats_eq Y c (map (embed st) l)) as H. cbv zeta in H.
  rewrite H, filter_map_rows, length_map. reflexivity.
Qed.

End StatsAfterScan.

(** X15.  A check-in shows in the report figures.  When [recordScan]
    succeeded for student X in a session of course c, the statistics the
    reports compute from [getSessions(c)] change for X by exactly one
    session: one absence less, and one late more if the scan is 'late',
    one present more otherwise, with the same total; the figures of every
    other student are the same as before. *)
Theorem checkin_moves_one_counter (st st' : Supabase.Store) (now : Z)
        (inp : Supabase.ScanInput) (r : Schema.ScanRow) (s0 : Schema.SessionRow)
        (l l' : list Schema.Session) :
  Inv.sessions_unique st ->
  Supabase.recordScan st now inp = (st', Supabase.Ok r) ->
  In s0 (Supabase.sessions st) ->
  Schema.id s0 = Supabase.in_session_id inp ->
  Queries.getSessions st (Some (Schema.course_id s0)) = Supabase.Ok l ->
  Queries.getSessions st' (Some (Schema.course_id s0)) = Supabase.Ok l' ->
  let c := Schema.course_id s0 in
  let X := Supabase.in_student_no inp in
  let before := Helpers.studentCourseStats X c l in
  let after := Helpers.studentCourseStats X c l' in
  Helpers.total after = Helpers.total before /\
  Helpers.absent before = S (Helpers.absent after) /\
  (if String.eqb (Supabase.in_status inp) "late"
   then Helpers.late after = S (Helpers.late before) /\
        Helpers.present after = Helpers.present before
   else Helpers.present after = S (Helpers.present before) /\
        Helpers.late after = Helpers.late before) /\
  (forall Y, Y <> X ->
     Helpers.studentCourseStats Y c l' = Helpers.studentCourseStats Y c l).
Proof.
  intros Hu Hrec Hin Eid Hl Hl' c X before after. subst before after c.
  rewrite getSessions_eq in Hl, Hl'. injection Hl as <-. injection Hl' as <-.
  set (c := Schema.course_id s0) in *.
  destruct (recordScan_ok st st' now inp r Hrec) as [_ [_ [_ [_ [_ [Ese _]]]]]].
  rewrite Ese.
  match goal with
  | |- context [Queries.sort_by Queries.later ?x] =>
      change x with (Queries.selected st (Some c))
  end.
  set (rows := Queries.sort_by Queries.later (Queries.selected st (Some c))).
  assert (Hperm : Permutation rows (Queries.selected st (Some c))) by apply sort_by_perm.
  set (cs := filter (fun s => String.eqb (Schema.course_id s) c) rows).
  assert (Hnd : NoDup (map Schema.id cs)).
  { apply NoDup_map_filter.
    apply (Permutation_NoDup (l := map Schema.id (Queries.selected st (Some c)))).
    - apply Permutation_map, Permutation_sym, Hperm.
    - unfold Queries.selected. destruct c; [exact Hu | apply NoDup_map_filter; exact Hu]. }
  assert (Hs0 : In s0 cs).
  { apply filter_In. split; [| apply String.eqb_refl].
    apply (Permutation_in _ (Permutation_sym Hperm)). apply selected_In.
    split; [exact Hin | right; reflexivity]. }
  rewrite !stats_of_rows. fold cs. cbn [Helpers.total Helpers.absent Helpers.late Helpers.present].
  pose proof (count_moved st st' now inp r Hrec cs s0 Hnd Hs0 Eid) as M. subst X.
  split; [reflexivity |]. split; [| split].
  - specialize (M Spec.Absent). cbn [Spec.is_att] in M.
    destruct (String.eqb (Supabase.in_status inp) "late"); cbn [Spec.is_att] in M; lia.
  - pose proof (M Spec.Late) as ML. pose proof (M Spec.Present) as MP.
    destruct (String.eqb (Supabase.in_status inp) "late"); cbn [Spec.is_att] in ML, MP;
      split; lia.
  - intros Y HY. rewrite !stats_of_rows. fold cs.
    rewrite !(count_untouched st st' now inp r Hrec _ Y cs (or_introl HY)). reflexivity.
Qed.

Lemma checkin_moves_one_counter_witness :
  Helpers.studentCourseStats "20210001" "C1"
    (map (Supabase.embed (fst Scenario.first))
         (Queries.sort_by Queries.later (Queries.selected (fst Scenario.first) (Some "C1"))))
  = {| Helpers.total := 1; Helpers.present := 0; Helpers.late := 1; Helpers.absent := 0 |}.
Proof.
  assert (Hrec : exists inp r,
            Supabase.recordScan Scenario.st0 1709536440000 inp = (fst Scenario.first, Supabase.Ok r)
            /\ Supabase.in_session_id inp = "SESSION001"
            /\ Supabase.in_student_no inp = "20210001"
            /\ Supabase.in_status inp = "late").
  { eexists {| Supabase.in_session_id := "SESSION001"; Supabase.in_student_no := "20210001";
               Supabase.in_surname_initials := "Khumalo T.S."; Supabase.in_status := "late";
               Supabase.in_minutes_late := Some 14;
               Supabase.in_lat := Some (fst App.campus);
               Supabase.in_lng := Some (snd App.campus) |}.
    eexists. split; [vm_compute; reflexivity |]. repeat split. }
  destruct Hrec as [inp [r [Hrec [E1 [E2 E3]]]]].
  assert (Hu : Inv.sessions_unique Scenario.st0).
  { exact (proj1 (proj2 (wf_reachable Scenario.ops0))). }
  assert (Hin : In Scenario.ses (Supabase.sessions Scenario.st0)).
  { vm_compute. left. reflexivity. }
  pose proof (checkin_moves_one_counter Scenario.st0 (fst Scenario.first) 1709536440000
                inp r Scenario.ses _ _ Hu Hrec Hin (eq_sym E1)
                (getSessions_eq Scenario.st0 (Some "C1"))
                (getSessions_eq (fst Scenario.first) (Some "C1"))) as H.
  cbv zeta in H. rewrite E2, E3 in H. cbn [String.eqb Ascii.eqb Bool.eqb] in H.
  destruct H as [Ht [Ha [[Hl Hp] _]]].
  change (Schema.course_id Scenario.ses) with "C1" in *.
  destruct (Helpers.studentCourseStats "20210001" "C1" _) as [t p l a] in *.
  cbn [Helpers.total Helpers.present Helpers.late Helpers.absent] in *.
  revert Ht Ha Hl Hp. vm_compute. intros. f_equal; lia.
Defined.

Section ScanStatusFacts.
Import Helpers.


End ScanStatusFacts.


(** X17.  A data row of the exported register carries the figures of
    [studentCourseStats] for that student and course: the same present,
    late, absent and total counts, however the export sorts the sessions,
    one cell per session of the course, and as percentage
    [pct(present + late, total)]. *)
Theorem export_row_matches_stats (sortByDate : list Schema.Session -> list Schema.Session)
        (course : Schema.CourseRow) (sessions : list Schema.Session)
        (students : list Schema.StudentRow) :
  (forall l, Permutation (sortByDate l) l) ->
  List.length (Excel.dataRows sortByDate course sessions students) = List.length students /\
  forall k st, nth_error students k = Some st ->
    exists r, nth_error (Excel.dataRows sortByDate course sessions students) k = Some r /\
      let s := Helpers.studentCourseStats (Schema.st_student_no st) (Schema.c_id course)
                                          sessions in
      Excel.r_present r = Helpers.present s /\
      Excel.r_late r = Helpers.late s /\
      Excel.r_absent r = Helpers.absent s /\
      Excel.r_total r = Helpers.total s /\
      (Excel.r_present r + Excel.r_late r + Excel.r_absent r = Excel.r_total r)%nat /\
      List.length (Excel.r_cells r) = Helpers.total s /\
      Excel.r_attPct r
      = Helpers.pct (Z.of_nat (Helpers.present s) + Z.of_nat (Helpers.late s))
                    (Z.of_nat (Helpers.total s)).
Proof.
  intro Hperm. unfold Excel.dataRows. cbv zeta. split; [apply length_map |].
  intros k st Hk. eexists. split; [exact (map_nth_error _ _ _ Hk) |].
  set (cs := filter _ sessions).
  pose proof (dataRow_counts (sortByDate cs) st) as H. cbv zeta in H.
  destruct H as [Hp [Hl [Ha [Ht [Hc Hpct]]]]].
  pose proof (studentCourseStats_eq (Schema.st_student_no st) (Schema.c_id course) sessions)
    as Hs. cbv zeta in Hs. fold cs in Hs. rewrite Hs.
  cbn [Helpers.present Helpers.late Helpers.absent Helpers.total].
  rewrite (count_perm _ Spec.Present _ _ (Hperm cs)) in *.
  rewrite (count_perm _ Spec.Late _ _ (Hperm cs)) in *.
  rewrite (count_perm _ Spec.Absent _ _ (Hperm cs)) in *.
  rewrite (Permutation_length (Hperm cs)) in *.
  split; [exact Hp |]. split; [exact Hl |]. split; [exact Ha |]. split; [exact Ht |].
  split; [rewrite Hp, Hl, Ha, Ht; apply count_partition |].
  split; [exact Hc | exact Hpct].
Qed.

Lemma export_row_matches_stats_witness :
  List.length
    (Excel.dataRows (fun l => l) Scenario.crs [Scenario.with_scan; Scenario.without_scan]
                    [{| Schema.st_id := "S_20210001"; Schema.st_student_no := "20210001";
                        Schema.st_surname_initials := "Khumalo T.S." |}])
  = 1%nat.
Proof.
  pose proof (export_row_matches_stats (fun l => l) Scenario.crs
                [Scenario.with_scan; Scenario.without_scan]
                [{| Schema.st_id := "S_20210001"; Schema.st_student_no := "20210001";
                    Schema.st_surname_initials := "Khumalo T.S." |}]
                (fun l => Permutation_refl l)) as H.
  destruct H as [H _]. exact H.
Defined.

(** X18.  The at-risk list of the reports screen and the at-risk flag of
    the exported register agree for a course that has sessions: a student
    is listed exactly when the student's row is flagged.  For a course
    without sessions they differ: the export flags every student (the
    percentage counts as 0), the screen lists none. *)
Theorem atRisk_screen_and_export (sortByDate : list Schema.Session -> list Schema.Session)
        (course : Schema.CourseRow) (sessions : list Schema.Session)
        (students : list Schema.StudentRow) (st : Schema.StudentRow) :
  (forall l, Permutation (sortByDate l) l) ->
  let cs := filter (fun s => String.eqb (Schema.course_id (Schema.row s)) (Schema.c_id course))
                   sessions in
  let r := Excel.dataRow (sortByDate cs) st in
  let listed := In st (Screens.atRisk (Schema.c_id course) sessions students) in
  (cs <> [] ->
   (listed <-> In st students /\ Excel.r_atRisk r = "YES — INTERVENTION NEEDED")) /\
  (cs = [] ->
   Excel.r_atRisk r = "YES — INTERVENTION NEEDED" /\
   Screens.atRisk (Schema.c_id course) sessions students = []).
Proof.
  intros Hperm cs r listed. subst r listed.
  pose proof (dataRow_counts (sortByDate cs) st) as H. cbv zeta in H.
  destruct H as [_ [_ [_ [_ [_ Hpct]]]]].
  rewrite (count_perm _ Spec.Present _ _ (Hperm cs)) in Hpct.
  rewrite (count_perm _ Spec.Late _ _ (Hperm cs)) in Hpct.
  rewrite (Permutation_length (Hperm cs)) in Hpct.
  assert (Hflag : Excel.r_atRisk (Excel.dataRow (sortByDate cs) st)
                  = if Excel.lt_num (Excel.r_attPct (Excel.dataRow (sortByDate cs) st)) 80
                    then "YES — INTERVENTION NEEDED" else "No").
  { unfold Excel.dataRow. destruct (fold_left _ _ _) as [cells [[p l] a]]. reflexivity. }
  assert (Hstats : forall x,
            Helpers.studentCourseStats (Schema.st_student_no x) (Schema.c_id course) sessions
            = {| Helpers.total := List.length cs;
                 Helpers.present := Spec.count Spec.Present (Schema.st_student_no x) cs;
                 Helpers.late := Spec.count Spec.Late (Schema.st_student_no x) cs;
                 Helpers.absent := Spec.count Spec.Absent (Schema.st_student_no x) cs |}).
  { intro x. apply studentCourseStats_eq. }
  split.
  - intro Hne. unfold Screens.atRisk. rewrite filter_In, Hstats.
    cbn [Helpers.total Helpers.present Helpers.late].
    assert (Hpos : Nat.ltb 0 (List.length cs) = true).
    { apply Nat.ltb_lt. destruct cs; [contradiction | cbn; lia]. }
    rewrite Hpos, Nat2Z.inj_add, <- Hpct, Hflag. cbn [andb].
    destruct (Excel.lt_num _ 80); split; intros [H1 H2]; (split; [exact H1 |]);
      first [reflexivity | discriminate].
  - intro He. split.
    + rewrite Hflag, Hpct, He. reflexivity.
    + unfold Screens.atRisk.
      rewrite (filter_ext _ (fun _ => false)); [induction students; auto |].
      intro x. rewrite Hstats, He. reflexivity.
Qed.

Lemma atRisk_screen_and_export_witness :
  Screens.atRisk "C1" []
    [{| Schema.st_id := "S_20210001"; Schema.st_student_no := "20210001";
        Schema.st_surname_initials := "Khumalo T.S." |}] = [] /\
  Excel.r_atRisk
    (Excel.dataRow []
       {| Schema.st_id := "S_20210001"; Schema.st_student_no := "20210001";
          Schema.st_surname_initials := "Khumalo T.S." |})
  = "YES — INTERVENTION NEEDED".
Proof.
  pose proof (atRisk_screen_and_export (fun l => l) Scenario.crs []
                [{| Schema.st_id := "S_20210001"; Schema.st_student_no := "20210001";
                    Schema.st_surname_initials := "Khumalo T.S." |}]
                {| Schema.st_id := "S_20210001"; Schema.st_student_no := "20210001";
                   Schema.st_surname_initials := "Khumalo T.S." |}
                (fun l => Permutation_refl l)) as H.
  cbv zeta in H. destruct H as [_ H]. destruct (H eq_refl) as [H1 H2].
  split; [exact H2 | exact H1].
Defined.

Section LoginFacts.
Import Schema Supabase Queries Screens.
Variable toLowerCase : string -> string.

(** The test [LoginScreen.handle] applies to each lecturer. *)
Lemma login_test (id password : string) (l : LecturerRow) :
  String.eqb (toLowerCase (l_email l)) (toLowerCase id)
  && existsb (String.eqb password) (l_passwords l) = true <->
  toLowerCase (l_email l) = toLowerCase id /\ In password (l_passwords l).
Proof.
  rewrite andb_true_iff, String.eqb_eq, existsb_exists. split.
  - intros [H1 [p [Hp E]]]. apply String.eqb_eq in E. subst p. tauto.
  - intros [H1 H2]. split; [exact H1 |]. exists password. split; [exact H2 |].
    apply String.eqb_refl.
Qed.

Lemma getLecturers_In (st : Store) (l : LecturerRow) :
  In l (sort_by (fun x y => str_lt (l_name x) (l_name y)) (lecturers st)) <->
  In l (lecturers st).
Proof.
  split; apply Permutation_in; [| apply Permutation_sym]; apply sort_by_perm.
Qed.

Lemma lecturerLogin_cases (st : Store) (id password : string) :
  (exists lec, lecturerLogin toLowerCase st None id password = LoggedIn lec /\
               In lec (lecturers st) /\
               toLowerCase (l_email lec) = toLowerCase id /\
               In password (l_passwords lec)) \/
  (lecturerLogin toLowerCase st None id password
   = Refused "Incorrect email or password. Contact admin if all passwords are lost." /\
   forall lec, In lec (lecturers st) ->
               ~ (toLowerCase (l_email lec) = toLowerCase id /\ In password (l_passwords lec))).
Proof.
  unfold lecturerLogin, getLecturers. cbn [request snd].
  destruct (find _ _) as [lec |] eqn:Ef.
  - left. exists lec. apply find_some in Ef. destruct Ef as [Hin Ht].
    apply login_test in Ht. apply getLecturers_In in Hin. tauto.
  - right. split; [reflexivity |]. intros lec Hin Ht.
    apply getLecturers_In in Hin. pose proof (find_none _ _ Ef lec Hin) as Hn.
    cbn beta in Hn. apply login_test in Ht. congruence.
Qed.

End LoginFacts.

(** X19.  The lecturer login succeeds exactly when some stored lecturer
    has an email whose lower-case form is that of the entered one and has
    the entered password, compared as it is, among the current passwords;
    the lecturer it logs in is such a one, so a lecturer without passwords
    cannot log in.  Entries with the same lower-case form log in alike,
    and a failed [getLecturers] request shows the connection error
    whatever was entered.  This holds whatever [toLowerCase] does to a
    string. *)
Theorem lecturerLogin_correct (toLowerCase : string -> string) (st : Supabase.Store)
        (id password : string) :
  ((exists lec, Screens.lecturerLogin toLowerCase st None id password = Screens.LoggedIn lec)
   <->
   (exists lec, In lec (Supabase.lecturers st) /\
                toLowerCase (Schema.l_email lec) = toLowerCase id /\
                In password (Schema.l_passwords lec))) /\
  (forall lec, Screens.lecturerLogin toLowerCase st None id password = Screens.LoggedIn lec ->
               In lec (Supabase.lecturers st) /\
               toLowerCase (Schema.l_email lec) = toLowerCase id /\
               In password (Schema.l_passwords lec)) /\
  (forall id', toLowerCase id' = toLowerCase id ->
               Screens.lecturerLogin toLowerCase st None id' password
               = Screens.lecturerLogin toLowerCase st None id password) /\
  (forall e, Screens.lecturerLogin toLowerCase st (Some e) id password
             = Screens.Refused "Connection error. Check your internet and try again.").
Proof.
  split; [| split; [| split]].
  - destruct (lecturerLogin_cases toLowerCase st id password) as [[lec [E H]] | [E H]].
    + split; intros _; exists lec; tauto.
    + split.
      * intros [lec E']. rewrite E in E'. discriminate.
      * intros [lec [Hin Ht]]. exfalso. exact (H lec Hin Ht).
  - intros lec E.
    destruct (lecturerLogin_cases toLowerCase st id password) as [[lec' [E' H]] | [E' H]];
      rewrite E' in E; [| discriminate].
    inversion E. subst lec'. exact H.
  - intros id' E. unfold Screens.lecturerLogin. rewrite E. reflexivity.
  - intro e. reflexivity.
Qed.

Section PasswordFacts.
Import Schema Supabase Queries Screens.

Lemma updateLecturerPasswords_ok (st st' : Store) (lid : string) (ps : list string)
      (l' : LecturerRow) :
  updateLecturerPasswords st lid ps = (st', Ok l') ->
  exists l, In l (lecturers st) /\ l_id l = lid /\ l' = set_passwords l ps /\
            lecturers st'
            = map (fun x => if String.eqb (l_id x) lid then set_passwords x ps else x)
                  (lecturers st) /\
            courses st' = courses st /\ students st' = students st /\
            enrolments st' = enrolments st /\ sessions st' = sessions st /\
            scans st' = scans st.
Proof.
  unfold updateLecturerPasswords.
  destruct (filter _ (lecturers st)) as [| l [| l2 r]] eqn:Ef; intro H; inversion H.
  exists l.
  assert (Hin : In l (filter (fun l => String.eqb (l_id l) lid) (lecturers st)))
    by (rewrite Ef; left; reflexivity).
  apply filter_In in Hin. destruct Hin as [Hin E]. apply String.eqb_eq in E.
  repeat split; assumption.
Qed.

End PasswordFacts.

(** X20.  Regenerating a lecturer's passwords replaces them: after a
    successful [updateLecturerPasswords] a login as that lecturer needs one
    of the new passwords, so every old password that is not among the new
    ones stops working; each new password logs in with the lecturer's
    email; the ids and emails of the lecturers and all other tables are
    unchanged. *)
Theorem regenerate_replaces_passwords (st st' : Supabase.Store) (lid : string)
        (ps : list string) (l' : Schema.LecturerRow) :
  Queries.updateLecturerPasswords st lid ps = (st', Supabase.Ok l') ->
  Schema.l_id l' = lid /\ Schema.l_passwords l' = ps /\ In l' (Supabase.lecturers st') /\
  (forall (toLowerCase : string -> string) id p lec,
     Screens.lecturerLogin toLowerCase st' None id p = Screens.LoggedIn lec ->
     (Schema.l_id lec = lid -> In p ps) /\
     (Schema.l_id lec <> lid -> In lec (Supabase.lecturers st))) /\
  (forall (toLowerCase : string -> string) p, In p ps ->
     exists lec,
       Screens.lecturerLogin toLowerCase st' None (Schema.l_email l') p
       = Screens.LoggedIn lec) /\
  map Schema.l_id (Supabase.lecturers st') = map Schema.l_id (Supabase.lecturers st) /\
  map Schema.l_email (Supabase.lecturers st') = map Schema.l_email (Supabase.lecturers st) /\
  Supabase.courses st' = Supabase.courses st /\
  Supabase.sessions st' = Supabase.sessions st /\
  Supabase.scans st' = Supabase.scans st.
Proof.
  intro H. apply updateLecturerPasswords_ok in H.
  destruct H as [l [Hin [Eid [El' [Elec [Ec [_ [_ [Ese Esc]]]]]]]]].
  assert (Hin' : In l' (Supabase.lecturers st')).
  { rewrite Elec. apply in_map_iff. exists l. rewrite Eid, String.eqb_refl. split; [auto | exact Hin]. }
  split; [subst l'; exact Eid |]. split; [subst l'; reflexivity |]. split; [exact Hin' |].
  split; [| split; [| split; [| split]]].
  - intros toLowerCase id p lec E.
    destruct (lecturerLogin_cases toLowerCase st' id p) as [[lec' [E' [Hl [_ Hp]]]] | [E' _]];
      rewrite E' in E; [| discriminate].
    inversion E. subst lec'. rewrite Elec in Hl. apply in_map_iff in Hl.
    destruct Hl as [x [Ex Hx]].
    destruct (String.eqb_spec (Schema.l_id x) lid) as [Exid | Exid].
    + subst lec. cbn [Queries.set_passwords Schema.l_id Schema.l_passwords] in *.
      split; [intros _; exact Hp | intro N; contradiction].
    + subst lec. split; [intro N; contradiction | intros _; exact Hx].
  - intros toLowerCase p Hp.
    destruct (lecturerLogin_cases toLowerCase st' (Schema.l_email l') p)
      as [[lec [E _]] | [_ N]].
    + exists lec. exact E.
    + exfalso. apply (N l' Hin'). split; [reflexivity |]. subst l'. exact Hp.
  - rewrite Elec, map_map. apply map_ext. intro x.
    destruct (String.eqb (Schema.l_id x) lid); reflexivity.
  - rewrite Elec, map_map. apply map_ext. intro x.
    destruct (String.eqb (Schema.l_id x) lid); reflexivity.
  - repeat split; assumption.
Qed.

Lemma regenerate_replaces_passwords_witness :
  exists st' l',
    Queries.updateLecturerPasswords Scenario.st0 "L1" ["B4u57rdC"; "TLfumy74"] = (st', Supabase.Ok l')
    /\ Schema.l_passwords l' = ["B4u57rdC"; "TLfumy74"].
Proof.
  eexists. eexists.
  assert (H : Queries.updateLecturerPasswords Scenario.st0 "L1" ["B4u57rdC"; "TLfumy74"]
              = (fst (Queries.updateLecturerPasswords Scenario.st0 "L1" ["B4u57rdC"; "TLfumy74"]),
                 Supabase.Ok (Queries.set_passwords Scenario.lec ["B4u57rdC"; "TLfumy74"]))).
  { vm_compute. reflexivity. }
  split; [exact H |].
  destruct (regenerate_replaces_passwords _ _ _ _ _ H) as [_ [E _]]. exact E.
Defined.

Section AddLecturerFacts.
Import Schema Supabase Queries Screens.
Variable toLowerCase : string -> string.

Lemma addLecturer_cases (st : Store) (fault : option Error) (loaded : list LecturerRow)
      (form : LecturerForm) (newId : string) (passwords : list string) :
  let lec := {| l_id := newId; l_name := JS.trim (f_name form);
                l_email := toLowerCase (JS.trim (f_email form));
                l_department := JS.trim (f_department form);
                l_passwords := passwords |} in
  (addLecturer toLowerCase st fault loaded form newId passwords = (st, None) /\
   (validate toLowerCase loaded form = false \/ fault <> None \/
    In newId (map l_id (lecturers st)) \/ In (l_email lec) (map l_email (lecturers st)))) \/
  (validate toLowerCase loaded form = true /\ fault = None /\
   ~ In newId (map l_id (lecturers st)) /\
   ~ In (l_email lec) (map l_email (lecturers st)) /\
   addLecturer toLowerCase st fault loaded form newId passwords
   = ({| lecturers := lecturers st ++ [lec]; courses := courses st;
         students := students st; enrolments := enrolments st;
         sessions := sessions st; scans := scans st; scans_seq := scans_seq st |},
      Some lec)).
Proof.
  cbv zeta. unfold addLecturer.
  destruct (validate toLowerCase loaded form) eqn:Ev; cbn [negb];
    [| left; split; [reflexivity | left; reflexivity]].
  destruct fault as [e |]; cbn [request];
    [left; split; [reflexivity | right; left; discriminate] |].
  unfold createLecturer. cbn [l_id l_email].
  destruct (existsb_eq l_id newId (lecturers st)) eqn:E1; cbn [orb].
  { left. split; [reflexivity |]. right. right. left. apply existsb_eq_In. exact E1. }
  destruct (existsb_eq l_email _ (lecturers st)) eqn:E2.
  { left. split; [reflexivity |]. right. right. right. apply existsb_eq_In. exact E2. }
  right. apply existsb_eq_false in E1. apply existsb_eq_false in E2.
  repeat split; assumption.
Qed.

End AddLecturerFacts.

(** X21.  Adding a lecturer and signing in.  [addLecturer] gets a new
    lecturer back exactly when the form is valid (name and department not
    blank, an '@' in the email, no loaded lecturer whose email has the
    lower-case form of the entered one), the request is answered and the
    id and the email to store are not in the table yet; when the request
    is answered with a refusal or the form is invalid, nothing is written.
    What is stored is the trimmed name and department and the lower-case
    form of the trimmed email.  A login with an entry that has the
    lower-case form of the stored email and one of the issued passwords
    then succeeds; it signs in the new lecturer unless an earlier lecturer
    answers to the same entry and password.  This holds whatever
    [toLowerCase] does to a string. *)
Theorem addLecturer_then_login (toLowerCase : string -> string) (st : Supabase.Store)
        (fault : option Supabase.Error) (loaded : list Schema.LecturerRow)
        (form : Screens.LecturerForm) (newId : string) (passwords : list string) :
  let r := Screens.addLecturer toLowerCase st fault loaded form newId passwords in
  let lec := {| Schema.l_id := newId; Schema.l_name := JS.trim (Screens.f_name form);
                Schema.l_email := toLowerCase (JS.trim (Screens.f_email form));
                Schema.l_department := JS.trim (Screens.f_department form);
                Schema.l_passwords := passwords |} in
  (snd r = Some lec <->
   Screens.validate toLowerCase loaded form = true /\ fault = None /\
   ~ In newId (map Schema.l_id (Supabase.lecturers st)) /\
   ~ In (Schema.l_email lec) (map Schema.l_email (Supabase.lecturers st))) /\
  (snd r = Some lec \/ snd r = None) /\
  (snd r = None -> fault = None -> fst r = st) /\
  (snd r = Some lec ->
     Supabase.lecturers (fst r) = (Supabase.lecturers st ++ [lec])%list /\
     Supabase.courses (fst r) = Supabase.courses st /\
     Supabase.students (fst r) = Supabase.students st /\
     Supabase.enrolments (fst r) = Supabase.enrolments st /\
     Supabase.sessions (fst r) = Supabase.sessions st /\
     Supabase.scans (fst r) = Supabase.scans st /\
     forall id p,
       toLowerCase id = toLowerCase (Schema.l_email lec) -> In p passwords ->
       (exists x, Screens.lecturerLogin toLowerCase (fst r) None id p = Screens.LoggedIn x /\
                  toLowerCase (Schema.l_email x) = toLowerCase id /\
                  In p (Schema.l_passwords x)) /\
       ((forall y, In y (Supabase.lecturers st) ->
                   toLowerCase (Schema.l_email y) = toLowerCase id ->
                   ~ In p (Schema.l_passwords y)) ->
        Screens.lecturerLogin toLowerCase (fst r) None id p = Screens.LoggedIn lec)).
Proof.
  intros r lec. subst r.
  pose proof (addLecturer_cases toLowerCase st fault loaded form newId passwords) as H.
  cbv zeta in H. fold lec in H.
  destruct H as [[E Hwhy] | [Hv [Hf [Hid [Hem E]]]]]; rewrite E; cbn [fst snd].
  - split.
    { split; [discriminate |]. intros [Hv [Hf [Hid Hem]]].
      destruct Hwhy as [W | [W | [W | W]]]; [congruence | contradiction | contradiction
                                              | contradiction]. }
    split; [right; reflexivity |]. split; [reflexivity | discriminate].
  - split; [split; [intros _; repeat split; assumption | reflexivity] |].
    split; [left; reflexivity |]. split; [discriminate |].
    intros _. cbn [Supabase.lecturers Supabase.courses Supabase.students Supabase.enrolments
                   Supabase.sessions Supabase.scans].
    do 6 (split; [reflexivity |]).
    intros id p Hidp Hp.
    match goal with
    | |- context [Screens.lecturerLogin toLowerCase ?s None id p] => set (st1 := s)
    end.
    assert (Hlec : In lec (Supabase.lecturers st1))
      by (cbn [Supabase.lecturers st1]; apply in_or_app; right; left; reflexivity).
    destruct (lecturerLogin_cases toLowerCase st1 id p)
      as [[x [Ex [Hx [Hxe Hxp]]]] | [_ N]].
    + split; [exists x; split; [exact Ex |]; split; assumption |].
      intro Hnone. rewrite Ex. f_equal.
      cbn [Supabase.lecturers st1] in Hx. apply in_app_or in Hx.
      destruct Hx as [Hx | [Hx | []]]; [| symmetry; exact Hx].
      exfalso. exact (Hnone x Hx Hxe Hxp).
    + exfalso. apply (N lec Hlec). split; [symmetry; exact Hidp | exact Hp].
Qed.

Section ClockFacts.
Import Schema Clock.

Lemma digit_cases (d : Z) :
  0 <= d <= 9 ->
  d = 0 \/ d = 1 \/ d = 2 \/ d = 3 \/ d = 4 \/ d = 5 \/ d = 6 \/ d = 7 \/ d = 8 \/ d = 9.
Proof. lia. Qed.

Lemma digit_digit_char (d : Z) : 0 <= d <= 9 -> JS.digit (digit_char d) = Some d.
Proof.
  intro H. destruct (digit_cases d H) as [E | [E | [E | [E | [E | [E | [E | [E | [E | E]]]]]]]]];
    subst d; reflexivity.
Qed.

Lemma digit_char_not_T (d : Z) : 0 <= d <= 9 -> Ascii.eqb (digit_char d) "T" = false.
Proof.
  intro H. destruct (digit_cases d H) as [E | [E | [E | [E | [E | [E | [E | [E | [E | E]]]]]]]]];
    subst d; reflexivity.
Qed.

Lemma read_step (k : nat) (acc : Z) (c : ascii) (r : string) :
  JS.read_digits (S k) acc (String c r)
  = match JS.digit c with
    | Some d => JS.read_digits k (10 * acc + d) r
    | None => None
    end.
Proof. reflexivity. Qed.

Lemma read_two_from (acc n : Z) (rest : string) :
  0 <= n < 100 ->
  JS.read_digits 2 acc (String (digit_char (n / 10)) (String (digit_char (n mod 10)) rest))
  = Some (100 * acc + n, rest).
Proof.
  intro H.
  rewrite read_step, digit_digit_char by (Z.div_mod_to_equations; lia).
  rewrite read_step, digit_digit_char by (Z.div_mod_to_equations; lia).
  cbn [JS.read_digits].
  replace (10 * (10 * acc + n / 10) + n mod 10) with (100 * acc + n)
    by (Z.div_mod_to_equations; lia).
  reflexivity.
Qed.

Lemma read_two (n : Z) (rest : string) :
  0 <= n < 100 ->
  JS.read_digits 2 0 (String (digit_char (n / 10)) (String (digit_char (n mod 10)) rest))
  = Some (n, rest).
Proof. intro H. rewrite read_two_from by exact H. reflexivity. Qed.

Lemma read_three_from (acc n : Z) (rest : string) :
  0 <= n < 1000 ->
  JS.read_digits 3 acc
    (String (digit_char (n / 100))
       (String (digit_char (n mod 100 / 10)) (String (digit_char (n mod 100 mod 10)) rest)))
  = Some (1000 * acc + n, rest).
Proof.
  intro H. rewrite read_step.
  rewrite digit_digit_char by (Z.div_mod_to_equations; lia).
  rewrite read_two_from by (Z.div_mod_to_equations; lia).
  replace (100 * (10 * acc + n / 100) + n mod 100) with (1000 * acc + n)
    by (Z.div_mod_to_equations; lia).
  reflexivity.
Qed.

Lemma read_three (n : Z) (rest : string) :
  0 <= n < 1000 ->
  JS.read_digits 3 0
    (String (digit_char (n / 100))
       (String (digit_char (n mod 100 / 10)) (String (digit_char (n mod 100 mod 10)) rest)))
  = Some (n, rest).
Proof. intro H. rewrite read_three_from by exact H. reflexivity. Qed.

Lemma read_four (n : Z) (rest : string) :
  0 <= n < 10000 ->
  JS.read_digits 4 0
    (String (digit_char (n / 1000))
       (String (digit_char (n mod 1000 / 100))
          (String (digit_char (n mod 1000 mod 100 / 10))
             (String (digit_char (n mod 1000 mod 100 mod 10)) rest))))
  = Some (n, rest).
Proof.
  intro H. rewrite read_step.
  rewrite digit_digit_char by (Z.div_mod_to_equations; lia).
  rewrite read_three_from by (Z.div_mod_to_equations; lia).
  replace (1000 * (10 * 0 + n / 1000) + n mod 1000) with n
    by (Z.div_mod_to_equations; lia).
  reflexivity.
Qed.

Lemma expect_same (c : ascii) (r : string) : JS.expect c (String c r) = Some r.
Proof. unfold JS.expect. rewrite Ascii.eqb_refl. reflexivity. Qed.

Lemma civil_ok_from_all (n : nat) :
  forall z, civil_ok_from n z = true ->
            forall i, z <= i < z + Z.of_nat n -> civil_ok i = true.
Proof.
  induction n as [| k IH]; intros z H i Hi; [lia |].
  cbn [civil_ok_from] in H. apply andb_true_iff in H. destruct H as [H0 H1].
  destruct (Z.eq_dec i z) as [E | E]; [subst i; exact H0 |].
  apply (IH (z + 1) H1). lia.
Qed.

(** The calendar conversion is inverted by the parser's on every day
    from 1970 to 2099. *)
Lemma civil_checked (z : Z) :
  0 <= z < 47482 -> civil_ok z = true.
Proof.
  intro H.
  assert (All : civil_ok_from days_checked 0 = true) by (vm_compute; reflexivity).
  apply (civil_ok_from_all days_checked 0 All). unfold days_checked. lia.
Qed.

Lemma civil_facts (z : Z) :
  0 <= z < 47482 ->
  exists y m d, civil_from_days z = (y, m, d) /\ JS.days_from_civil y m d = z /\
                0 <= y < 10000 /\ 1 <= m <= 12 /\ 1 <= d <= 31.
Proof.
  intro H. pose proof (civil_checked z H) as C. unfold civil_ok in C.
  destruct (civil_from_days z) as [[y m] d]. exists y, m, d.
  rewrite !andb_true_iff in C. rewrite Z.eqb_eq, !Z.leb_le, !Z.ltb_lt in C.
  repeat split; try tauto; lia.
Qed.

Lemma valid_fields (m d h mi s : Z) :
  1 <= m <= 12 -> 1 <= d <= 31 -> 0 <= h <= 23 -> 0 <= mi <= 59 -> 0 <= s <= 59 ->
  negb ((1 <=? m) && (m <=? 12) && (1 <=? d) && (d <=? 31)
        && (h <=? 23) && (mi <=? 59) && (s <=? 59)) = false.
Proof.
  intros. apply negb_false_iff. rewrite !andb_true_iff, !Z.leb_le. lia.
Qed.

(** [toISOString] prints what the parser reads back. *)
Lemma parse_toISOString (tz t : Z) :
  0 <= t < 4102444800000 -> JS.Date_parse tz (toISOString t) = Some t.
Proof.
  intro H.
  assert (Hd : 0 <= t / 86400000 < 47482) by (Z.div_mod_to_equations; lia).
  destruct (civil_facts _ Hd) as [y [m [d [E [Hdays [Hy [Hm Hdd]]]]]]].
  unfold toISOString. rewrite E. unfold pad4, pad3, pad2. cbn [String.append].
  unfold JS.Date_parse.
  rewrite read_four by exact Hy. cbn [JS.bind]. rewrite expect_same. cbn [JS.bind].
  rewrite read_two by lia. cbn [JS.bind]. rewrite expect_same. cbn [JS.bind].
  rewrite read_two by lia. cbn [JS.bind]. rewrite expect_same. cbn [JS.bind].
  rewrite read_two by (Z.div_mod_to_equations; lia). cbn [JS.bind].
  rewrite expect_same. cbn [JS.bind].
  rewrite read_two by (Z.div_mod_to_equations; lia). cbn [JS.bind].
  rewrite expect_same. cbn [JS.bind].
  rewrite read_two by (Z.div_mod_to_equations; lia). cbn [JS.bind].
  rewrite valid_fields by (try assumption; Z.div_mod_to_equations; lia).
  rewrite expect_same. cbn [JS.bind].
  rewrite read_three by (Z.div_mod_to_equations; lia). cbn [JS.bind].
  rewrite expect_same. cbn [JS.bind].
  rewrite Hdays. f_equal. Z.div_mod_to_equations. lia.
Qed.

Lemma date_of_toISOString (t : Z) (y m d : Z) :
  civil_from_days (t / 86400000) = (y, m, d) ->
  0 <= y < 10000 -> 1 <= m <= 12 -> 1 <= d <= 31 ->
  split_T (toISOString t) = pad4 y ++ "-" ++ pad2 m ++ "-" ++ pad2 d.
Proof.
  intros E Hy Hm Hd. unfold toISOString. rewrite E. unfold pad4, pad3, pad2.
  cbn [String.append split_T].
  rewrite !digit_char_not_T by (Z.div_mod_to_equations; lia).
  change (Ascii.eqb "-" "T") with false. change (Ascii.eqb "T" "T") with true.
  cbn iota. reflexivity.
Qed.

(** The start of a new session as the check-in reads it. *)
Lemma parse_session_start (tz t : Z) :
  0 <= t < 4102444800000 -> -720 <= tz <= 840 ->
  JS.Date_parse tz (split_T (toISOString t) ++ "T" ++ time_hm tz t ++ ":00")
  = Some (60000 * (t / 60000) - 86400000 * day_shift tz t).
Proof.
  intros H Htz.
  assert (Hd : 0 <= t / 86400000 < 47482) by (Z.div_mod_to_equations; lia).
  destruct (civil_facts _ Hd) as [y [m [d [E [Hdays [Hy [Hm Hdd]]]]]]].
  rewrite (date_of_toISOString t y m d E Hy Hm Hdd).
  unfold time_hm, pad4, pad3, pad2. cbn [String.append].
  unfold JS.Date_parse.
  rewrite read_four by exact Hy. cbn [JS.bind]. rewrite expect_same. cbn [JS.bind].
  rewrite read_two by lia. cbn [JS.bind]. rewrite expect_same. cbn [JS.bind].
  rewrite read_two by lia. cbn [JS.bind]. rewrite expect_same. cbn [JS.bind].
  rewrite read_two by (Z.div_mod_to_equations; lia). cbn [JS.bind].
  rewrite expect_same. cbn [JS.bind].
  rewrite read_two by (Z.div_mod_to_equations; lia). cbn [JS.bind].
  rewrite expect_same. cbn [JS.bind].
  change (String "0" (String "0" "")) with
    (String (digit_char (0 / 10)) (String (digit_char (0 mod 10)) "")).
  rewrite read_two by lia. cbn [JS.bind].
  rewrite valid_fields by (try assumption; Z.div_mod_to_equations; lia).
  rewrite Hdays. unfold day_shift. f_equal. Z.div_mod_to_equations. lia.
Qed.

End ClockFacts.

Section StartFacts.
Import Schema Supabase App Clock.

Lemma new_session_fields (tz : Z) (course : CourseRow) (lecturer : LecturerRow)
      (room : string) (now : Z) (newId : string) (geo : option (Q * Q)) :
  let s := new_session tz course lecturer room now newId geo in
  id s = newId /\ course_id s = c_id course /\ lecturer_id s = l_id lecturer /\
  date s = split_T (toISOString now) /\ start_time s = time_hm tz now.
Proof.
  cbv zeta. unfold new_session.
  destruct (match geo with Some p => p | None => campus end) as [la ln].
  repeat split.
Qed.

(** A view opened on a session that was just created. *)
Lemma load_after_create (st st' : Store) (new s : SessionRow) :
  Integrity.refs_ok st -> id new <> "" ->
  createSession st new = (st', Ok s) ->
  s = set_status new "active" /\
  st' = with_sessions st (sessions st ++ [s]) /\
  ~ In (id new) (map id (sessions st)) /\
  load st' None (Some (id new))
  = {| sessionId := Some (id new);
       session := Some {| row := s; Schema.scans := Some [] |};
       step := enter; studentNo := ""; result := None; err := "" |}.
Proof.
  intros Hrefs Hid H.
  pose proof (createSession_cases st new) as C. cbv zeta in C.
  destruct C as [[_ E] | [[_ [_ E]] | [Hi [_ [_ E]]]]]; rewrite E in H; inversion H.
  subst s st'. clear H. split; [reflexivity |]. split; [reflexivity |]. split; [exact Hi |].
  assert (G : getSession (with_sessions st (sessions st ++ [set_status new "active"])) (id new)
              = Ok (Some {| row := set_status new "active"; Schema.scans := Some [] |})).
  { unfold getSession. cbn [sessions with_sessions].
    rewrite filter_app, (filter_absent_key id _ _ Hi). cbn [filter app].
    change (id (set_status new "active")) with (id new). rewrite String.eqb_refl.
    unfold embed. cbn [Supabase.scans with_sessions].
    change (id (set_status new "active")) with (id new).
    rewrite (no_scans_of_missing st _ Hrefs Hi). reflexivity. }
  unfold load. destruct (id new) as [| a i] eqn:Ei; [congruence |].
  cbn [request snd]. rewrite G. reflexivity.
Qed.

Lemma day_shift_range (tz t : Z) :
  -720 <= tz <= 840 -> 0 <= t ->
  (day_shift tz t = -1 /\ (t / 60000) mod 1440 + tz < 0) \/
  (day_shift tz t = 0 /\ 0 <= (t / 60000) mod 1440 + tz < 1440) \/
  (day_shift tz t = 1 /\ 1440 <= (t / 60000) mod 1440 + tz).
Proof.
  intros Htz Ht. unfold day_shift. Z.div_mod_to_equations. lia.
Qed.

End StartFacts.

(** X22.  The start of a session as the check-in reads it back.
    [startSession] stores the UTC date of [toISOString] next to the local
    wall-clock time of [toTimeString], and [getScanStatus] reads the two
    together as a local time.  For a session started at time [t] (1970 to
    2099) and a scan at [t'], both devices [tz] minutes ahead of UTC, the
    classification is that of [t'] minus the start, where the start is [t]
    cut to the minute when the UTC date and the local date agree at [t],
    one day earlier when the local date is a day ahead (from local
    midnight until UTC midnight: then every scan made after the start is
    'late' by 1440 minutes or more), and one day later when the local date
    is a day behind (then every scan of the next 23 hours 59 minutes is
    'present' with 0 minutes). *)
Theorem session_start_read_back (tz t t' : Z) (course : Schema.CourseRow)
        (lecturer : Schema.LecturerRow) (room newId : string) (geo : option (Q * Q)) :
  0 <= t < 4102444800000 -> 0 <= t' < 4102444800000 -> -720 <= tz <= 840 ->
  let s := Clock.new_session tz course lecturer room t newId geo in
  let start := 60000 * (t / 60000) - 86400000 * Clock.day_shift tz t in
  let ss := Helpers.getScanStatus (JS.Date_parse tz) (Clock.toISOString t')
                                  (Schema.date s) (Schema.start_time s) in
  ss = Spec.classify (t' - start) /\
  (0 <= (t / 60000) mod 1440 + tz < 1440 ->
   start <= t < start + 60000 /\
   (Helpers.status ss = "present" <-> t' <= start + 600000)) /\
  (1440 <= (t / 60000) mod 1440 + tz ->
   t <= t' ->
   Helpers.status ss = "late" /\
   exists m, Helpers.minutesLate ss = Some m /\ 1440 <= m) /\
  ((t / 60000) mod 1440 + tz < 0 ->
   t' <= t + 86340000 ->
   ss = {| Helpers.status := "present"; Helpers.minutesLate := Some 0 |}).
Proof.
  intros Ht Ht' Htz s start ss.
  destruct (new_session_fields tz course lecturer room t newId geo) as [_ [_ [_ [Ed Es]]]].
  fold s in Ed, Es.
  assert (E : ss = Spec.classify (t' - start)).
  { subst ss. rewrite Ed, Es.
    rewrite (getScanStatus_valid (JS.Date_parse tz) _ _ _ t' start
               (parse_toISOString tz t' Ht') (parse_session_start tz t Ht Htz)).
    reflexivity. }
  split; [exact E |]. rewrite E. unfold Spec.classify.
  cbn [Helpers.status Helpers.minutesLate].
  destruct (day_shift_range tz t Htz (proj1 Ht)) as [[Hs Hr] | [[Hs Hr] | [Hs Hr]]];
    subst start; rewrite Hs.
  - split; [intro; lia |]. split; [intro; lia |].
    intros _ Hle.
    assert (L : t' - (60000 * (t / 60000) - 86400000 * -1) <= 0)
      by (Z.div_mod_to_equations; lia).
    replace (t' - (60000 * (t / 60000) - 86400000 * -1) <=? 600000) with true
      by (symmetry; apply Z.leb_le; lia).
    f_equal. f_equal. Z.div_mod_to_equations. lia.
  - split; [| split; [intro; lia | intro; lia]].
    intros _. split; [Z.div_mod_to_equations; lia |].
    destruct (Z.leb_spec (t' - (60000 * (t / 60000) - 86400000 * 0)) 600000);
      split; intro; try lia; try discriminate; reflexivity.
  - split; [intro; lia |]. split; [| intro; lia].
    intros _ Hle.
    assert (L : 86400000 <= t' - (60000 * (t / 60000) - 86400000 * 1))
      by (Z.div_mod_to_equations; lia).
    replace (t' - (60000 * (t / 60000) - 86400000 * 1) <=? 600000) with false
      by (symmetry; apply Z.leb_gt; lia).
    split; [reflexivity |]. eexists. split; [reflexivity |].
    Z.div_mod_to_equations. lia.
Qed.

Lemma session_start_read_back_witness :
  Helpers.getScanStatus (JS.Date_parse 120) (Clock.toISOString 1709508600000)
    (Schema.date (Clock.new_session 120 Scenario.crs Scenario.lec "" 1709508600000
                                    "SESSION003" None))
    (Schema.start_time (Clock.new_session 120 Scenario.crs Scenario.lec "" 1709508600000
                                          "SESSION003" None))
  = {| Helpers.status := "late"; Helpers.minutesLate := Some 1440 |}.
Proof.
  assert (Ht : 0 <= 1709508600000 < 4102444800000) by lia.
  assert (Htz : -720 <= 120 <= 840) by lia.
  pose proof (session_start_read_back 120 1709508600000 1709508600000 Scenario.crs
                Scenario.lec "" "SESSION003" None Ht Ht Htz) as H.
  cbv zeta in H. destruct H as [H _]. rewrite H. vm_compute. reflexivity.
Defined.

(** X23.  From starting a session to the first check-in.  On a store with
    intact references, when [startSession] succeeded at time [t] and a
    student in the same time zone opens the link and submits a non-blank
    number at time [t'], the scan is stored and shown, and its status and
    minutes are those of
    [t'] minus the start as read back: a session started while the
    local date is a day ahead of the UTC date records every check-in made
    after the start as 'late' with at least 1440 minutes. *)
Theorem checkin_after_startSession (tz t t' server_now : Z) (st st1 : Supabase.Store)
        (course : Schema.CourseRow) (lecturer : Schema.LecturerRow)
        (room newId typed : string) (geo geo' : option (Q * Q)) (i : string) :
  Integrity.refs_ok st ->
  0 <= t < 4102444800000 -> 0 <= t' < 4102444800000 -> -720 <= tz <= 840 ->
  newId <> "" -> JS.trim typed <> "" ->
  Clock.startSession tz st None course lecturer room t newId geo = (st1, Some i) ->
  let start := 60000 * (t / 60000) - 86400000 * Clock.day_shift tz t in
  let v := App.setStudentNo (App.load st1 None (Some i)) typed in
  let r := App.handleScan (JS.Date_parse tz) st1 (Clock.toISOString t') server_now geo'
                          None None v in
  i = newId /\ App.step v = App.enter /\
  exists sc,
    Supabase.scans (fst r) = (Supabase.scans st1 ++ [sc])%list /\
    App.step (snd r) = App.success /\
    App.result (snd r) = Some {| App.scan := sc; App.alreadyDone := false |} /\
    Schema.session_id sc = newId /\ Schema.student_no sc = JS.trim typed /\
    Schema.sc_status sc = Helpers.status (Spec.classify (t' - start)) /\
    Some (Schema.minutes_late sc) = Helpers.minutesLate (Spec.classify (t' - start)) /\
    (1440 <= (t / 60000) mod 1440 + tz -> t <= t' ->
     Schema.sc_status sc = "late" /\ 1440 <= Schema.minutes_late sc).
Proof.
  intros Hrefs Ht Ht' Htz Hid Htyped Hstart start v r. subst v r.
  unfold Clock.startSession in Hstart. cbn [Supabase.request] in Hstart.
  destruct (Supabase.createSession st _) as [st' [s |]] eqn:Ec; inversion Hstart.
  subst st'. clear Hstart.
  destruct (new_session_fields tz course lecturer room t newId geo) as [En [_ [_ [Ed Es]]]].
  set (new := Clock.new_session tz course lecturer room t newId geo) in *.
  assert (Hid' : Schema.id new <> "") by (rewrite En; exact Hid).
  destruct (load_after_create st st1 new s Hrefs Hid' Ec) as [Es' [Est [Hfresh Hload]]].
  assert (Eis : Schema.id s = newId) by (rewrite Es'; exact En).
  subst i. rewrite Eis in *. rewrite En in Hload, Hfresh.
  split; [reflexivity |].
  rewrite Hload. cbn [App.setStudentNo App.sessionId App.session App.step
                      App.studentNo App.result App.err].
  split; [reflexivity |].
  match goal with
  | |- context [App.handleScan _ _ _ _ _ _ _ ?view] => set (view0 := view)
  end.
  assert (Hdate : JS.Date_parse tz
                    (Schema.date (Schema.row {| Schema.row := s; Schema.scans := Some [] |})
                     ++ "T" ++
                     Schema.start_time (Schema.row {| Schema.row := s; Schema.scans := Some [] |})
                     ++ ":00")
                  = Some start).
  { cbn [Schema.row]. rewrite Es'. cbn [Supabase.set_status Schema.date Schema.start_time].
    rewrite Ed, Es. exact (parse_session_start tz t Ht Htz). }
  assert (Hnone : existsb (Supabase.same_key newId (JS.trim typed)) (Supabase.scans st1) = false).
  { apply find_none_existsb. rewrite <- find_in_session.
    rewrite Est. cbn [Supabase.scans Supabase.with_sessions].
    rewrite (no_scans_of_missing st newId Hrefs Hfresh). reflexivity. }
  assert (Hfk : Supabase.existsb_eq Schema.id newId (Supabase.sessions st1) = true).
  { apply existsb_eq_In. rewrite Est. cbn [Supabase.sessions Supabase.with_sessions].
    rewrite <- Eis. apply in_map_last. }
  destruct (handleScan_new (JS.Date_parse tz) st1 (Clock.toISOString t') server_now geo'
              view0 {| Schema.row := s; Schema.scans := Some [] |} newId (JS.trim typed)
              eq_refl Htyped eq_refl eq_refl t' start eq_refl
              (parse_toISOString tz t' Ht') Hdate Hnone Hfk)
    as [sc [E [E1 [E2 [_ [E4 E5]]]]]].
  exists sc. rewrite E. cbn [fst snd Supabase.scans Supabase.with_scans App.step App.result
                             App.set_step App.set_result].
  split; [reflexivity |]. split; [reflexivity |]. split; [reflexivity |].
  split; [exact E1 |]. split; [exact E2 |].
  unfold Spec.classify. cbn [Helpers.status Helpers.minutesLate].
  split; [exact E4 |]. split; [rewrite E5; reflexivity |].
  intros Hahead Hle. rewrite E4, E5.
  destruct (day_shift_range tz t Htz (proj1 Ht)) as [[Hs Hr] | [[Hs Hr] | [Hs Hr]]];
    try lia.
  subst start. rewrite Hs.
  assert (L : 86400000 <= t' - (60000 * (t / 60000) - 86400000 * 1))
    by (Z.div_mod_to_equations; lia).
  replace (t' - (60000 * (t / 60000) - 86400000 * 1) <=? 600000) with false
    by (symmetry; apply Z.leb_gt; lia).
  split; [reflexivity |]. Z.div_mod_to_equations. lia.
Qed.

Lemma checkin_after_startSession_witness :
  let st1 := fst (Clock.startSession 120 Scenario.st0 None Scenario.crs Scenario.lec ""
                    1709508600000 "SESSION003" None) in
  let r := App.handleScan (JS.Date_parse 120) st1 (Clock.toISOString 1709508900000)
             1709508900000 None None None
             (App.setStudentNo (App.load st1 None (Some "SESSION003")) " 20210001 ") in
  exists sc,
    Supabase.scans (fst r) = (Supabase.scans st1 ++ [sc])%list /\
    Schema.sc_status sc = "late" /\ 1440 <= Schema.minutes_late sc.
Proof.
  assert (Hrefs : Integrity.refs_ok Scenario.st0).
  { exact (proj2 (proj2 (proj2 (proj2 (proj2 (sound_reachable Scenario.ops0)))))). }
  assert (Ht : 0 <= 1709508600000 < 4102444800000) by lia.
  assert (Ht' : 0 <= 1709508900000 < 4102444800000) by lia.
  assert (Htz : -720 <= 120 <= 840) by lia.
  assert (Hid : "SESSION003" <> "") by discriminate.
  assert (Htyped : JS.trim " 20210001 " <> "") by (vm_compute; discriminate).
  assert (Hstart : Clock.startSession 120 Scenario.st0 None Scenario.crs Scenario.lec ""
                     1709508600000 "SESSION003" None
                   = (fst (Clock.startSession 120 Scenario.st0 None Scenario.crs Scenario.lec ""
                             1709508600000 "SESSION003" None), Some "SESSION003")).
  { vm_compute. reflexivity. }
  pose proof (checkin_after_startSession 120 1709508600000 1709508900000 1709508900000
                Scenario.st0 _ Scenario.crs Scenario.lec "" "SESSION003" " 20210001 "
                None None "SESSION003" Hrefs Ht Ht' Htz Hid Htyped Hstart) as H.
  cbv zeta in H. destruct H as [_ [_ [sc [H1 [_ [_ [_ [_ [_ [_ H8]]]]]]]]]].
  assert (Hahead : 1440 <= (1709508600000 / 60000) mod 1440 + 120) by (vm_compute; congruence).
  assert (Hle : 1709508600000 <= 1709508900000) by lia.
  destruct (H8 Hahead Hle) as [H9 H10].
  cbv zeta. exists sc. split; [exact H1 |]. split; [exact H9 | exact H10].
Defined.

Section LiveLogFacts.
Import Schema Screens.

Lemma deliveries_prepend (post : list ScanRow) (log : list ScanRow) :
  fold_left live_step (map Delivered post) log = (rev post ++ log)%list.
Proof.
  revert log. induction post as [| sc post IH]; intro log; [reflexivity |].
  cbn [map fold_left live_step onNewScan rev]. rewrite IH, <- app_assoc. reflexivity.
Qed.

Lemma counters_le (log : list ScanRow) :
  (presentCount log + lateCount log <= List.length log)%nat /\
  ((presentCount log + lateCount log = List.length log)%nat <->
   Forall (fun sc => sc_status sc = "present" \/ sc_status sc = "late") log).
Proof.
  unfold presentCount, lateCount. induction log as [| sc log [IH1 IH2]].
  - cbn. split; [lia |]. split; [constructor | reflexivity].
  - cbn [filter List.length].
    destruct (String.eqb_spec (sc_status sc) "present") as [Ep | Ep];
      destruct (String.eqb_spec (sc_status sc) "late") as [El | El]; cbn [List.length].
    + rewrite Ep in El. discriminate.
    + split; [lia |]. rewrite Forall_cons_iff, <- IH2. split; [intro; split; [tauto | lia] |].
      intros [_ H]. lia.
    + split; [lia |]. rewrite Forall_cons_iff, <- IH2. split; [intro; split; [tauto | lia] |].
      intros [_ H]. lia.
    + split; [lia |]. rewrite Forall_cons_iff. split; [intro; lia | tauto].
Qed.

End LiveLogFacts.

(** X24.  The live log of a running session.  Once the load of the
    session has resolved, the log is the scans delivered since then, the
    latest first, in front of the scans the load returned; whatever was
    delivered before is overwritten by the load, so a scan stored after
    the session was read and delivered before the load resolved is not
    shown.  When the load failed the log is just the deliveries.  The
    present and late counters never exceed the length of the log and add
    up to it exactly when every status is 'present' or 'late'. *)
Theorem live_log_after_load (pre : list Screens.LiveEvent) (s : option Schema.Session)
        (post : list Schema.ScanRow) :
  let loaded := match s with Some x => Helpers.scans_or_empty x | None => [] end in
  let log := Screens.liveLog (pre ++ Screens.Loaded s :: map Screens.Delivered post) in
  log = (rev post ++ loaded)%list /\
  (forall sc, In sc log <-> In sc post \/ In sc loaded) /\
  Screens.liveLog (map Screens.Delivered post) = rev post /\
  (Screens.presentCount log + Screens.lateCount log <= List.length log)%nat /\
  ((Screens.presentCount log + Screens.lateCount log = List.length log)%nat <->
   Forall (fun sc => Schema.sc_status sc = "present" \/ Schema.sc_status sc = "late") log).
Proof.
  cbv zeta. unfold Screens.liveLog.
  assert (E : fold_left Screens.live_step (pre ++ Screens.Loaded s :: map Screens.Delivered post) []
              = (rev post ++ match s with Some x => Helpers.scans_or_empty x | None => [] end)%list).
  { rewrite fold_left_app. cbn [fold_left]. rewrite deliveries_prepend.
    destruct s; reflexivity. }
  rewrite E. split; [reflexivity |]. split; [| split].
  - intro sc. rewrite in_app_iff, <- in_rev. tauto.
  - rewrite deliveries_prepend. apply app_nil_r.
  - apply counters_le.
Qed.

Section FivePasswordsEnd.
Import Generators.

Variable rnd : Random.
Variable k : nat.

Lemma seen_step (n : nat) :
  seen rnd k (S n) = add (genPassword rnd (k + 15 * n)) (seen rnd k n).
Proof.
  unfold seen, drawn. rewrite seq_S, map_app, fold_left_app. reflexivity.
Qed.

Lemma add_spec (pw : string) (set : list string) :
  NoDup set ->
  NoDup (add pw set) /\ (forall p, In p (add pw set) <-> p = pw \/ In p set) /\
  (List.length set <= List.length (add pw set) <= S (List.length set))%nat.
Proof.
  intro Hnd. unfold add. destruct (existsb (String.eqb pw) set) eqn:E.
  - split; [exact Hnd |]. split; [| lia].
    intro p. split; [tauto |]. intros [Ep | Hp]; [| exact Hp].
    subst p. apply existsb_exists in E. destruct E as [x [Hx Ex]].
    apply String.eqb_eq in Ex. subst x. exact Hx.
  - split; [| split].
    + apply NoDup_app; [exact Hnd | repeat constructor; intros [] |].
      intros p Hp [Ep | []]. subst p.
      assert (T : existsb (String.eqb pw) set = true).
      { apply existsb_exists. exists pw. split; [exact Hp | apply String.eqb_refl]. }
      congruence.
    + intro p. rewrite in_app_iff. cbn [In]. split.
      * intros [H | [H | []]]; [right; exact H | left; symmetry; exact H].
      * intros [H | H]; [right; left; symmetry; exact H | left; exact H].
    + rewrite length_app. cbn. lia.
Qed.

Lemma seen_spec (n : nat) :
  NoDup (seen rnd k n) /\ (forall p, In p (seen rnd k n) <-> In p (drawn rnd k n)).
Proof.
  induction n as [| n [IH1 IH2]].
  - split; [constructor | intro p; reflexivity].
  - rewrite seen_step. destruct (add_spec (genPassword rnd (k + 15 * n)) _ IH1) as [H1 [H2 _]].
    split; [exact H1 |]. intro p. rewrite H2, IH2. unfold drawn.
    rewrite seq_S, map_app, in_app_iff. cbn [map In]. split.
    + intros [E | H]; [right; left; symmetry; exact E | left; exact H].
    + intros [H | [E | []]]; [right; exact H | left; symmetry; exact E].
Qed.

Lemma seen_length (n : nat) :
  List.length (seen rnd k n) = List.length (nodup string_dec (drawn rnd k n)).
Proof.
  destruct (seen_spec n) as [Hnd Hin].
  apply Nat.le_antisymm; apply NoDup_incl_length.
  - exact Hnd.
  - intros p Hp. apply nodup_In, Hin, Hp.
  - apply NoDup_nodup.
  - intros p Hp. apply Hin. apply nodup_In in Hp. exact Hp.
Qed.

Lemma seen_grows (n m : nat) :
  (n <= m)%nat -> (List.length (seen rnd k n) <= List.length (seen rnd k m))%nat.
Proof.
  induction 1 as [| m _ IH]; [lia |].
  rewrite seen_step.
  destruct (add_spec (genPassword rnd (k + 15 * m)) _ (proj1 (seen_spec m))) as [_ [_ H]]. lia.
Qed.

Lemma gen5_loop_seen (fuel : nat) :
  forall j,
    (List.length (seen rnd k j) <= 5)%nat ->
    ((5 <= List.length (seen rnd k (j + fuel)))%nat ->
     exists j', (j' <= j + fuel)%nat /\
                gen5_loop fuel rnd (k + 15 * j) (seen rnd k j) = Some (seen rnd k j')) /\
    ((List.length (seen rnd k (j + fuel)) < 5)%nat ->
     gen5_loop fuel rnd (k + 15 * j) (seen rnd k j) = None).
Proof.
  induction fuel as [| fuel IH]; intros j Hle.
  - rewrite Nat.add_0_r. cbn [gen5_loop].
    destruct (Nat.leb_spec 5 (List.length (seen rnd k j))) as [G | G].
    + split; [intros _; exists j; split; [lia | reflexivity] | lia].
    + split; [lia | reflexivity].
  - cbn [gen5_loop].
    destruct (Nat.leb_spec 5 (List.length (seen rnd k j))) as [G | G].
    + split; [intros _; exists j; split; [lia | reflexivity] |].
      intro L. pose proof (seen_grows j (j + S fuel) ltac:(lia)). lia.
    + replace (k + 15 * j + 15)%nat with (k + 15 * S j)%nat by lia.
      rewrite <- seen_step.
      assert (Hle' : (List.length (seen rnd k (S j)) <= 5)%nat).
      { rewrite seen_step.
        destruct (add_spec (genPassword rnd (k + 15 * j)) _ (proj1 (seen_spec j)))
          as [_ [_ H]]. lia. }
      destruct (IH (S j) Hle') as [I1 I2].
      replace (S j + fuel)%nat with (j + S fuel)%nat in I1, I2 by lia.
      split; [| exact I2].
      intro H. destruct (I1 H) as [j' [Hj' E]]. exists j'. split; [lia | exact E].
Qed.

End FivePasswordsEnd.

(** X25.  When [gen5Passwords] returns: the loop has ended after at most
    [n] rounds exactly when the passwords drawn in the first [n] rounds
    include five different ones; for as long as fewer have been drawn it
    is still running, however many rounds that takes. *)
Theorem gen5Passwords_ends (rnd : Generators.Random) (k n : nat) :
  let distinct := List.length (nodup string_dec (Generators.drawn rnd k n)) in
  ((5 <= distinct)%nat <-> exists l, Generators.gen5Passwords n rnd k = Some l) /\
  ((distinct < 5)%nat <-> Generators.gen5Passwords n rnd k = None).
Proof.
  cbv zeta. rewrite <- seen_length. unfold Generators.gen5Passwords.
  assert (H0 : (List.length (Generators.seen rnd k 0) <= 5)%nat) by (cbn; lia).
  destruct (gen5_loop_seen rnd k n 0 H0) as [H1 H2].
  rewrite Nat.mul_0_r, Nat.add_0_r in H1, H2. cbn [Nat.add] in H1, H2.
  change (Generators.seen rnd k 0) with (@nil string) in H1, H2.
  destruct (Nat.le_gt_cases 5 (List.length (Generators.seen rnd k n))) as [G | G].
  - destruct (H1 G) as [j' [_ E]]. rewrite E.
    split; [split; [intros _; eexists; reflexivity | intros _; exact G] |].
    split; [intro; lia | discriminate].
  - rewrite (H2 G).
    split; [split; [intro; lia | intros [l H]; discriminate] |].
    split; [reflexivity | intros _; exact G].
Qed.

Section CourseFacts.
Import Schema Supabase Queries Screens.

(** A number is taken for an integer column exactly when it is integral
    and within 32 bits. *)
Lemma to_integer_ok (n : JS.num) (z : Z) :
  to_integer n = Ok (Some z) <->
  exists q, n = Some q /\ q == inject_Z z /\ -2147483648 <= z <= 2147483647.
Proof.
  unfold to_integer. destruct n as [q |].
  - destruct q as [a d]. cbn [Qnum Qden]. split.
    + destruct (Z.eqb_spec (a mod Z.pos d) 0) as [E | E]; cbn [negb]; [| discriminate].
      destruct (1000000000000000000000 <=? Z.abs (a / Z.pos d)); [discriminate |].
      unfold int4. destruct (andb _ _) eqn:R; [| discriminate].
      intro H. inversion H. subst z. exists (a # d). split; [reflexivity |].
      apply andb_true_iff in R. rewrite !Z.leb_le in R. split; [| exact R].
      unfold Qeq, inject_Z. cbn [Qnum Qden]. rewrite Z.mul_1_r, Z.mul_comm.
      apply Z.div_exact; [discriminate | exact E].
    + intros [q [Eq [Hq R]]]. inversion Eq. subst q.
      unfold Qeq, inject_Z in Hq. cbn [Qnum Qden] in Hq. rewrite Z.mul_1_r in Hq.
      subst a.
      rewrite Z.mod_mul by discriminate. rewrite Z.eqb_refl. cbn [negb].
      rewrite Z.div_mul by discriminate.
      replace (1000000000000000000000 <=? Z.abs z) with false
        by (symmetry; apply Z.leb_gt; lia).
      unfold int4.
      replace ((-2147483648 <=? z) && (z <=? 2147483647)) with true; [reflexivity |].
      symmetry. apply andb_true_iff. rewrite !Z.leb_le. exact R.
  - split; [discriminate | intros [q [Eq _]]; discriminate].
Qed.

Lemma to_integer_errors (n : JS.num) (e : Error) :
  to_integer n = Throw e ->
  e = invalid_text_representation \/ e = numeric_value_out_of_range.
Proof.
  unfold to_integer. destruct n as [q |]; [| discriminate].
  destruct (negb _); [intro H; inversion H; left; reflexivity |].
  destruct (_ <=? _); [intro H; inversion H; left; reflexivity |].
  destruct (int4 _); [discriminate | intro H; inversion H; right; reflexivity].
Qed.

Lemma course_row_ok (i : CourseInput) (c : CourseRow) :
  course_row i = Ok c <->
  to_integer (ci_year i) = Ok (Some (c_year c)) /\
  to_integer (ci_total_planned_classes i) = Ok (Some (c_total_planned_classes c)) /\
  c_id c = ci_id i /\ c_lecturer_id c = ci_lecturer_id i /\ c_code c = ci_code i /\
  c_name c = ci_name i /\ c_department c = ci_department i /\
  c_semester c = ci_semester i /\ c_room c = ci_room i.
Proof.
  unfold course_row. split.
  - destruct (to_integer (ci_year i)) as [[y |] | e]; try discriminate;
      destruct (to_integer (ci_total_planned_classes i)) as [[t |] | e'];
      try discriminate.
    intro H. inversion H. cbn. repeat split.
  - intros [Ey [Et [E1 [E2 [E3 [E4 [E5 [E6 E7]]]]]]]]. rewrite Ey, Et.
    destruct c. cbn in *. subst. reflexivity.
Qed.

Lemma course_row_errors (i : CourseInput) (e : Error) :
  course_row i = Throw e ->
  e = invalid_text_representation \/ e = numeric_value_out_of_range \/
  e = not_null_violation.
Proof.
  unfold course_row.
  destruct (to_integer (ci_year i)) as [y | e1] eqn:Ey.
  - destruct (to_integer (ci_total_planned_classes i)) as [t | e2] eqn:Et.
    + destruct y as [y |], t as [t |]; try discriminate;
        intro H; inversion H; right; right; reflexivity.
    + intro H. inversion H. subst e2.
      destruct (to_integer_errors _ _ Et); [left | right; left]; assumption.
  - intro H. inversion H. subst e1.
    destruct (to_integer_errors _ _ Ey); [left | right; left]; assumption.
Qed.

Lemma insert_course_cases (st : Store) (c : CourseRow) :
  (In (c_id c) (map c_id (courses st)) /\
   insert_course st c = (st, Throw unique_violation)) \/
  (~ In (c_id c) (map c_id (courses st)) /\
   ~ In (c_lecturer_id c) (map l_id (lecturers st)) /\
   insert_course st c = (st, Throw foreign_key_violation)) \/
  (~ In (c_id c) (map c_id (courses st)) /\
   In (c_lecturer_id c) (map l_id (lecturers st)) /\
   insert_course st c
   = ({| lecturers := lecturers st; courses := courses st ++ [c];
         students := students st; enrolments := enrolments st;
         sessions := sessions st; scans := scans st; scans_seq := scans_seq st |},
      Ok c)).
Proof.
  unfold insert_course.
  destruct (existsb_eq c_id (c_id c) (courses st)) eqn:Ei.
  - left. apply existsb_eq_In in Ei. split; [exact Ei | reflexivity].
  - right. apply existsb_eq_false in Ei.
    destruct (existsb_eq l_id (c_lecturer_id c) (lecturers st)) eqn:El; cbn [negb].
    + right. apply existsb_eq_In in El. split; [exact Ei |]. split; [exact El | reflexivity].
    + left. apply existsb_eq_false in El. split; [exact Ei |]. split; [exact El | reflexivity].
Qed.

Lemma loadCourses_In (st : Store) (lid : string) (l : list CourseRow) :
  loadCourses st None lid = Some l ->
  forall y, In y l <-> In y (courses st) /\ c_lecturer_id y = lid.
Proof.
  unfold loadCourses, getCourses. cbn [request snd]. intro H. inversion H. subst l.
  intro y. rewrite filter_In, String.eqb_eq.
  split; intros [H1 H2]; (split; [| exact H2]).
  - exact (Permutation_in _ (sort_by_perm _ _ _) H1).
  - exact (Permutation_in _ (Permutation_sym (sort_by_perm _ _ _)) H1).
Qed.

End CourseFacts.

(** X26.  Adding a course and listing it.  [createCourse] stores the row
    [c] exactly when the year and the number of planned classes of the
    request are integers within 32 bits, [c] has them and the other fields
    of the request, the id is new and the lecturer exists.  The course is
    then on the list [loadCourses] shows to its lecturer and on no other
    lecturer's list, and every list keeps the courses it had; a
    lecturer's list never holds a course of another lecturer.  A refused
    insert (a number that is no integer: 22P02, out of range: 22003,
    missing: 23502, duplicate id: 23505, missing lecturer: 23503) leaves
    the store as it was, and a failed [getCourses] request yields no
    list. *)
Theorem createCourse_then_listed (st : Supabase.Store) (i : Supabase.CourseInput) :
  let r := Supabase.createCourse st i in
  (forall c, snd r = Supabase.Ok c <->
     (exists q, Supabase.ci_year i = Some q /\ q == inject_Z (Schema.c_year c) /\
                -2147483648 <= Schema.c_year c <= 2147483647) /\
     (exists q, Supabase.ci_total_planned_classes i = Some q /\
                q == inject_Z (Schema.c_total_planned_classes c) /\
                -2147483648 <= Schema.c_total_planned_classes c <= 2147483647) /\
     Schema.c_id c = Supabase.ci_id i /\
     Schema.c_lecturer_id c = Supabase.ci_lecturer_id i /\
     Schema.c_code c = Supabase.ci_code i /\ Schema.c_name c = Supabase.ci_name i /\
     Schema.c_department c = Supabase.ci_department i /\
     Schema.c_semester c = Supabase.ci_semester i /\
     Schema.c_room c = Supabase.ci_room i /\
     ~ In (Supabase.ci_id i) (map Schema.c_id (Supabase.courses st)) /\
     In (Supabase.ci_lecturer_id i) (map Schema.l_id (Supabase.lecturers st))) /\
  (forall c, snd r = Supabase.Ok c ->
     Supabase.courses (fst r) = (Supabase.courses st ++ [c])%list /\
     forall lid, exists l,
       Screens.loadCourses (fst r) None lid = Some l /\
       (forall y, In y l <->
                  (In y (Supabase.courses st) \/ y = c) /\ Schema.c_lecturer_id y = lid) /\
       (In c l <-> lid = Schema.c_lecturer_id c)) /\
  (forall e, snd r = Supabase.Throw e ->
     fst r = st /\
     (e = Supabase.invalid_text_representation \/ e = Supabase.numeric_value_out_of_range \/
      e = Supabase.not_null_violation \/ e = Supabase.unique_violation \/
      e = Supabase.foreign_key_violation)) /\
  (forall lid l, Screens.loadCourses st None lid = Some l ->
     forall y, In y l <-> In y (Supabase.courses st) /\ Schema.c_lecturer_id y = lid) /\
  (forall lid e, Screens.loadCourses st (Some e) lid = None).
Proof.
  cbv zeta.
  assert (Hrow : forall c,
            Supabase.course_row i = Supabase.Ok c <->
            (exists q, Supabase.ci_year i = Some q /\ q == inject_Z (Schema.c_year c) /\
                       -2147483648 <= Schema.c_year c <= 2147483647) /\
            (exists q, Supabase.ci_total_planned_classes i = Some q /\
                       q == inject_Z (Schema.c_total_planned_classes c) /\
                       -2147483648 <= Schema.c_total_planned_classes c <= 2147483647) /\
            Schema.c_id c = Supabase.ci_id i /\
            Schema.c_lecturer_id c = Supabase.ci_lecturer_id i /\
            Schema.c_code c = Supabase.ci_code i /\ Schema.c_name c = Supabase.ci_name i /\
            Schema.c_department c = Supabase.ci_department i /\
            Schema.c_semester c = Supabase.ci_semester i /\
            Schema.c_room c = Supabase.ci_room i).
  { intro c. rewrite course_row_ok, !to_integer_ok. tauto. }
  split; [| split; [| split; [| split; [exact (loadCourses_In st) | reflexivity]]]].
  - intro c. unfold Supabase.createCourse.
    destruct (Supabase.course_row i) as [c0 | e] eqn:Er.
    + destruct (insert_course_cases st c0) as [[Hi E] | [[Hi [Hl E]] | [Hi [Hl E]]]];
        rewrite E; cbn [snd]; pose proof (proj1 (Hrow c0) eq_refl) as R0;
        destruct R0 as [_ [_ [Eid [Elid _]]]]; rewrite Eid in Hi.
      * split; [discriminate |]. intros H. exfalso. tauto.
      * rewrite Elid in Hl. split; [discriminate |]. intros H. exfalso. tauto.
      * rewrite Elid in Hl. split.
        -- intro H. inversion H. subst c0. pose proof (proj1 (Hrow c) eq_refl). tauto.
        -- intro H. apply Hrow. tauto.
    + cbn [snd]. split; [discriminate |]. intro H.
      assert (Rc : Supabase.Throw e = Supabase.Ok c) by (apply Hrow; tauto).
      discriminate.
  - intros c. unfold Supabase.createCourse.
    destruct (Supabase.course_row i) as [c0 | e] eqn:Er; [| discriminate].
    destruct (insert_course_cases st c0) as [[Hi E] | [[Hi [Hl E]] | [Hi [Hl E]]]];
      rewrite E; cbn [fst snd]; try discriminate.
    intro Hx. inversion Hx. subst c0. cbn [Supabase.courses]. split; [reflexivity |].
    intro lid. eexists. split; [reflexivity |].
    assert (Hin : forall y,
              In y (filter (fun c0 => String.eqb (Schema.c_lecturer_id c0) lid)
                      (Queries.sort_by
                         (fun x y0 => Queries.str_lt (Schema.c_code x) (Schema.c_code y0))
                         (Supabase.courses st ++ [c]))) <->
              (In y (Supabase.courses st) \/ y = c) /\ Schema.c_lecturer_id y = lid).
    { intro y. rewrite filter_In, String.eqb_eq.
      assert (P : In y (Queries.sort_by
                          (fun x y0 => Queries.str_lt (Schema.c_code x) (Schema.c_code y0))
                          (Supabase.courses st ++ [c]))
                  <-> In y (Supabase.courses st) \/ y = c).
      { split.
        - intro H. apply (Permutation_in _ (sort_by_perm _ _ _)) in H.
          apply in_app_or in H. destruct H as [H | [H | []]]; [left; exact H | right; auto].
        - intro H. apply (Permutation_in _ (Permutation_sym (sort_by_perm _ _ _))).
          apply in_or_app. destruct H as [H | H]; [left; exact H | right; left; auto]. }
      rewrite P. tauto. }
    split; [exact Hin |].
    rewrite Hin. split; [intros [_ H]; auto | intro H; split; [right; reflexivity | auto]].
  - intros e. unfold Supabase.createCourse.
    destruct (Supabase.course_row i) as [c0 | e0] eqn:Er.
    + destruct (insert_course_cases st c0) as [[Hi E] | [[Hi [Hl E]] | [Hi [Hl E]]]];
        rewrite E; cbn [fst snd]; intro H; inversion H; split; try reflexivity; tauto.
    + cbn [fst snd]. intro H. inversion H. subst e0. split; [reflexivity |].
      clear Hrow. destruct (course_row_errors i e Er) as [W | [W | W]]; tauto.
Qed.
